(** * JanOS device session engine: line classifiers, command channel and
      session orchestration of [JanOS_dev_0.0.1.py]

    Conventions of the embedding.
    - A Python [str] is a list of characters.  Characters are the code
      points 0..255 (one [ascii] each); the character classes below are
      Python's on that range.
    - Python integers are [Z].  [int()] is modelled without the
      interpreter's optional limit on the number of digits.
    - Exceptions are explicit: a method that can raise returns a [result].
    - Wall-clock time ([time.time()], [time.sleep]) is a logical clock in
      milliseconds: [0.1] s is [100], [1] s is [1000].  The device is a
      scripted source of lines, each readable from a given instant.
    - The serial connection is open ([setup_serial] leaves the process
      otherwise) and its reads and writes do not fail; [KeyboardInterrupt]
      is not modelled.
    - Printing and the blocking "Press Enter" prompts are presentation and
      are left out; every other statement of a modelled method is kept. *)

From Stdlib Require Import String Ascii.
From Stdlib Require Import Numbers.DecimalString.
From Stdlib Require Import List ZArith Lia Bool Arith.
Import ListNotations.

(** ** Python strings *)

Module PyStr.

Definition str := list ascii.

Definition lit (s : string) : str := list_ascii_of_string s.
Arguments lit s%_string.

Definition dquote : ascii := ascii_of_nat 34.
Definition newline : ascii := ascii_of_nat 10.

Definition code (c : ascii) : nat := nat_of_ascii c.

Definition in_range (lo hi : nat) (c : ascii) : bool :=
  (lo <=? code c) && (code c <=? hi).

(** [str.isdecimal] on one character (what [\d] tests). *)
Definition is_digit (c : ascii) : bool := in_range 48 57 c.

(** [str.isspace] on one character (what [\s] and [strip()] test). *)
Definition is_space (c : ascii) : bool :=
  in_range 9 13 c || in_range 28 32 c
  || (code c =? 133) || (code c =? 160).

Definition is_upper (c : ascii) : bool :=
  in_range 65 90 c || in_range 192 214 c || in_range 216 222 c.

Definition lower_char (c : ascii) : ascii :=
  if is_upper c then ascii_of_nat (code c + 32) else c.

(** [s.lower()] *)
Definition lower (s : str) : str := map lower_char s.

Definition ascii_eqb (a b : ascii) : bool := Ascii.eqb a b.

Fixpoint str_eqb (a b : str) : bool :=
  match a, b with
  | [], [] => true
  | x :: a', y :: b' => ascii_eqb x y && str_eqb a' b'
  | _, _ => false
  end.

(** [s.startswith(p)] *)
Fixpoint startswith (s p : str) {struct p} : bool :=
  match p, s with
  | [], _ => true
  | x :: p', y :: s' => ascii_eqb x y && startswith s' p'
  | _ :: _, [] => false
  end.

(** [s.find(sub)]: index of the first occurrence, [None] for Python's -1. *)
Fixpoint find (sub s : str) : option nat :=
  if startswith s sub then Some 0
  else match s with
       | [] => None
       | _ :: s' => option_map S (find sub s')
       end.

(** [sub in s] *)
Definition contains (sub s : str) : bool :=
  match find sub s with Some _ => true | None => false end.

(** [s.split(sep)] for a non-empty separator: cut at the first occurrence,
    continue after it.  The fuel bounds the number of cuts. *)
Fixpoint split_fuel (fuel : nat) (sep s : str) : list str :=
  match fuel with
  | 0 => [s]
  | S fuel' =>
      match find sep s with
      | None => [s]
      | Some i => firstn i s :: split_fuel fuel' sep (skipn (i + length sep) s)
      end
  end.

Definition split (sep s : str) : list str := split_fuel (length s) sep s.

(** [sep.join(parts)] *)
Fixpoint join (sep : str) (parts : list str) : str :=
  match parts with
  | [] => []
  | [p] => p
  | p :: rest => p ++ sep ++ join sep rest
  end.

Fixpoint lstrip_by (p : ascii -> bool) (s : str) : str :=
  match s with
  | [] => []
  | c :: s' => if p c then lstrip_by p s' else s
  end.

Definition rstrip_by (p : ascii -> bool) (s : str) : str :=
  rev (lstrip_by p (rev s)).

Definition strip_by (p : ascii -> bool) (s : str) : str :=
  rstrip_by p (lstrip_by p s).

(** [s.strip()] *)
Definition strip (s : str) : str := strip_by is_space s.

(** [s.strip(chars)] *)
Definition strip_chars (chars s : str) : str :=
  strip_by (fun c => existsb (ascii_eqb c) chars) s.

(** Truth value of a string: non-empty. *)
Definition truthy (s : str) : bool :=
  match s with [] => false | _ => true end.

(** [str(n)] for an integer. *)
Definition str_of_Z (z : Z) : str :=
  lit (NilZero.string_of_int (Z.to_int z)).

Definition digit_val (c : ascii) : Z := (Z.of_nat (code c) - 48)%Z.

(** Value of a string of decimal digits, most significant first. *)
Definition digits_val (s : str) : Z :=
  fold_left (fun acc c => (10 * acc + digit_val c)%Z) s 0%Z.

End PyStr.

Import PyStr.

(** ** Exceptions *)

Inductive exn : Type := IndexError | ValueError | TypeError.

Inductive result (A : Type) : Type :=
| Ok (a : A)
| Raise (e : exn).

Arguments Ok {A} a.
Arguments Raise {A} e.

Definition bind {A B : Type} (m : result A) (f : A -> result B) : result B :=
  match m with
  | Ok a => f a
  | Raise e => Raise e
  end.

Notation "x <- m ;; k" := (bind m (fun x => k))
  (at level 61, m at next level, right associativity).

(** [try: body  except: return handler] *)
Definition try_except {A : Type} (body : result A) (handler : A) : result A :=
  match body with
  | Ok a => Ok a
  | Raise _ => Ok handler
  end.

(** [l[i]] for a non-negative index. *)
Definition getitem {A : Type} (l : list A) (i : nat) : result A :=
  match nth_error l i with
  | Some x => Ok x
  | None => Raise IndexError
  end.

(** Digits of an integer literal, where single underscores may separate
    digits. *)
Fixpoint int_digits (s : str) (after_digit : bool) (acc : Z) : option Z :=
  match s with
  | [] => if after_digit then Some acc else None
  | c :: s' =>
      if is_digit c then int_digits s' true (10 * acc + digit_val c)%Z
      else if ascii_eqb c "_"%char
           then (if after_digit then int_digits s' false acc else None)
           else None
  end.

(** [int(s)].  The interpreter removes the white space of [str.strip]
    around a text that has a character above 127, and only the six ASCII
    white-space characters around one that has none; the two agree on what
    the program passes, which is a run of digits that a pattern captured or
    a text that [strip] has already been applied to. *)
Definition py_int (s : str) : result Z :=
  let t := strip s in
  let '(neg, body) :=
    match t with
    | c :: r =>
        if ascii_eqb c "-"%char then (true, r)
        else if ascii_eqb c "+"%char then (false, r)
        else (false, t)
    | [] => (false, t)
    end in
  match int_digits body false 0%Z with
  | Some v => Ok (if neg then (- v)%Z else v)
  | None => Raise ValueError
  end.

(** ** Network management: class [NetworkManager] *)

Module NetworkManager.

(** The dictionary built by [parse_network_line]: its eight keys. *)
Record NetworkRecord : Type := mkNetwork {
  index : str;
  ssid : str;
  vendor : str;
  bssid : str;
  channel : str;
  auth : str;
  rssi : str;
  band : str
}.

Record t : Type := mk {
  networks : list NetworkRecord;
  network_count : Z;
  selected_networks : str;
  scan_done : bool
}.

(** [__init__] *)
Definition init : t :=
  {| networks := []; network_count := 0; selected_networks := []; scan_done := false |}.

(** The separator [","] of the quoted CSV shape. *)
Definition csv_sep : str := [dquote; ","%char; dquote].

Definition hidden : str := lit "<hidden>".

(** The body of the [try] block of [parse_network_line]. *)
Definition parse_network_line_try (line : str) : result (option NetworkRecord) :=
  let parts := map (strip_chars [dquote]) (split csv_sep line) in
  if length parts <? 8 then Ok None
  else
    p0 <- getitem parts 0 ;;
    c1 <- getitem parts 1 ;;
    s1 <- (if truthy c1 then getitem parts 1 else Ok hidden) ;;
    p2 <- getitem parts 2 ;;
    p3 <- getitem parts 3 ;;
    p4 <- getitem parts 4 ;;
    p5 <- getitem parts 5 ;;
    p6 <- getitem parts 6 ;;
    p7 <- getitem parts 7 ;;
    Ok (Some {| index := p0; ssid := s1; vendor := p2; bssid := p3;
                channel := p4; auth := p5; rssi := p6; band := p7 |}).

(** [parse_network_line], with the exceptions it could let through. *)
Definition parse_network_line_exn (line : str) : result (option NetworkRecord) :=
  if negb (startswith line [dquote]) then Ok None
  else try_except (parse_network_line_try line) None.

(** [parse_network_line] as its callers see it. *)
Definition parse_network_line (line : str) : option NetworkRecord :=
  match parse_network_line_exn line with
  | Ok r => r
  | Raise _ => None
  end.

Definition add_network (line : str) (nm : t) : t :=
  match parse_network_line line with
  | Some network =>
      {| networks := networks nm ++ [network];
         network_count := network_count nm + 1;
         selected_networks := selected_networks nm;
         scan_done := scan_done nm |}
  | None => nm
  end.

Definition clear_networks (nm : t) : t :=
  {| networks := [];
     network_count := 0;
     selected_networks := selected_networks nm;
     scan_done := false |}.

Definition set_selected_networks (selection : str) (nm : t) : t :=
  {| networks := networks nm;
     network_count := network_count nm;
     selected_networks := selection;
     scan_done := scan_done nm |}.

Definition set_scan_done (b : bool) (nm : t) : t :=
  {| networks := networks nm;
     network_count := network_count nm;
     selected_networks := selected_networks nm;
     scan_done := b |}.

(** A line of the eight-field quoted CSV shape, for examples. *)
Definition quoted (fields : list str) : str :=
  dquote :: join csv_sep fields ++ [dquote].

End NetworkManager.

(** ** Regular expressions: the fragment of [re] the program uses *)

Module Re.

(** Character sets: a literal, a range [lo-hi], [\d], [\s], [.] and the
    union of the items of a bracket expression. *)
Inductive cset : Type :=
| CChar (c : ascii)
| CRange (lo hi : ascii)
| CDigit
| CSpace
| CDot
| CUnion (a b : cset).

Definition is_lower (c : ascii) : bool :=
  in_range 97 122 c || in_range 224 246 c || in_range 248 254 c.

Definition upper_char (c : ascii) : ascii :=
  if is_lower c then ascii_of_nat (code c - 32) else c.

(** Membership; [icase] is the flag [re.IGNORECASE]. *)
Fixpoint cset_mem (icase : bool) (cs : cset) (c : ascii) : bool :=
  match cs with
  | CChar x =>
      if icase then ascii_eqb (lower_char x) (lower_char c) else ascii_eqb x c
  | CRange lo hi =>
      in_range (code lo) (code hi) c
      || (icase && (in_range (code lo) (code hi) (lower_char c)
                    || in_range (code lo) (code hi) (upper_char c)))
  | CDigit => is_digit c
  | CSpace => is_space c
  | CDot => negb (ascii_eqb c newline)
  | CUnion a b => cset_mem icase a c || cset_mem icase b c
  end.

(** Patterns.  Repetition is greedy.  [Group i] is the i-th parenthesis;
    [Bol] is [^] and [Eol] is [$] (not in multi-line mode). *)
Inductive regex : Type :=
| Eps
| Chr (cs : cset)
| Seq (a b : regex)
| Opt (a : regex)
| Star (a : regex)
| Group (i : nat) (a : regex)
| Bol
| Eol.

(** [a+] *)
Definition Plus (a : regex) : regex := Seq a (Star a).

(** [a{n}] *)
Fixpoint Rep (n : nat) (a : regex) : regex :=
  match n with
  | 0 => Eps
  | S n' => Seq a (Rep n' a)
  end.

(** A literal string. *)
Fixpoint Lit (s : str) : regex :=
  match s with
  | [] => Eps
  | c :: s' => Seq (Chr (CChar c)) (Lit s')
  end.

(** Captured groups, the most recent capture first. *)
Definition groups := list (nat * str).

Fixpoint group (i : nat) (g : groups) : option str :=
  match g with
  | [] => None
  | (j, w) :: g' => if Nat.eqb i j then Some w else group i g'
  end.

Section Matcher.

Variable A : Type.
Variable icase : bool.
(** Length of the whole subject, to recognise its start. *)
Variable n0 : nat.

Definition cont := str -> groups -> option A.

Definition orelse (x y : option A) : option A :=
  match x with
  | Some _ => x
  | None => y
  end.

(** Greedy iteration of [body]: one more round if it consumes something
    and the rest then matches, else the continuation here. *)
Fixpoint star_loop (body : str -> groups -> cont -> option A) (k : cont)
    (fuel : nat) (s : str) (g : groups) : option A :=
  match fuel with
  | 0 => k s g
  | S fuel' =>
      orelse
        (body s g (fun s1 g1 =>
           if length s1 <? length s then star_loop body k fuel' s1 g1 else None))
        (k s g)
  end.

(** Backtracking matcher in continuation style: [m r s g k] matches [r]
    at the front of [s] and hands the rest to [k]; alternatives are tried
    in the order of Python's engine. *)
Fixpoint m (r : regex) (s : str) (g : groups) (k : cont) {struct r} : option A :=
  match r with
  | Eps => k s g
  | Chr cs =>
      match s with
      | c :: s' => if cset_mem icase cs c then k s' g else None
      | [] => None
      end
  | Seq a b => m a s g (fun s1 g1 => m b s1 g1 k)
  | Opt a => orelse (m a s g k) (k s g)
  | Star a => star_loop (m a) k (length s) s g
  | Group i a =>
      m a s g (fun s1 g1 => k s1 ((i, firstn (length s - length s1) s) :: g1))
  | Bol => if length s =? n0 then k s g else None
  | Eol =>
      match s with
      | [] => k s g
      | [c] => if ascii_eqb c newline then k s g else None
      | _ => None
      end
  end.

End Matcher.

Arguments orelse {A} x y.
Arguments star_loop {A} body k fuel s g.
Arguments m {A} icase n0 r s g k.

(** What the matcher computes, as a relation: [M r s g s' g'] when [r]
    matches the front of [s] leaving [s'], turning the captures [g] into
    [g'].  A round of a star consumes at least one character. *)
Inductive M (icase : bool) (n0 : nat)
  : regex -> str -> groups -> str -> groups -> Prop :=
| M_Eps : forall s g, M icase n0 Eps s g s g
| M_Chr : forall cs c s g,
    cset_mem icase cs c = true -> M icase n0 (Chr cs) (c :: s) g s g
| M_Seq : forall a b s g s1 g1 s2 g2,
    M icase n0 a s g s1 g1 -> M icase n0 b s1 g1 s2 g2 ->
    M icase n0 (Seq a b) s g s2 g2
| M_OptSome : forall a s g s1 g1,
    M icase n0 a s g s1 g1 -> M icase n0 (Opt a) s g s1 g1
| M_OptNone : forall a s g, M icase n0 (Opt a) s g s g
| M_StarNil : forall a s g, M icase n0 (Star a) s g s g
| M_StarCons : forall a s g s1 g1 s2 g2,
    M icase n0 a s g s1 g1 -> length s1 < length s ->
    M icase n0 (Star a) s1 g1 s2 g2 ->
    M icase n0 (Star a) s g s2 g2
| M_Group : forall i a s g s1 g1,
    M icase n0 a s g s1 g1 ->
    M icase n0 (Group i a) s g s1 ((i, firstn (length s - length s1) s) :: g1)
| M_Bol : forall s g, length s = n0 -> M icase n0 Bol s g s g
| M_Eol : forall s g, s = [] \/ s = [newline] -> M icase n0 Eol s g s g.

(** [w] matches the literal [p], character by character. *)
Definition lit_match (icase : bool) (p w : str) : Prop :=
  Forall2 (fun x c => cset_mem icase (CChar x) c = true) p w.

(** Every character of [w] is in the set. *)
Definition all_in (icase : bool) (cs : cset) (w : str) : Prop :=
  Forall (fun c => cset_mem icase cs c = true) w.

(** A match object: where it starts, [group(0)] and the numbered groups. *)
Record match_obj : Type := mkMatch {
  m_start : nat;
  m_text : str;
  m_groups : groups
}.

Definition match_at (icase : bool) (r : regex) (n0 pos : nat) (s : str)
  : option match_obj :=
  m icase n0 r s []
    (fun s' g => Some {| m_start := pos;
                         m_text := firstn (length s - length s') s;
                         m_groups := g |}).

Fixpoint search_from (icase : bool) (r : regex) (n0 pos : nat) (s : str)
  : option match_obj :=
  match match_at icase r n0 pos s with
  | Some x => Some x
  | None =>
      match s with
      | [] => None
      | _ :: s' => search_from icase r n0 (S pos) s'
      end
  end.

(** [re.search(r, s)], with [icase] for [re.IGNORECASE]. *)
Definition search (icase : bool) (r : regex) (s : str) : option match_obj :=
  search_from icase r (length s) 0 s.

(** [re.match(r, s)] *)
Definition match_ (icase : bool) (r : regex) (s : str) : option match_obj :=
  match_at icase r (length s) 0 s.

(** [mo.group(i)] for a group that took part in the match. *)
Definition group_of (i : nat) (mo : match_obj) : option str :=
  group i (m_groups mo).

End Re.

(** ** Serial communication: class [SerialManager] *)

Module SerialManager.

(** The serial port and the clock, as a scripted source: the lines the
    device will emit, each with the time it becomes readable.  A line is
    what one [readline()] returns, decoded, terminator included.  Reading a
    buffered line takes no logical time. *)
Record port : Type := mkPort {
  clock : Z;
  inbox : list (Z * str)
}.

Record t : Type := mk {
  serial_conn : port;
  written : list str
}.

Definition READ_TIMEOUT : Z := 2000.
Definition SCAN_TIMEOUT : Z := 15000.

(** [time.time()] *)
Definition now (sm : t) : Z := clock (serial_conn sm).

(** [time.sleep(d)] *)
Definition sleep (d : Z) (sm : t) : t :=
  {| serial_conn := {| clock := clock (serial_conn sm) + d;
                       inbox := inbox (serial_conn sm) |};
     written := written sm |}.

(** [serial_conn.in_waiting], as a truth value. *)
Definition in_waiting (sm : t) : bool :=
  match inbox (serial_conn sm) with
  | (at_, _) :: _ => (at_ <=? clock (serial_conn sm))%Z
  | [] => false
  end.

(** [serial_conn.readline().decode('utf-8', errors='replace')]: the next
    line if it is there within the read timeout, else the empty string. *)
Definition readline (sm : t) : str * t :=
  let p := serial_conn sm in
  match inbox p with
  | (at_, l) :: rest =>
      if (at_ <=? clock p + READ_TIMEOUT)%Z
      then (l, {| serial_conn := {| clock := Z.max (clock p) at_; inbox := rest |};
                  written := written sm |})
      else ([], sleep READ_TIMEOUT sm)
  | [] => ([], sleep READ_TIMEOUT sm)
  end.

(** [send_command]: the command and its terminator are written, then the
    settle delay. *)
Definition send_command (command : str) (sm : t) : t :=
  let full_command := command ++ [ascii_of_nat 13; newline] in
  sleep 100 {| serial_conn := serial_conn sm;
               written := written sm ++ [full_command] |}.

(** The loop of [read_response]; [fuel] bounds its iterations. *)
Fixpoint read_response_loop (fuel : nat) (start_time timeout : Z)
    (lines : list str) (sm : t) : option (list str * t) :=
  match fuel with
  | 0 => None
  | S fuel' =>
      if (now sm - start_time <? timeout)%Z then
        if in_waiting sm then
          let '(raw, sm1) := readline sm in
          let line := strip raw in
          if truthy line
          then read_response_loop fuel' start_time timeout (lines ++ [line]) sm1
          else read_response_loop fuel' start_time timeout lines sm1
        else read_response_loop fuel' start_time timeout lines (sleep 100 sm)
      else Some (lines, sm)
  end.

(** [read_response(timeout)] *)
Definition read_response (fuel : nat) (timeout : Z) (sm : t)
  : option (list str * t) :=
  read_response_loop fuel (now sm) timeout [] sm.

(** Iterations that always suffice: one per pending line and one per
    sleep, and the final test. *)
Definition enough_fuel (timeout : Z) (sm : t) : nat :=
  length (inbox (serial_conn sm)) + Z.to_nat (timeout / 100 + 1) + 1.

End SerialManager.

(** ** The application: class [JanOS] *)

Module JanOS.

(** The background listener threads. *)
Inductive listener : Type := SnifferListener | PortalListener | EvilTwinListener.

(** The attributes of the session that the modelled methods read or write.
    A [threading.Event] is its flag.  [joined] is not an attribute: it
    logs the [join] calls, in order. *)
Record t : Type := mk {
  serial_mgr : SerialManager.t;
  network_mgr : NetworkManager.t;
  attack_running : bool;
  blackout_running : bool;
  sniffer_running : bool;
  sae_overflow_running : bool;
  handshake_running : bool;
  portal_running : bool;
  evil_twin_running : bool;
  sniffer_packets : Z;
  sniffer_thread : option listener;
  stop_sniffer_event : bool;
  portal_thread : option listener;
  stop_portal_event : bool;
  evil_twin_thread : option listener;
  stop_evil_twin_event : bool;
  submitted_forms : Z;
  last_submitted_data : str;
  client_count : Z;
  joined : list listener
}.

Definition set_serial_mgr (v : SerialManager.t) (j : t) : t :=
  {| serial_mgr := v;
     network_mgr := network_mgr j;
     attack_running := attack_running j;
     blackout_running := blackout_running j;
     sniffer_running := sniffer_running j;
     sae_overflow_running := sae_overflow_running j;
     handshake_running := handshake_running j;
     portal_running := portal_running j;
     evil_twin_running := evil_twin_running j;
     sniffer_packets := sniffer_packets j;
     sniffer_thread := sniffer_thread j;
     stop_sniffer_event := stop_sniffer_event j;
     portal_thread := portal_thread j;
     stop_portal_event := stop_portal_event j;
     evil_twin_thread := evil_twin_thread j;
     stop_evil_twin_event := stop_evil_twin_event j;
     submitted_forms := submitted_forms j;
     last_submitted_data := last_submitted_data j;
     client_count := client_count j;
     joined := joined j |}.

Definition set_network_mgr (v : NetworkManager.t) (j : t) : t :=
  {| serial_mgr := serial_mgr j;
     network_mgr := v;
     attack_running := attack_running j;
     blackout_running := blackout_running j;
     sniffer_running := sniffer_running j;
     sae_overflow_running := sae_overflow_running j;
     handshake_running := handshake_running j;
     portal_running := portal_running j;
     evil_twin_running := evil_twin_running j;
     sniffer_packets := sniffer_packets j;
     sniffer_thread := sniffer_thread j;
     stop_sniffer_event := stop_sniffer_event j;
     portal_thread := portal_thread j;
     stop_portal_event := stop_portal_event j;
     evil_twin_thread := evil_twin_thread j;
     stop_evil_twin_event := stop_evil_twin_event j;
     submitted_forms := submitted_forms j;
     last_submitted_data := last_submitted_data j;
     client_count := client_count j;
     joined := joined j |}.

Definition set_attack_running (v : bool) (j : t) : t :=
  {| serial_mgr := serial_mgr j;
     network_mgr := network_mgr j;
     attack_running := v;
     blackout_running := blackout_running j;
     sniffer_running := sniffer_running j;
     sae_overflow_running := sae_overflow_running j;
     handshake_running := handshake_running j;
     portal_running := portal_running j;
     evil_twin_running := evil_twin_running j;
     sniffer_packets := sniffer_packets j;
     sniffer_thread := sniffer_thread j;
     stop_sniffer_event := stop_sniffer_event j;
     portal_thread := portal_thread j;
     stop_portal_event := stop_portal_event j;
     evil_twin_thread := evil_twin_thread j;
     stop_evil_twin_event := stop_evil_twin_event j;
     submitted_forms := submitted_forms j;
     last_submitted_data := last_submitted_data j;
     client_count := client_count j;
     joined := joined j |}.

Definition set_blackout_running (v : bool) (j : t) : t :=
  {| serial_mgr := serial_mgr j;
     network_mgr := network_mgr j;
     attack_running := attack_running j;
     blackout_running := v;
     sniffer_running := sniffer_running j;
     sae_overflow_running := sae_overflow_running j;
     handshake_running := handshake_running j;
     portal_running := portal_running j;
     evil_twin_running := evil_twin_running j;
     sniffer_packets := sniffer_packets j;
     sniffer_thread := sniffer_thread j;
     stop_sniffer_event := stop_sniffer_event j;
     portal_thread := portal_thread j;
     stop_portal_event := stop_portal_event j;
     evil_twin_thread := evil_twin_thread j;
     stop_evil_twin_event := stop_evil_twin_event j;
     submitted_forms := submitted_forms j;
     last_submitted_data := last_submitted_data j;
     client_count := client_count j;
     joined := joined j |}.

Definition set_sniffer_running (v : bool) (j : t) : t :=
  {| serial_mgr := serial_mgr j;
     network_mgr := network_mgr j;
     attack_running := attack_running j;
     blackout_running := blackout_running j;
     sniffer_running := v;
     sae_overflow_running := sae_overflow_running j;
     handshake_running := handshake_running j;
     portal_running := portal_running j;
     evil_twin_running := evil_twin_running j;
     sniffer_packets := sniffer_packets j;
     sniffer_thread := sniffer_thread j;
     stop_sniffer_event := stop_sniffer_event j;
     portal_thread := portal_thread j;
     stop_portal_event := stop_portal_event j;
     evil_twin_thread := evil_twin_thread j;
     stop_evil_twin_event := stop_evil_twin_event j;
     submitted_forms := submitted_forms j;
     last_submitted_data := last_submitted_data j;
     client_count := client_count j;
     joined := joined j |}.

Definition set_sae_overflow_running (v : bool) (j : t) : t :=
  {| serial_mgr := serial_mgr j;
     network_mgr := network_mgr j;
     attack_running := attack_running j;
     blackout_running := blackout_running j;
     sniffer_running := sniffer_running j;
     sae_overflow_running := v;
     handshake_running := handshake_running j;
     portal_running := portal_running j;
     evil_twin_running := evil_twin_running j;
     sniffer_packets := sniffer_packets j;
     sniffer_thread := sniffer_thread j;
     stop_sniffer_event := stop_sniffer_event j;
     portal_thread := portal_thread j;
     stop_portal_event := stop_portal_event j;
     evil_twin_thread := evil_twin_thread j;
     stop_evil_twin_event := stop_evil_twin_event j;
     submitted_forms := submitted_forms j;
     last_submitted_data := last_submitted_data j;
     client_count := client_count j;
     joined := joined j |}.

Definition set_handshake_running (v : bool) (j : t) : t :=
  {| serial_mgr := serial_mgr j;
     network_mgr := network_mgr j;
     attack_running := attack_running j;
     blackout_running := blackout_running j;
     sniffer_running := sniffer_running j;
     sae_overflow_running := sae_overflow_running j;
     handshake_running := v;
     portal_running := portal_running j;
     evil_twin_running := evil_twin_running j;
     sniffer_packets := sniffer_packets j;
     sniffer_thread := sniffer_thread j;
     stop_sniffer_event := stop_sniffer_event j;
     portal_thread := portal_thread j;
     stop_portal_event := stop_portal_event j;
     evil_twin_thread := evil_twin_thread j;
     stop_evil_twin_event := stop_evil_twin_event j;
     submitted_forms := submitted_forms j;
     last_submitted_data := last_submitted_data j;
     client_count := client_count j;
     joined := joined j |}.

Definition set_portal_running (v : bool) (j : t) : t :=
  {| serial_mgr := serial_mgr j;
     network_mgr := network_mgr j;
     attack_running := attack_running j;
     blackout_running := blackout_running j;
     sniffer_running := sniffer_running j;
     sae_overflow_running := sae_overflow_running j;
     handshake_running := handshake_running j;
     portal_running := v;
     evil_twin_running := evil_twin_running j;
     sniffer_packets := sniffer_packets j;
     sniffer_thread := sniffer_thread j;
     stop_sniffer_event := stop_sniffer_event j;
     portal_thread := portal_thread j;
     stop_portal_event := stop_portal_event j;
     evil_twin_thread := evil_twin_thread j;
     stop_evil_twin_event := stop_evil_twin_event j;
     submitted_forms := submitted_forms j;
     last_submitted_data := last_submitted_data j;
     client_count := client_count j;
     joined := joined j |}.

Definition set_evil_twin_running (v : bool) (j : t) : t :=
  {| serial_mgr := serial_mgr j;
     network_mgr := network_mgr j;
     attack_running := attack_running j;
     blackout_running := blackout_running j;
     sniffer_running := sniffer_running j;
     sae_overflow_running := sae_overflow_running j;
     handshake_running := handshake_running j;
     portal_running := portal_running j;
     evil_twin_running := v;
     sniffer_packets := sniffer_packets j;
     sniffer_thread := sniffer_thread j;
     stop_sniffer_event := stop_sniffer_event j;
     portal_thread := portal_thread j;
     stop_portal_event := stop_portal_event j;
     evil_twin_thread := evil_twin_thread j;
     stop_evil_twin_event := stop_evil_twin_event j;
     submitted_forms := submitted_forms j;
     last_submitted_data := last_submitted_data j;
     client_count := client_count j;
     joined := joined j |}.


Definition set_stop_sniffer_event (v : bool) (j : t) : t :=
  {| serial_mgr := serial_mgr j;
     network_mgr := network_mgr j;
     attack_running := attack_running j;
     blackout_running := blackout_running j;
     sniffer_running := sniffer_running j;
     sae_overflow_running := sae_overflow_running j;
     handshake_running := handshake_running j;
     portal_running := portal_running j;
     evil_twin_running := evil_twin_running j;
     sniffer_packets := sniffer_packets j;
     sniffer_thread := sniffer_thread j;
     stop_sniffer_event := v;
     portal_thread := portal_thread j;
     stop_portal_event := stop_portal_event j;
     evil_twin_thread := evil_twin_thread j;
     stop_evil_twin_event := stop_evil_twin_event j;
     submitted_forms := submitted_forms j;
     last_submitted_data := last_submitted_data j;
     client_count := client_count j;
     joined := joined j |}.

Definition set_stop_portal_event (v : bool) (j : t) : t :=
  {| serial_mgr := serial_mgr j;
     network_mgr := network_mgr j;
     attack_running := attack_running j;
     blackout_running := blackout_running j;
     sniffer_running := sniffer_running j;
     sae_overflow_running := sae_overflow_running j;
     handshake_running := handshake_running j;
     portal_running := portal_running j;
     evil_twin_running := evil_twin_running j;
     sniffer_packets := sniffer_packets j;
     sniffer_thread := sniffer_thread j;
     stop_sniffer_event := stop_sniffer_event j;
     portal_thread := portal_thread j;
     stop_portal_event := v;
     evil_twin_thread := evil_twin_thread j;
     stop_evil_twin_event := stop_evil_twin_event j;
     submitted_forms := submitted_forms j;
     last_submitted_data := last_submitted_data j;
     client_count := client_count j;
     joined := joined j |}.

Definition set_stop_evil_twin_event (v : bool) (j : t) : t :=
  {| serial_mgr := serial_mgr j;
     network_mgr := network_mgr j;
     attack_running := attack_running j;
     blackout_running := blackout_running j;
     sniffer_running := sniffer_running j;
     sae_overflow_running := sae_overflow_running j;
     handshake_running := handshake_running j;
     portal_running := portal_running j;
     evil_twin_running := evil_twin_running j;
     sniffer_packets := sniffer_packets j;
     sniffer_thread := sniffer_thread j;
     stop_sniffer_event := stop_sniffer_event j;
     portal_thread := portal_thread j;
     stop_portal_event := stop_portal_event j;
     evil_twin_thread := evil_twin_thread j;
     stop_evil_twin_event := v;
     submitted_forms := submitted_forms j;
     last_submitted_data := last_submitted_data j;
     client_count := client_count j;
     joined := joined j |}.

Definition set_submitted_forms (v : Z) (j : t) : t :=
  {| serial_mgr := serial_mgr j;
     network_mgr := network_mgr j;
     attack_running := attack_running j;
     blackout_running := blackout_running j;
     sniffer_running := sniffer_running j;
     sae_overflow_running := sae_overflow_running j;
     handshake_running := handshake_running j;
     portal_running := portal_running j;
     evil_twin_running := evil_twin_running j;
     sniffer_packets := sniffer_packets j;
     sniffer_thread := sniffer_thread j;
     stop_sniffer_event := stop_sniffer_event j;
     portal_thread := portal_thread j;
     stop_portal_event := stop_portal_event j;
     evil_twin_thread := evil_twin_thread j;
     stop_evil_twin_event := stop_evil_twin_event j;
     submitted_forms := v;
     last_submitted_data := last_submitted_data j;
     client_count := client_count j;
     joined := joined j |}.

Definition set_last_submitted_data (v : str) (j : t) : t :=
  {| serial_mgr := serial_mgr j;
     network_mgr := network_mgr j;
     attack_running := attack_running j;
     blackout_running := blackout_running j;
     sniffer_running := sniffer_running j;
     sae_overflow_running := sae_overflow_running j;
     handshake_running := handshake_running j;
     portal_running := portal_running j;
     evil_twin_running := evil_twin_running j;
     sniffer_packets := sniffer_packets j;
     sniffer_thread := sniffer_thread j;
     stop_sniffer_event := stop_sniffer_event j;
     portal_thread := portal_thread j;
     stop_portal_event := stop_portal_event j;
     evil_twin_thread := evil_twin_thread j;
     stop_evil_twin_event := stop_evil_twin_event j;
     submitted_forms := submitted_forms j;
     last_submitted_data := v;
     client_count := client_count j;
     joined := joined j |}.

Definition set_client_count (v : Z) (j : t) : t :=
  {| serial_mgr := serial_mgr j;
     network_mgr := network_mgr j;
     attack_running := attack_running j;
     blackout_running := blackout_running j;
     sniffer_running := sniffer_running j;
     sae_overflow_running := sae_overflow_running j;
     handshake_running := handshake_running j;
     portal_running := portal_running j;
     evil_twin_running := evil_twin_running j;
     sniffer_packets := sniffer_packets j;
     sniffer_thread := sniffer_thread j;
     stop_sniffer_event := stop_sniffer_event j;
     portal_thread := portal_thread j;
     stop_portal_event := stop_portal_event j;
     evil_twin_thread := evil_twin_thread j;
     stop_evil_twin_event := stop_evil_twin_event j;
     submitted_forms := submitted_forms j;
     last_submitted_data := last_submitted_data j;
     client_count := v;
     joined := joined j |}.

Definition set_joined (v : list listener) (j : t) : t :=
  {| serial_mgr := serial_mgr j;
     network_mgr := network_mgr j;
     attack_running := attack_running j;
     blackout_running := blackout_running j;
     sniffer_running := sniffer_running j;
     sae_overflow_running := sae_overflow_running j;
     handshake_running := handshake_running j;
     portal_running := portal_running j;
     evil_twin_running := evil_twin_running j;
     sniffer_packets := sniffer_packets j;
     sniffer_thread := sniffer_thread j;
     stop_sniffer_event := stop_sniffer_event j;
     portal_thread := portal_thread j;
     stop_portal_event := stop_portal_event j;
     evil_twin_thread := evil_twin_thread j;
     stop_evil_twin_event := stop_evil_twin_event j;
     submitted_forms := submitted_forms j;
     last_submitted_data := last_submitted_data j;
     client_count := client_count j;
     joined := v |}.

(** [__init__], on an opened port.  The flags of the events start clear. *)
Definition init (p : SerialManager.port) : t :=
  {| serial_mgr := {| SerialManager.serial_conn := p; SerialManager.written := [] |};
     network_mgr := NetworkManager.init;
     attack_running := false;
     blackout_running := false;
     sniffer_running := false;
     sae_overflow_running := false;
     handshake_running := false;
     portal_running := false;
     evil_twin_running := false;
     sniffer_packets := 0;
     sniffer_thread := None;
     stop_sniffer_event := false;
     portal_thread := None;
     stop_portal_event := false;
     evil_twin_thread := None;
     stop_evil_twin_event := false;
     submitted_forms := 0;
     last_submitted_data := [];
     client_count := 0;
     joined := [] |}.

(** [self.serial_mgr.send_command(command)] *)
Definition send (command : str) (j : t) : t :=
  set_serial_mgr (SerialManager.send_command command (serial_mgr j)) j.

(** [time.sleep(d)] in the foreground. *)
Definition sleep (d : Z) (j : t) : t :=
  set_serial_mgr (SerialManager.sleep d (serial_mgr j)) j.

(** [thread.join(timeout=2)] if the handle is set. *)
Definition join_thread (th : option listener) (j : t) : t :=
  match th with
  | Some l => set_joined (joined j ++ [l]) j
  | None => j
  end.

(** [mo.group(i)], for use as an [int()] argument: a group that did not
    take part is [None], which [int()] refuses. *)
Definition group_str (i : nat) (mo : Re.match_obj) : result str :=
  match Re.group_of i mo with
  | Some w => Ok w
  | None => Raise TypeError
  end.

Import Re.

Definition digits1 : regex := Group 1 (Plus (Chr CDigit)).




(** [Client count = (\d+)] *)
Definition client_count_pattern : regex :=
  Seq (Lit (lit "Client count = ")) digits1.

(** [Password:\s*(.+)$] *)
Definition password_pattern : regex :=
  Seq (Lit (lit "Password:"))
      (Seq (Star (Chr CSpace)) (Seq (Group 1 (Plus (Chr CDot))) Eol)).

(** [update_portal_display] *)
Definition update_portal_display (data : str) (j : t) : result t :=
  if contains (lit "Client connected") data then
    Ok (set_client_count (client_count j + 1) j)
  else if contains (lit "Client count") data then
    match search false client_count_pattern data with
    | Some mo =>
        g <- group_str 1 mo ;;
        n <- py_int g ;;
        Ok (set_client_count n j)
    | None => Ok j
    end
  else if contains (lit "Password:") data then
    let j1 := set_submitted_forms (submitted_forms j + 1) j in
    match search false password_pattern data with
    | Some mo =>
        password <- group_str 1 mo ;;
        Ok (set_last_submitted_data (lit "Password: " ++ password) j1)
    | None => Ok j1
    end
  else if contains (lit "Form data:") data
          || contains (lit "username:") (lower data)
          || contains (lit "email:") (lower data) then
    Ok (set_last_submitted_data data
          (set_submitted_forms (submitted_forms j + 1) j))
  else if contains (lit "Portal data saved") data then Ok j
  else if contains (lit "error") (lower data)
          || contains (lit "failed") (lower data) then Ok j
  else if contains (lit "started successfully") data
          || contains (lit "enabled") data then Ok j
  else Ok j.

(** The lines of one [read_response] batch in [do_scan]: a quoted line is
    added to the networks; the line with the scan-complete marker sets
    [scan_done] and makes [do_scan] return ([true]), leaving the rest of
    the batch unread. *)
Fixpoint scan_lines (lines : list str) (nm : NetworkManager.t)
  : NetworkManager.t * bool :=
  match lines with
  | [] => (nm, false)
  | line :: rest =>
      let nm1 := if startswith line [dquote]
                 then NetworkManager.add_network line nm else nm in
      if contains (lit "Scan results printed") line
      then (NetworkManager.set_scan_done true nm1, true)
      else scan_lines rest nm1
  end.

(** The [while] loop of [do_scan]; [fuel] bounds its iterations. *)
Fixpoint scan_loop (fuel : nat) (start_time : Z) (j : t) : option t :=
  match fuel with
  | 0 => None
  | S fuel' =>
      if (SerialManager.now (serial_mgr j) - start_time <? SerialManager.SCAN_TIMEOUT)%Z then
        match SerialManager.read_response
                (SerialManager.enough_fuel 1000 (serial_mgr j)) 1000 (serial_mgr j) with
        | None => None
        | Some (lines, sm1) =>
            let '(nm1, returned) := scan_lines lines (network_mgr j) in
            let j1 := set_network_mgr nm1 (set_serial_mgr sm1 j) in
            if returned then Some j1
            else if NetworkManager.scan_done nm1 then Some j1
            else scan_loop fuel' start_time (sleep 100 j1)
        end
      else Some j
  end.

(** [do_scan] *)
Definition do_scan (fuel : nat) (j : t) : option t :=
  let j0 := set_network_mgr (NetworkManager.clear_networks (network_mgr j)) j in
  let j1 := send (lit "scan_networks") j0 in
  scan_loop fuel (SerialManager.now (serial_mgr j1)) j1.

(** [^[\d\s]+$] *)
Definition selection_pattern : regex :=
  Seq Bol (Seq (Plus (Chr (CUnion CDigit CSpace))) Eol).

(** [' '.join(str(i+1) for i in range(n))] *)
Definition all_indices (n : Z) : str :=
  join (lit " ") (map (fun i => str_of_Z (Z.of_nat i + 1)) (seq 0 (Z.to_nat n))).

(** [select_networks_menu]; [typed] is what [input] returns, [None] when
    it raises [EOFError]. *)
Definition select_networks_menu (typed : option str) (j : t) : t :=
  if (NetworkManager.network_count (network_mgr j) =? 0)%Z then j
  else
    match typed with
    | None => j
    | Some raw =>
        let selection := strip raw in
        if negb (truthy selection) then sleep 1000 j
        else
          let selection :=
            if str_eqb (lower selection) (lit "all")
            then all_indices (NetworkManager.network_count (network_mgr j))
            else selection in
          match match_ false selection_pattern selection with
          | None => sleep 2000 j
          | Some _ =>
              let j1 := set_network_mgr
                          (NetworkManager.set_selected_networks selection (network_mgr j)) j in
              let j2 := send (lit "select_networks " ++ selection) j1 in
              sleep 1000 (sleep 1000 j2)
          end
    end.

(** [stop_all_attacks] *)
Definition stop_all_attacks (j : t) : t :=
  if negb (attack_running j) && negb (blackout_running j)
     && negb (sniffer_running j) && negb (sae_overflow_running j)
     && negb (handshake_running j) && negb (portal_running j)
     && negb (evil_twin_running j)
  then j
  else
    let j := if attack_running j
             then set_attack_running false (send (lit "stop") j) else j in
    let j := if blackout_running j
             then set_blackout_running false (send (lit "stop") j) else j in
    let j := if sniffer_running j
             then join_thread (sniffer_thread j)
                    (set_stop_sniffer_event true
                       (set_sniffer_running false (send (lit "stop") j)))
             else j in
    let j := if sae_overflow_running j
             then set_sae_overflow_running false (send (lit "stop") j) else j in
    let j := if handshake_running j
             then set_handshake_running false (send (lit "stop") j) else j in
    let j := if portal_running j
             then join_thread (portal_thread j)
                    (set_stop_portal_event true
                       (set_portal_running false (send (lit "stop") j)))
             else j in
    let j := if evil_twin_running j
             then join_thread (evil_twin_thread j)
                    (set_stop_evil_twin_event true
                       (set_evil_twin_running false (send (lit "stop") j)))
             else j in
    j.

(** *** The probe rows of [show_sniffer_probes] *)

Record ProbeRecord : Type := mkProbe {
  client_mac : str;
  probe_ssid : str;
  probe_rssi : str;
  timestamp : str
}.

Definition hex_digit : cset :=
  CUnion (CRange "0" "9") (CUnion (CRange "A" "F") (CRange "a" "f")).

(** [([0-9A-Fa-f]{2}[:-]){5}([0-9A-Fa-f]{2})] *)
Definition mac_pattern : regex :=
  Seq (Rep 5 (Group 1 (Seq (Rep 2 (Chr hex_digit))
                           (Chr (CUnion (CChar ":") (CChar "-"))))))
      (Group 2 (Rep 2 (Chr hex_digit))).

(** [(-?\d+)\s*dBm?] *)
Definition rssi_pattern : regex :=
  Seq (Group 1 (Seq (Opt (Chr (CChar "-"))) (Plus (Chr CDigit))))
      (Seq (Star (Chr CSpace))
           (Seq (Lit (lit "dB")) (Opt (Chr (CChar "m"))))).

(** [\[(\d+:\d+:\d+)\]] *)
Definition time_pattern : regex :=
  Seq (Chr (CChar "["))
      (Seq (Group 1 (Seq (Plus (Chr CDigit))
                         (Seq (Chr (CChar ":"))
                              (Seq (Plus (Chr CDigit))
                                   (Seq (Chr (CChar ":")) (Plus (Chr CDigit)))))))
           (Chr (CChar "]"))).

(** [ssid_part and ssid_part not in ["N/A", "unknown"]] *)
Definition usable_ssid (ssid_part : str) : bool :=
  truthy ssid_part
  && negb (existsb (str_eqb ssid_part) [lit "N/A"; lit "unknown"]).

(** The header filter of the loop over the lines. *)
Definition is_probe_row (line : str) : bool :=
  truthy line && negb (startswith line (lit "Probe"))
  && negb (startswith line (lit "Total")).

(** The fields extracted from one line that passed the filter, as they are
    put in the table. *)
Definition parse_probe_line (line : str) : result ProbeRecord :=
  let client_mac :=
    match search false mac_pattern line with
    | Some mac_match => m_text mac_match
    | None => lit "N/A"
    end in
  ssid <-
    (if contains (lit "SSID:") line then
       after <- getitem (split (lit "SSID:") line) 1 ;;
       before <- getitem (split (lit ",") after) 0 ;;
       let ssid_part := strip before in
       Ok (if usable_ssid ssid_part then ssid_part else NetworkManager.hidden)
     else if contains (lit "->") line then
       after <- getitem (split (lit "->") line) 1 ;;
       before <- getitem (split (lit "(") after) 0 ;;
       let ssid_part := strip before in
       Ok (if usable_ssid ssid_part then ssid_part else NetworkManager.hidden)
     else if contains (lit "looking for") line then
       after <- getitem (split (lit "looking for") line) 1 ;;
       let ssid_part := strip after in
       Ok (if usable_ssid ssid_part then ssid_part else NetworkManager.hidden)
     else Ok NetworkManager.hidden) ;;
  rssi <-
    match search true rssi_pattern line with
    | Some rssi_match => g <- group_str 1 rssi_match ;; Ok (g ++ lit "dBm")
    | None => Ok (lit "N/A")
    end ;;
  timestamp <-
    match search false time_pattern line with
    | Some time_match => group_str 1 time_match
    | None => Ok []
    end ;;
  let ssid := if 30 <? length ssid then firstn 27 ssid ++ lit "..." else ssid in
  Ok {| client_mac := client_mac; probe_ssid := ssid;
        probe_rssi := rssi; timestamp := timestamp |}.

End JanOS.

(** ** The telemetry listeners of [SerialManager]

    [read_sniffer_data], [read_portal_data] and [read_evil_twin_data] run
    in a thread of their own until the stop event is set.  The event is set
    by the foreground at some instant [stop_at] of the logical clock; the
    listener sees it at its next test.  While it runs, the listener is the
    one reader of the port. *)

Module Listeners.

Section Loop.

(** The object the callback belongs to, with its serial manager. *)
Variable St : Type.
Variable get_sm : St -> SerialManager.t.
Variable set_sm : SerialManager.t -> St -> St.
(** The flag of the stop event, as stored. *)
Variable event : St -> bool.
(** What is done with a non-empty stripped line. *)
Variable on_line : str -> St -> St.

(** [stop_event.is_set()] *)
Definition is_set (stop_at : Z) (s : St) : bool :=
  event s || (stop_at <=? SerialManager.now (get_sm s))%Z.

(** One round of the [while] loop, after its test. *)
Definition round (s : St) : St :=
  let s1 :=
    if SerialManager.in_waiting (get_sm s) then
      let '(raw, sm1) := SerialManager.readline (get_sm s) in
      let line := strip raw in
      let s0 := set_sm sm1 s in
      if truthy line then on_line line s0 else s0
    else s in
  set_sm (SerialManager.sleep 100 (get_sm s1)) s1.

(** The loop; [fuel] bounds its rounds. *)
Fixpoint listen (fuel : nat) (stop_at : Z) (s : St) : option St :=
  match fuel with
  | 0 => None
  | S fuel' =>
      if is_set stop_at s then Some s
      else listen fuel' stop_at (round s)
  end.

End Loop.

Arguments is_set {St} get_sm event stop_at s.
Arguments round {St} get_sm set_sm on_line s.
Arguments listen {St} get_sm set_sm event on_line fuel stop_at s.


(** The body of [if line:] in [read_portal_data]. *)
Definition portal_on_line (line : str) (j : JanOS.t) : JanOS.t :=
  match JanOS.update_portal_display line j with
  | Ok j' => j'
  | Raise _ => j
  end.


(** [read_portal_data(self.update_portal_display, self.stop_portal_event)] *)
Definition read_portal_data (fuel : nat) (stop_at : Z) (j : JanOS.t)
  : option JanOS.t :=
  listen JanOS.serial_mgr JanOS.set_serial_mgr JanOS.stop_portal_event
    portal_on_line fuel stop_at j.

(** Rounds that always suffice to reach the instant [stop_at]. *)
Definition enough_rounds (stop_at : Z) (sm : SerialManager.t) : nat :=
  Z.to_nat ((stop_at - SerialManager.now sm) / 100 + 1) + 1.

(** What a run from [s] to [s'] did, seen from outside: it read a prefix
    [taken] of the pending lines, in [rounds] rounds of 100 ms each, at
    most one line a round, wrote nothing, and ended at the first test after
    the event was set. *)
Definition run_of {St : Type} (get_sm : St -> SerialManager.t)
    (event : St -> bool) (stop_at : Z) (s s' : St)
    (taken : list (Z * str)) (rounds : nat) : Prop :=
  SerialManager.inbox (SerialManager.serial_conn (get_sm s))
  = taken ++ SerialManager.inbox (SerialManager.serial_conn (get_sm s'))
  /\ SerialManager.now (get_sm s')
     = (SerialManager.now (get_sm s) + 100 * Z.of_nat rounds)%Z
  /\ length taken <= rounds
  /\ SerialManager.written (get_sm s') = SerialManager.written (get_sm s)
  /\ event s' = event s
  /\ (event s = true -> rounds = 0)
  /\ (event s = false ->
      (stop_at <= SerialManager.now (get_sm s'))%Z
      /\ ((SerialManager.now (get_sm s) < stop_at)%Z ->
          (SerialManager.now (get_sm s') < stop_at + 100)%Z)
      /\ ((stop_at <= SerialManager.now (get_sm s))%Z -> rounds = 0)).

End Listeners.

(** ** The evil twin state and its classifier *)

Module EvilTwin.

(** The session with the attributes of the evil twin attack. *)
Record t : Type := mk {
  core : JanOS.t;
  evil_twin_ssid : str;
  evil_twin_captured_data : list str;
  evil_twin_client_count : Z
}.

Definition set_core (v : JanOS.t) (e : t) : t :=
  {| core := v;
     evil_twin_ssid := evil_twin_ssid e;
     evil_twin_captured_data := evil_twin_captured_data e;
     evil_twin_client_count := evil_twin_client_count e |}.

Definition set_evil_twin_captured_data (v : list str) (e : t) : t :=
  {| core := core e;
     evil_twin_ssid := evil_twin_ssid e;
     evil_twin_captured_data := v;
     evil_twin_client_count := evil_twin_client_count e |}.

Definition set_evil_twin_client_count (v : Z) (e : t) : t :=
  {| core := core e;
     evil_twin_ssid := evil_twin_ssid e;
     evil_twin_captured_data := evil_twin_captured_data e;
     evil_twin_client_count := v |}.

(** [__init__] *)
Definition init (p : SerialManager.port) : t :=
  {| core := JanOS.init p;
     evil_twin_ssid := [];
     evil_twin_captured_data := [];
     evil_twin_client_count := 0 |}.

(** [update_evil_twin_display] *)
Definition update_evil_twin_display (data : str) (e : t) : t :=
  if contains (lit "Client connected") data then
    set_evil_twin_client_count (evil_twin_client_count e + 1) e
  else if contains (lit "trying to connect") (lower data)
          || contains (lit "association") (lower data) then e
  else if contains (lit "Password:") data
          || contains (lit "Handshake captured") data then
    set_evil_twin_captured_data (evil_twin_captured_data e ++ [data]) e
  else if contains (lit ".pcap") data || contains (lit ".cap") data
          || contains (lit "handshake saved") (lower data) then e
  else if contains (lit "error") (lower data)
          || contains (lit "failed") (lower data) then e
  else if contains (lit "started successfully") data
          || contains (lit "broadcasting") data then e
  else e.

(** [read_evil_twin_data(self.update_evil_twin_display,
    self.stop_evil_twin_event)] *)
Definition read_evil_twin_data (fuel : nat) (stop_at : Z) (e : t) : option t :=
  Listeners.listen
    (fun e => JanOS.serial_mgr (core e))
    (fun sm e => set_core (JanOS.set_serial_mgr sm (core e)) e)
    (fun e => JanOS.stop_evil_twin_event (core e))
    update_evil_twin_display fuel stop_at e.

End EvilTwin.

(** ** Starting the one-shot attacks *)

Module Attacks.

Import JanOS.

(** [confirm in ['y', 'yes']] for [confirm = input(...).strip().lower()] *)
Definition confirmed (typed : str) : bool :=
  let confirm := lower (strip typed) in
  existsb (str_eqb confirm) [lit "y"; lit "yes"].

(** The prompt, the command and the flag that the four methods share;
    [typed] is what [input] returns, [None] when it raises [EOFError]. *)
Definition confirm_and_start (command : str) (set_flag : bool -> t -> t)
    (typed : option str) (j : t) : t :=
  match typed with
  | None => j
  | Some raw =>
      if negb (confirmed raw) then sleep 1000 j
      else set_flag true (send command j)
  end.

(** [start_deauth_attack] *)
Definition start_deauth_attack (typed : option str) (j : t) : t :=
  if negb (truthy (NetworkManager.selected_networks (network_mgr j))) then j
  else confirm_and_start (lit "start_deauth") set_attack_running typed j.

(** [start_blackout_attack] *)
Definition start_blackout_attack (typed : option str) (j : t) : t :=
  confirm_and_start (lit "start_blackout") set_blackout_running typed j.

(** [start_sae_overflow_attack] *)
Definition start_sae_overflow_attack (typed : option str) (j : t) : t :=
  confirm_and_start (lit "sae_overflow") set_sae_overflow_running typed j.

(** [start_handshake_attack] *)
Definition start_handshake_attack (typed : option str) (j : t) : t :=
  confirm_and_start (lit "start_handshake") set_handshake_running typed j.

End Attacks.

(** ** Leaving: [cleanup] and the signal handler of [main] *)

Module Shutdown.

Import JanOS.




End Shutdown.

(** ** Choosing the target of the evil twin, and colouring signal levels *)

Module Menus.

Import JanOS.

(** [select_target_network_menu]: the chosen record, if any, and the
    session after the pauses. *)
Definition select_target_network_menu (typed : option str) (j : t)
  : option NetworkManager.NetworkRecord * t :=
  if (NetworkManager.network_count (network_mgr j) =? 0)%Z then (None, j)
  else
    match typed with
    | None => (None, j)
    | Some raw =>
        let selection := strip raw in
        if negb (truthy selection) || str_eqb selection (lit "0")
        then (None, sleep 1000 j)
        else
          match py_int selection with
          | Raise _ => (None, sleep 1000 j)
          | Ok index =>
              match List.find
                      (fun network =>
                         str_eqb (NetworkManager.index network) selection)
                      (NetworkManager.networks (network_mgr j)) with
              | Some network => (Some network, j)
              | None => (None, sleep 1000 j)
              end
          end
    end.

(** The colours that signal levels are shown in. *)
Inductive color : Type := RED | YELLOW | GREEN | GRAY.

(** [s.replace(old, new)] for a non-empty [old]. *)
Definition replace (old new s : str) : str := join new (split old s).

(** [NetworkManager.get_rssi_color] *)
Definition get_rssi_color (rssi_str : str) : color :=
  if negb (truthy rssi_str) then GRAY
  else
    match py_int (strip (replace (lit "dBm") [] rssi_str)) with
    | Ok rssi_num =>
        if (rssi_num <? -70)%Z then RED
        else if (rssi_num <? -50)%Z then YELLOW
        else GREEN
    | Raise _ => GRAY
    end.

(** The colour of the RSSI column in [show_sniffer_probes]. *)
Definition probe_rssi_color (rssi : str) : color :=
  if negb (str_eqb rssi (lit "N/A")) && contains (lit "dBm") rssi then
    match py_int (strip (replace (lit "dBm") [] rssi)) with
    | Ok rssi_val =>
        if (-50 <=? rssi_val)%Z then GREEN
        else if (-70 <=? rssi_val)%Z then YELLOW
        else RED
    | Raise _ => GRAY
    end
  else GRAY.

End Menus.

(** ** The captive portal and the evil twin: the files on the card, the
    set-up and the launch

    [start_portal_monitoring] and [start_evil_twin_monitoring] are modelled
    up to the point where they start their listener thread; what the
    listener does from there on is the subject of [Listeners]. *)

Module Setup.

Import Re.

(** An entry of [portal_html_files]. *)
Record HtmlFile : Type := mkHtml {
  number : str;
  name : str;
  display : str
}.

(** The session with the attributes of the portal and of the evil twin. *)
Record t : Type := mk {
  twin : EvilTwin.t;
  portal_html_files : list HtmlFile;
  selected_html_index : Z;
  selected_html_name : str;
  portal_ssid : str
}.

Definition set_twin (v : EvilTwin.t) (s : t) : t :=
  {| twin := v;
     portal_html_files := portal_html_files s;
     selected_html_index := selected_html_index s;
     selected_html_name := selected_html_name s;
     portal_ssid := portal_ssid s |}.

Definition set_portal_html_files (v : list HtmlFile) (s : t) : t :=
  {| twin := twin s;
     portal_html_files := v;
     selected_html_index := selected_html_index s;
     selected_html_name := selected_html_name s;
     portal_ssid := portal_ssid s |}.

Definition set_selected_html_index (v : Z) (s : t) : t :=
  {| twin := twin s;
     portal_html_files := portal_html_files s;
     selected_html_index := v;
     selected_html_name := selected_html_name s;
     portal_ssid := portal_ssid s |}.

Definition set_selected_html_name (v : str) (s : t) : t :=
  {| twin := twin s;
     portal_html_files := portal_html_files s;
     selected_html_index := selected_html_index s;
     selected_html_name := v;
     portal_ssid := portal_ssid s |}.


(** The attributes modelled in [JanOS.t]. *)
Definition core (s : t) : JanOS.t := EvilTwin.core (twin s).

Definition set_core (v : JanOS.t) (s : t) : t :=
  set_twin (EvilTwin.set_core v (twin s)) s.




(** [__init__] *)
Definition init (p : SerialManager.port) : t :=
  {| twin := EvilTwin.init p;
     portal_html_files := [];
     selected_html_index := -1;
     selected_html_name := [];
     portal_ssid := [] |}.

(** [time.sleep(d)] in the foreground. *)
Definition sleep (d : Z) (s : t) : t := set_core (JanOS.sleep d (core s)) s.

(** [self.serial_mgr.send_command(command)] *)
Definition send (command : str) (s : t) : t :=
  set_core (JanOS.send command (core s)) s.

(** [lines = self.serial_mgr.read_response(timeout)] *)
Definition read_response (timeout : Z) (s : t) : option (list str * t) :=
  let sm := JanOS.serial_mgr (core s) in
  match SerialManager.read_response
          (SerialManager.enough_fuel timeout sm) timeout sm with
  | Some (lines, sm1) =>
      Some (lines, set_core (JanOS.set_serial_mgr sm1 (core s)) s)
  | None => None
  end.

(** [\S]: the characters that are not white space, as ranges of code
    points. *)
Definition not_space : cset :=
  CUnion (CRange (ascii_of_nat 0) (ascii_of_nat 8))
    (CUnion (CRange (ascii_of_nat 14) (ascii_of_nat 27))
       (CUnion (CRange (ascii_of_nat 33) (ascii_of_nat 132))
          (CUnion (CRange (ascii_of_nat 134) (ascii_of_nat 159))
             (CRange (ascii_of_nat 161) (ascii_of_nat 255))))).

(** [^\s*\d+\s+\S+\.html\s*$] *)
Definition html_pattern : regex :=
  Seq Bol
    (Seq (Star (Chr CSpace))
       (Seq (Plus (Chr CDigit))
          (Seq (Plus (Chr CSpace))
             (Seq (Plus (Chr not_space))
                (Seq (Lit (lit ".html"))
                   (Seq (Star (Chr CSpace)) Eol)))))).

(** [s.split()]: the runs of characters that are not white space; [cur]
    is the run being read. *)
Fixpoint split_ws_from (cur s : str) : list str :=
  match s with
  | [] => if truthy cur then [cur] else []
  | c :: s' =>
      if is_space c
      then (if truthy cur then cur :: split_ws_from [] s'
            else split_ws_from [] s')
      else split_ws_from (cur ++ [c]) s'
  end.

Definition split_ws (s : str) : list str := split_ws_from [] s.

(** What one line of the listing appends to [portal_html_files]. *)
Definition html_entries (line : str) : list HtmlFile :=
  match search false html_pattern line with
  | Some _ =>
      match split_ws (strip line) with
      | file_num :: file_name :: _ =>
          [{| number := file_num; name := file_name; display := strip line |}]
      | _ => []
      end
  | None => []
  end.

(** [get_html_files_from_sd] *)
Definition get_html_files_from_sd (s : t) : option (bool * t) :=
  let s := sleep 1000 (send (lit "list_sd") s) in
  match read_response 3000 s with
  | None => None
  | Some (lines, s) =>
      let files := flat_map html_entries lines in
      let file_count := length files in
      Some (0 <? file_count, set_portal_html_files files s)
  end.

(** [select_html_file_menu]; [typed] is what [input] returns, [None] when
    it raises [EOFError]. *)
Definition select_html_file_menu (typed : option str) (s : t)
  : option (bool * t) :=
  match portal_html_files s with
  | [] => Some (false, s)
  | _ :: _ =>
      match typed with
      | None => Some (false, s)
      | Some raw =>
          let selection := strip raw in
          if negb (truthy selection) || str_eqb selection (lit "0")
          then Some (false, sleep 1000 s)
          else
            match py_int selection with
            | Raise _ => Some (false, sleep 1000 s)
            | Ok index =>
                match List.find
                        (fun file_info => str_eqb (number file_info) selection)
                        (portal_html_files s) with
                | Some file_info =>
                    let s := set_selected_html_index index s in
                    let s := set_selected_html_name (name file_info) s in
                    let s := send (lit "select_html " ++ str_of_Z index) s in
                    let s := sleep 1000 s in
                    match read_response 2000 s with
                    | None => None
                    | Some (_, s) => Some (true, s)
                    end
                | None => Some (false, sleep 1000 s)
                end
            end
      end
  end.







End Setup.

(** ** Choosing the serial device: [is_probable_esp32] and one round of
    [select_device_interactive]

    The ports found are a parameter, and so are the answers to the prompts
    of the round; an interrupted prompt is not modelled. *)

Module Device.

(** What the program reads of a port: [None] for an attribute that is
    [None]. *)
Record PortInfo : Type := mkPortInfo {
  device : str;
  description : option str;
  manufacturer : option str;
  hwid : option str
}.




(** [str.isdigit] on one character: the decimal digits and the
    superscripts one, two and three. *)
Definition isdigit_char (c : ascii) : bool :=
  is_digit c || (code c =? 178) || (code c =? 179) || (code c =? 185).

(** [s.isdigit()] *)
Definition isdigit (s : str) : bool := truthy s && forallb isdigit_char s.

(** How a round of the loop ends: with another round after a pause, with
    the device path, or with [sys.exit(0)]. *)
Inductive round_end : Type :=
| Again (pause : Z)
| Use (path : str)
| Exit.

(** The answers [r], [m] and [q], common to both menus; [None] for any
    other answer. *)
Definition letter_choice (choice typed_manual : str) : option round_end :=
  if str_eqb choice (lit "r") then Some (Again 0)
  else if str_eqb choice (lit "m") then
    let manual := strip typed_manual in
    Some (if truthy manual then Use manual else Again 0)
  else if str_eqb choice (lit "q") then Some Exit
  else None.

(** One round of the loop of [select_device_interactive]. *)
Definition select_device_round (ports : list PortInfo)
    (typed_choice typed_manual typed_confirm : str) : result round_end :=
  let choice := lower (strip typed_choice) in
  match letter_choice choice typed_manual with
  | Some e => Ok e
  | None =>
      if match ports with [] => true | _ => false end then Ok (Again 0)
      else if negb (isdigit choice) then Ok (Again 1000)
      else
        n <- py_int choice ;;
        let index := (n - 1)%Z in
        if (index <? 0)%Z || (Z.of_nat (length ports) <=? index)%Z
        then Ok (Again 1000)
        else
          selected <- getitem ports (Z.to_nat index) ;;
          let confirm := lower (strip typed_confirm) in
          if existsb (str_eqb confirm) [[]; lit "y"; lit "yes"]
          then Ok (Use (device selected))
          else Ok (Again 0)
  end.

End Device.

(** ** The classifiers as the specification words them

    These definitions follow the specification's text; the theorems below
    compare them with the methods above. *)

Module Spec.

(** The stripped fields of a line. *)
Definition fields (line : str) : list str :=
  map (strip_chars [dquote]) (split NetworkManager.csv_sep line).

(** The record whose fields are the first eight parts, in order, with the
    hidden placeholder for an empty ssid. *)
Definition record_of (parts : list str) : NetworkManager.NetworkRecord :=
  {| NetworkManager.index := nth 0 parts [];
     NetworkManager.ssid := if truthy (nth 1 parts []) then nth 1 parts [] else NetworkManager.hidden;
     NetworkManager.vendor := nth 2 parts [];
     NetworkManager.bssid := nth 3 parts [];
     NetworkManager.channel := nth 4 parts [];
     NetworkManager.auth := nth 5 parts [];
     NetworkManager.rssi := nth 6 parts [];
     NetworkManager.band := nth 7 parts [] |}.

Definition digits (d : str) : Prop :=
  d <> [] /\ Forall (fun c => is_digit c = true) d.

Definition spaces (w : str) : Prop :=
  Forall (fun c => is_space c = true) w.



(** The kinds of portal events, in priority order. *)
Inductive portal_event : Type :=
| ClientConnected
| ClientCountUpdate
| PasswordSubmission
| FormSubmission
| SavedToStorage
| ErrorFailure
| Success.

(** The ordered table of predicates on the raw line. *)
Definition portal_predicates : list (portal_event * (str -> bool)) :=
  [ (ClientConnected, contains (lit "Client connected"));
    (ClientCountUpdate, contains (lit "Client count"));
    (PasswordSubmission, contains (lit "Password:"));
    (FormSubmission,
       fun data => contains (lit "Form data:") data
                   || contains (lit "username:") (lower data)
                   || contains (lit "email:") (lower data));
    (SavedToStorage, contains (lit "Portal data saved"));
    (ErrorFailure,
       fun data => contains (lit "error") (lower data)
                   || contains (lit "failed") (lower data));
    (Success,
       fun data => contains (lit "started successfully") data
                   || contains (lit "enabled") data) ].

(** The first predicate of a table that holds of the line. *)
Fixpoint first_match {E : Type} (table : list (E * (str -> bool))) (data : str)
  : option E :=
  match table with
  | [] => None
  | (e, p) :: rest => if p data then Some e else first_match rest data
  end.

Definition classify_portal (data : str) : option portal_event :=
  first_match portal_predicates data.


(** How many feature flags are set. *)
Definition running_count (j : JanOS.t) : nat :=
  length (filter (fun b : bool => b)
            [JanOS.attack_running j; JanOS.blackout_running j;
             JanOS.sniffer_running j; JanOS.sae_overflow_running j;
             JanOS.handshake_running j; JanOS.portal_running j;
             JanOS.evil_twin_running j]).

(** The listeners of the running features that have a thread, in the
    order in which [stop_all_attacks] visits them. *)
Definition running_listeners (j : JanOS.t) : list JanOS.listener :=
  (if JanOS.sniffer_running j
   then match JanOS.sniffer_thread j with Some l => [l] | None => [] end
   else [])
  ++ (if JanOS.portal_running j
      then match JanOS.portal_thread j with Some l => [l] | None => [] end
      else [])
  ++ (if JanOS.evil_twin_running j
      then match JanOS.evil_twin_thread j with Some l => [l] | None => [] end
      else []).

(** The stop command as written to the device. *)
Definition stop_line : str := lit "stop" ++ [ascii_of_nat 13; newline].

(** What [read_response] keeps of the raw lines it reads: each stripped,
    the empty ones dropped, in order. *)
Definition collected (taken : list (Z * str)) : list str :=
  filter truthy (map (fun p => strip (snd p)) taken).

(** The scan-complete marker. *)
Definition sentinel : str := lit "Scan results printed".


(** A portal line that counts as a submitted form. *)
Definition is_submission (line : str) : bool :=
  match classify_portal line with
  | Some PasswordSubmission | Some FormSubmission => true
  | _ => false
  end.

(** An evil twin line that announces a client. *)
Definition twin_connects (line : str) : bool :=
  contains (lit "Client connected") line.

(** An evil twin line that is kept as captured data. *)
Definition twin_captures (line : str) : bool :=
  negb (contains (lit "Client connected") line)
  && negb (contains (lit "trying to connect") (lower line)
           || contains (lit "association") (lower line))
  && (contains (lit "Password:") line
      || contains (lit "Handshake captured") line).

(** The line holds the scan-complete marker. *)
Definition has_sentinel (line : str) : bool := contains sentinel line.

(** The lines up to and including the first that holds the marker. *)
Fixpoint upto_sentinel (lines : list str) : list str :=
  match lines with
  | [] => []
  | line :: rest =>
      if has_sentinel line then [line] else line :: upto_sentinel rest
  end.

(** The records of the network lines among [lines], in order. *)
Definition records_of (lines : list str) : list NetworkManager.NetworkRecord :=
  flat_map (fun line => match NetworkManager.parse_network_line line with
                        | Some r => [r]
                        | None => []
                        end) lines.


(** The four attacks that one command starts. *)
Inductive one_shot : Type := Deauth | Blackout | SaeOverflow | Handshake.

Definition all_one_shot : list one_shot :=
  [Deauth; Blackout; SaeOverflow; Handshake].

Definition one_shot_eqb (a b : one_shot) : bool :=
  match a, b with
  | Deauth, Deauth | Blackout, Blackout
  | SaeOverflow, SaeOverflow | Handshake, Handshake => true
  | _, _ => false
  end.

(** The method, the command and the flag of each. *)
Definition start_of (a : one_shot) : option str -> JanOS.t -> JanOS.t :=
  match a with
  | Deauth => Attacks.start_deauth_attack
  | Blackout => Attacks.start_blackout_attack
  | SaeOverflow => Attacks.start_sae_overflow_attack
  | Handshake => Attacks.start_handshake_attack
  end.

Definition command_of (a : one_shot) : str :=
  match a with
  | Deauth => lit "start_deauth"
  | Blackout => lit "start_blackout"
  | SaeOverflow => lit "sae_overflow"
  | Handshake => lit "start_handshake"
  end.

Definition flag_of (a : one_shot) : JanOS.t -> bool :=
  match a with
  | Deauth => JanOS.attack_running
  | Blackout => JanOS.blackout_running
  | SaeOverflow => JanOS.sae_overflow_running
  | Handshake => JanOS.handshake_running
  end.

(** A command as written to the device. *)
Definition command_line (command : str) : str :=
  command ++ [ascii_of_nat 13; newline].

(** The answer is a yes. *)
Definition says_yes (raw : str) : Prop :=
  lower (strip raw) = lit "y" \/ lower (strip raw) = lit "yes".

(** A menu choice and the answer to its prompt start the attack: the
    answer is a yes and, for the deauth attack, a selection is stored. *)
Definition accepted (j : JanOS.t) (p : one_shot * option str) : bool :=
  match snd p with
  | Some raw =>
      Attacks.confirmed raw
      && match fst p with
         | Deauth =>
             truthy (NetworkManager.selected_networks (JanOS.network_mgr j))
         | _ => true
         end
  | None => false
  end.

(** Menu choices with their answers, one after the other. *)
Definition starts (ps : list (one_shot * option str)) (j : JanOS.t) : JanOS.t :=
  fold_left (fun j p => start_of (fst p) (snd p) j) ps j.

(** The feature flags, in the order of the banner. *)
Definition feature_flags (j : JanOS.t) : list bool :=
  [JanOS.attack_running j; JanOS.blackout_running j;
   JanOS.sniffer_running j; JanOS.sae_overflow_running j;
   JanOS.handshake_running j; JanOS.portal_running j;
   JanOS.evil_twin_running j].

(** The thread handles and the stop events. *)
Definition threads (j : JanOS.t) : list (option JanOS.listener) :=
  [JanOS.sniffer_thread j; JanOS.portal_thread j; JanOS.evil_twin_thread j].

Definition stop_events (j : JanOS.t) : list bool :=
  [JanOS.stop_sniffer_event j; JanOS.stop_portal_event j;
   JanOS.stop_evil_twin_event j].

(** What the listeners' callbacks keep. *)
Definition counters (j : JanOS.t) : Z * Z * str * Z :=
  (JanOS.sniffer_packets j, JanOS.submitted_forms j,
   JanOS.last_submitted_data j, JanOS.client_count j).

(** The colour of a signal level. *)
Definition level_color (v : Z) : Menus.color :=
  if (v <? -70)%Z then Menus.RED
  else if (v <? -50)%Z then Menus.YELLOW
  else Menus.GREEN.


(** A decimal number with its sign, as text and as value. *)
Definition signed_text (neg : bool) (d : str) : str :=
  (if neg then lit "-" else []) ++ d.

Definition signed_val (neg : bool) (d : str) : Z :=
  if neg then (- digits_val d)%Z else digits_val d.

(** The number of characters a pattern without [?] and [*] consumes. *)
Fixpoint width (r : Re.regex) : option nat :=
  match r with
  | Re.Eps | Re.Bol | Re.Eol => Some 0
  | Re.Chr _ => Some 1
  | Re.Seq a b =>
      match width a, width b with
      | Some n, Some k => Some (n + k)
      | _, _ => None
      end
  | Re.Group _ a => width a
  | Re.Opt _ | Re.Star _ => None
  end.


(** The serial manager of a session with the portal attributes, and the
    session with another one in its place. *)
Definition port (s : Setup.t) : SerialManager.t :=
  JanOS.serial_mgr (Setup.core s).

Definition with_port (sm : SerialManager.t) (s : Setup.t) : Setup.t :=
  Setup.set_core (JanOS.set_serial_mgr sm (Setup.core s)) s.

(** An entry as the listing pattern admits it: a number made of digits,
    white space, and a name of at least one character that is not white
    space before [.html]. *)
Definition listed_file (f : Setup.HtmlFile) : Prop :=
  exists ws stem,
    digits (Setup.number f)
    /\ ws <> [] /\ spaces ws
    /\ stem <> [] /\ Forall (fun c => is_space c = false) stem
    /\ Setup.name f = stem ++ lit ".html"
    /\ Setup.display f = Setup.number f ++ ws ++ Setup.name f.

(** A line of the listing: such an entry between white space. *)
Definition listing_line (line : str) (f : Setup.HtmlFile) : Prop :=
  listed_file f
  /\ exists ws0 ws2,
       spaces ws0 /\ spaces ws2 /\ line = ws0 ++ Setup.display f ++ ws2.












End Spec.

(** ** Sample inputs *)

Module Sample.

(** A port on which nothing arrives. *)
Definition idle_port : SerialManager.port :=
  {| SerialManager.clock := 0; SerialManager.inbox := [] |}.

(** A fresh session on it. *)
Definition session : JanOS.t := JanOS.init idle_port.

Definition crlf : str := [ascii_of_nat 13; newline].



(** A scan answer: two network lines, the second with an empty ssid, then
    the scan-complete marker. *)
Definition scan_port : SerialManager.port :=
  {| SerialManager.clock := 0;
     SerialManager.inbox :=
       [(0%Z, NetworkManager.quoted
                [lit "1"; lit "HomeNet"; lit "TP-Link"; lit "AA:BB:CC:DD:EE:01";
                 lit "6"; lit "WPA2"; lit "-45"; lit "2.4GHz"] ++ crlf);
        (40%Z, NetworkManager.quoted
                 [lit "2"; lit ""; lit "Netgear"; lit "AA:BB:CC:DD:EE:02";
                  lit "11"; lit "WPA2"; lit "-70"; lit "5GHz"] ++ crlf);
        (90%Z, lit "Scan results printed" ++ crlf)] |}.

Definition scan_session : JanOS.t := JanOS.init scan_port.



(** Portal output: a client, a password, a form, a save notice. *)
Definition portal_port : SerialManager.port :=
  {| SerialManager.clock := 0;
     SerialManager.inbox :=
       [(10%Z, lit "Client connected: 11:22:33:44:55:66" ++ crlf);
        (20%Z, lit "Password: hunter2" ++ crlf);
        (30%Z, lit "Form data: user=bob" ++ crlf);
        (40%Z, lit "Portal data saved to file" ++ crlf)] |}.

Definition portal_session : JanOS.t := JanOS.init portal_port.

(** Evil twin output: a client, an association, a password, a handshake. *)
Definition twin_port : SerialManager.port :=
  {| SerialManager.clock := 0;
     SerialManager.inbox :=
       [(10%Z, lit "Client connected" ++ crlf);
        (20%Z, lit "Station association, Password: x" ++ crlf);
        (30%Z, lit "Password: hunter2" ++ crlf);
        (40%Z, lit "Handshake captured" ++ crlf)] |}.

Definition twin_session : EvilTwin.t := EvilTwin.init twin_port.


(** A session with a stored selection. *)
Definition selected_session : JanOS.t :=
  JanOS.set_network_mgr
    (NetworkManager.set_selected_networks (lit "1 2")
       (JanOS.network_mgr session)) session.

(** Menu choices: the deauth attack twice, a declined blackout, a
    handshake capture, an interrupted prompt. *)
Definition choices : list (Spec.one_shot * option str) :=
  [(Spec.Deauth, Some (lit " Y ")); (Spec.Blackout, Some (lit "n"));
   (Spec.Deauth, Some (lit "yes")); (Spec.Handshake, Some (lit "y"));
   (Spec.SaeOverflow, None)].


(** The session after the scan answer above has been stored. *)
Definition scanned_session : JanOS.t :=
  match JanOS.do_scan 200 scan_session with
  | Some j => j
  | None => scan_session
  end.


(** A card listing: a header, two files, a directory. *)
Definition card_port : SerialManager.port :=
  {| SerialManager.clock := 0;
     SerialManager.inbox :=
       [(200%Z, lit "HTML files found on SD card: 2" ++ crlf);
        (300%Z, lit "  01  login.html" ++ crlf);
        (400%Z, lit "2 free wifi.html" ++ crlf);
        (500%Z, lit "3 portal.html" ++ crlf);
        (5000%Z, lit "Loaded HTML file" ++ crlf);
        (9000%Z, lit "Captive portal started successfully" ++ crlf)] |}.

Definition card_session : Setup.t := Setup.init card_port.


(** The session after the listing above has been read. *)
Definition listed_session : Setup.t :=
  match Setup.get_html_files_from_sd card_session with
  | Some (_, s) => s
  | None => card_session
  end.




(** Two ports, the second one with a bridge chip named in its
    description. *)
Definition two_ports : list Device.PortInfo :=
  [{| Device.device := lit "/dev/ttyS0"; Device.description := Some (lit "n/a");
      Device.manufacturer := None; Device.hwid := Some (lit "n/a") |};
   {| Device.device := lit "/dev/ttyUSB0";
      Device.description := Some (lit "CP2102N USB to UART Bridge");
      Device.manufacturer := Some (lit "Silicon Labs");
      Device.hwid := Some (lit "USB VID:PID=10C4:EA60") |}].

End Sample.

(** * Properties *)

(** ** Strings *)

Section StrFacts.

Lemma ascii_eqb_true (a b : ascii) : ascii_eqb a b = true <-> a = b.
Proof. unfold ascii_eqb. apply Ascii.eqb_eq. Qed.

Lemma str_eqb_true (a b : str) : str_eqb a b = true <-> a = b.
Proof.
  revert b. induction a as [|x a IH]; intros [|y b]; simpl; split;
    try discriminate; try reflexivity.
  - intros H. apply andb_true_iff in H as [H1 H2].
    apply ascii_eqb_true in H1. apply IH in H2. congruence.
  - intros H. injection H as -> ->. apply andb_true_iff. split.
    + now apply ascii_eqb_true.
    + now apply IH.
Qed.

Lemma startswith_app (s p : str) :
  startswith s p = true <-> exists t, s = p ++ t.
Proof.
  revert s. induction p as [|x p IH]; intros s; simpl.
  - split; [intros _; now exists s | reflexivity].
  - destruct s as [|y s].
    + split; [discriminate | intros [t H]; discriminate].
    + rewrite andb_true_iff, ascii_eqb_true, IH. split.
      * intros [-> [t ->]]. now exists t.
      * intros [t H]. injection H as -> ->. split; [reflexivity | now exists t].
Qed.

Lemma find_some (sub s : str) (i : nat) :
  find sub s = Some i ->
  exists a b, s = a ++ sub ++ b /\ length a = i.
Proof.
  revert i. induction s as [|c s IH]; intros i; simpl.
  - destruct (startswith [] sub) eqn:E; [|discriminate].
    intros [= <-]. apply startswith_app in E as [t E].
    exists [], t. now split.
  - destruct (startswith (c :: s) sub) eqn:E.
    + intros [= <-]. apply startswith_app in E as [t E].
      exists [], t. now split.
    + destruct (find sub s) as [k|] eqn:F; simpl; [|discriminate].
      intros [= <-]. destruct (IH k eq_refl) as (a & b & -> & L).
      exists (c :: a), b. simpl. now rewrite L.
Qed.

Lemma find_none (sub s : str) :
  find sub s = None -> forall a b, s <> a ++ sub ++ b.
Proof.
  induction s as [|c s IH]; simpl.
  - destruct (startswith [] sub) eqn:E; [discriminate|].
    intros _ a b H. destruct a; [|discriminate].
    simpl in H. assert (startswith [] sub = true) as E'.
    { apply startswith_app. now exists b. }
    congruence.
  - destruct (startswith (c :: s) sub) eqn:E; [discriminate|].
    destruct (find sub s) eqn:F; simpl; [discriminate|].
    intros _ a b H. destruct a as [|x a].
    + simpl in H. assert (startswith (c :: s) sub = true) as E'.
      { apply startswith_app. now exists b. }
      congruence.
    + injection H as _ H. exact (IH eq_refl a b H).
Qed.

Lemma contains_app (sub s : str) :
  contains sub s = true <-> exists a b, s = a ++ sub ++ b.
Proof.
  unfold contains. destruct (find sub s) as [i|] eqn:F.
  - split; [intros _|reflexivity].
    destruct (find_some _ _ _ F) as (a & b & H & _). now exists a, b.
  - split; [discriminate|]. intros (a & b & H).
    exfalso. exact (find_none _ _ F a b H).
Qed.

Lemma lower_app (a b : str) : lower (a ++ b) = lower a ++ lower b.
Proof. unfold lower. apply map_app. Qed.

(** [find] returns the leftmost occurrence. *)
Lemma find_leftmost (sub s : str) (i : nat) :
  find sub s = Some i ->
  forall a b, s = a ++ sub ++ b -> i <= length a.
Proof.
  revert i. induction s as [|c s IH]; intros i; simpl.
  - destruct (startswith [] sub); [|discriminate].
    intros [= <-] a b _. lia.
  - destruct (startswith (c :: s) sub) eqn:E.
    + intros [= <-] a b _. lia.
    + destruct (find sub s) as [k|] eqn:F; simpl; [|discriminate].
      intros [= <-] a b H. destruct a as [|x a].
      * simpl in H. assert (startswith (c :: s) sub = true) as E'.
        { apply startswith_app. now exists b. }
        congruence.
      * injection H as _ H. simpl. apply le_n_S. exact (IH k eq_refl a b H).
Qed.

Lemma split_fuel_cons (fuel : nat) (sep s : str) :
  exists a rest, split_fuel fuel sep s = a :: rest.
Proof.
  destruct fuel as [|fuel]; simpl; [now eauto|].
  destruct (find sep s); eauto.
Qed.

Lemma join_cons (sep a : str) (parts : list str) :
  parts <> [] -> join sep (a :: parts) = a ++ sep ++ join sep parts.
Proof. destruct parts; [congruence | reflexivity]. Qed.

Lemma firstn_prefix (a b : str) : firstn (length a) (a ++ b) = a.
Proof.
  rewrite firstn_app, Nat.sub_diag, firstn_all. simpl. apply app_nil_r.
Qed.

Lemma skipn_prefix (a sep b : str) :
  skipn (length a + length sep) (a ++ sep ++ b) = b.
Proof.
  rewrite !app_assoc, <- length_app, skipn_app, skipn_all, Nat.sub_diag.
  reflexivity.
Qed.

(** Joining the fields with the separator gives the string back. *)
Lemma join_split_fuel (sep : str) :
  forall fuel s, join sep (split_fuel fuel sep s) = s.
Proof.
  induction fuel as [|fuel IH]; intros s; [reflexivity|]. cbn [split_fuel].
  destruct (find sep s) as [i|] eqn:F; [|reflexivity].
  destruct (find_some _ _ _ F) as (a & b & -> & <-).
  rewrite firstn_prefix, skipn_prefix.
  destruct (split_fuel_cons fuel sep b) as (x & rest & E).
  rewrite join_cons by (rewrite E; discriminate).
  now rewrite IH.
Qed.

(** No field holds the separator. *)
Lemma split_fuel_fields (sep : str) :
  sep <> [] ->
  forall fuel s, length s <= fuel ->
    Forall (fun p => contains sep p = false) (split_fuel fuel sep s).
Proof.
  intros Hsep. induction fuel as [|fuel IH]; intros s Hlen; cbn [split_fuel].
  - destruct s; [|simpl in Hlen; lia]. constructor; [|constructor].
    destruct sep; [congruence | reflexivity].
  - destruct (find sep s) as [i|] eqn:F.
    + destruct (find_some _ _ _ F) as (a & b & -> & <-).
      pose proof (find_leftmost _ _ _ F) as Hleft.
      rewrite firstn_prefix, skipn_prefix.
      constructor.
      * destruct (contains sep a) eqn:C; [|reflexivity].
        apply contains_app in C as (x & y & ->).
        specialize (Hleft x (y ++ sep ++ b)).
        rewrite <- !app_assoc in Hleft. specialize (Hleft eq_refl).
        rewrite !length_app in Hleft.
        destruct sep; [congruence | simpl in Hleft; lia].
      * apply IH. rewrite !length_app in Hlen.
        destruct sep; [congruence | simpl in Hlen; lia].
    + constructor; [|constructor]. unfold contains. now rewrite F.
Qed.

(** [split]: the fields, joined with the separator, give the string back,
    and they are free of the separator. *)
Lemma split_spec (sep s : str) :
  sep <> [] ->
  join sep (split sep s) = s
  /\ Forall (fun p => contains sep p = false) (split sep s).
Proof.
  intros Hsep. unfold split. split.
  - apply join_split_fuel.
  - now apply split_fuel_fields.
Qed.

End StrFacts.

(** ** The matcher against its relation *)

Module ReFacts.

Import Re.

Lemma orelse_some {A : Type} (x y : option A) (v : A) :
  orelse x y = Some v -> x = Some v \/ y = Some v.
Proof. destruct x; simpl; intros H; [left | right]; assumption. Qed.

Lemma orelse_not_none {A : Type} (x y : option A) :
  x <> None \/ y <> None -> orelse x y <> None.
Proof.
  destruct x; simpl; intros [H | H]; try assumption; try discriminate.
  now contradiction H.
Qed.

Section Soundness.

Variable A : Type.
Variable icase : bool.
Variable n0 : nat.

Lemma star_loop_sound (a : regex) (k : cont A) (x : A) :
  (forall s g k', m icase n0 a s g k' = Some x ->
     exists s' g', M icase n0 a s g s' g' /\ k' s' g' = Some x) ->
  forall fuel s g,
    star_loop (m icase n0 a) k fuel s g = Some x ->
    exists s' g', M icase n0 (Star a) s g s' g' /\ k s' g' = Some x.
Proof.
  intros IHa. induction fuel as [|fuel IH]; intros s g; simpl.
  - intros H. exists s, g. split; [constructor | assumption].
  - intros H. apply orelse_some in H as [H | H].
    + apply IHa in H as (s1 & g1 & Ha & Hk).
      destruct (length s1 <? length s) eqn:L; [|discriminate].
      apply Nat.ltb_lt in L.
      apply IH in Hk as (s2 & g2 & Hs & Hk).
      exists s2, g2. split; [|assumption].
      eapply M_StarCons; eassumption.
    + exists s, g. split; [constructor | assumption].
Qed.

(** Whatever the matcher returns comes from a match of the relation. *)
Lemma m_sound (r : regex) :
  forall s g (k : cont A) x,
    m icase n0 r s g k = Some x ->
    exists s' g', M icase n0 r s g s' g' /\ k s' g' = Some x.
Proof.
  induction r as [|cs|a IHa b IHb|a IHa|a IHa|i a IHa| |]; intros s g k x; simpl.
  - intros H. exists s, g. split; [constructor | assumption].
  - destruct s as [|c s]; [discriminate|].
    destruct (cset_mem icase cs c) eqn:E; [|discriminate].
    intros H. exists s, g. split; [now constructor | assumption].
  - intros H. apply IHa in H as (s1 & g1 & Ha & H).
    apply IHb in H as (s2 & g2 & Hb & H).
    exists s2, g2. split; [|assumption]. econstructor; eassumption.
  - intros H. apply orelse_some in H as [H | H].
    + apply IHa in H as (s1 & g1 & Ha & H).
      exists s1, g1. split; [now constructor | assumption].
    + exists s, g. split; [apply M_OptNone | assumption].
  - apply star_loop_sound. intros s0 g0 k'. apply IHa.
  - intros H. apply IHa in H as (s1 & g1 & Ha & H).
    eexists _, _. split; [|exact H]. now constructor.
  - destruct (length s =? n0) eqn:E; [|discriminate].
    apply Nat.eqb_eq in E.
    intros H. exists s, g. split; [now constructor | assumption].
  - destruct s as [|c [|c' s]].
    + intros H. exists [], g. split; [constructor; now left | assumption].
    + destruct (ascii_eqb c newline) eqn:E; [|discriminate].
      apply ascii_eqb_true in E. subst c.
      intros H. exists [newline], g. split; [constructor; now right | assumption].
    + discriminate.
Qed.

Lemma star_loop_complete (a : regex) (k : cont A) :
  (forall s g s' g', M icase n0 a s g s' g' ->
     forall k' : cont A, (forall h, k' s' h <> None) ->
     forall h0, m icase n0 a s h0 k' <> None) ->
  forall fuel s g s' g',
    M icase n0 (Star a) s g s' g' -> length s <= fuel ->
    (forall h, k s' h <> None) ->
    forall h0, star_loop (m icase n0 a) k fuel s h0 <> None.
Proof.
  intros IHa. induction fuel as [|fuel IH]; intros s g s' g' HM Hlen Hk h0; simpl.
  - inversion HM; subst.
    + apply Hk.
    + lia.
  - apply orelse_not_none. inversion HM; subst.
    + right. apply Hk.
    + left. eapply IHa; [eassumption|]. intros h.
      match goal with
      | L : length ?s1 < length s |- _ =>
          apply Nat.ltb_lt in L as L'; rewrite L'
      end.
      eapply IH; [eassumption | lia | assumption].
Qed.

(** A match of the relation is found by the matcher, provided the
    continuation accepts the rest whatever the captures. *)
Lemma m_complete (r : regex) :
  forall s g s' g',
    M icase n0 r s g s' g' ->
    forall k : cont A, (forall h, k s' h <> None) ->
    forall h0, m icase n0 r s h0 k <> None.
Proof.
  induction r as [|cs|a IHa b IHb|a IHa|a IHa|i a IHa| |];
    intros s g s' g' HM k Hk h0; simpl.
  - inversion HM; subst. apply Hk.
  - inversion HM; subst.
    match goal with E : cset_mem _ _ _ = true |- _ => rewrite E end.
    apply Hk.
  - inversion HM; subst. eapply IHa; [eassumption|].
    intros h. eapply IHb; eassumption.
  - apply orelse_not_none. inversion HM; subst.
    + left. eapply IHa; eassumption.
    + right. apply Hk.
  - eapply star_loop_complete; [exact IHa | exact HM | lia | exact Hk].
  - inversion HM; subst. eapply IHa; [eassumption|].
    intros h. apply Hk.
  - inversion HM; subst. rewrite Nat.eqb_refl. apply Hk.
  - inversion HM; subst.
    match goal with H : _ \/ _ |- _ => destruct H as [-> | ->] end.
    + apply Hk.
    + apply Hk.
Qed.

End Soundness.

(** A match consumes a prefix. *)
Lemma M_suffix (icase : bool) (n0 : nat) (r : regex) s g s' g' :
  M icase n0 r s g s' g' -> exists w, s = w ++ s'.
Proof.
  induction 1.
  - now exists [].
  - now exists [c].
  - destruct IHM1 as [w1 ->]. destruct IHM2 as [w2 ->].
    exists (w1 ++ w2). now rewrite app_assoc.
  - assumption.
  - now exists [].
  - now exists [].
  - destruct IHM1 as [w1 ->]. destruct IHM2 as [w2 ->].
    exists (w1 ++ w2). now rewrite app_assoc.
  - assumption.
  - now exists [].
  - now exists [].
Qed.

Lemma firstn_consumed (w s' : str) :
  firstn (length (w ++ s') - length s') (w ++ s') = w.
Proof.
  rewrite length_app.
  replace (length w + length s' - length s') with (length w + 0) by lia.
  rewrite firstn_app_2. simpl. apply app_nil_r.
Qed.

Lemma match_at_sound (icase : bool) (r : regex) (n0 pos : nat) (s : str) mo :
  match_at icase r n0 pos s = Some mo ->
  exists w post,
    s = w ++ post
    /\ M icase n0 r (w ++ post) [] post (m_groups mo)
    /\ m_text mo = w
    /\ m_start mo = pos.
Proof.
  unfold match_at. intros E.
  apply m_sound in E as (s' & g' & HM & E).
  injection E as <-. simpl.
  destruct (M_suffix _ _ _ _ _ _ _ HM) as [w Hw]. subst s.
  exists w, s'. rewrite firstn_consumed. now repeat split.
Qed.

(** The match object of a successful search, in terms of the relation. *)
Lemma search_from_sound (icase : bool) (r : regex) (n0 : nat) :
  forall s pos mo,
    search_from icase r n0 pos s = Some mo ->
    exists pre w post,
      s = pre ++ w ++ post
      /\ M icase n0 r (w ++ post) [] post (m_groups mo)
      /\ m_text mo = w
      /\ m_start mo = pos + length pre.
Proof.
  induction s as [|c s IH]; intros pos mo; simpl.
  - destruct (match_at icase r n0 pos []) as [x|] eqn:E; [|discriminate].
    intros [= <-].
    apply match_at_sound in E as (w & post & E & HM & Ht & Hs).
    exists [], w, post. repeat split; try assumption. simpl. lia.
  - destruct (match_at icase r n0 pos (c :: s)) as [x|] eqn:E.
    + intros [= <-].
      apply match_at_sound in E as (w & post & E & HM & Ht & Hs).
      exists [], w, post. repeat split; try assumption. simpl. lia.
    + intros H. apply IH in H as (pre & w & post & -> & HM & Ht & Hs).
      exists (c :: pre), w, post. repeat split; try assumption.
      simpl. lia.
Qed.

Lemma search_from_complete (icase : bool) (r : regex) (n0 : nat) :
  forall pre rest pos g s' g',
    M icase n0 r rest g s' g' ->
    search_from icase r n0 pos (pre ++ rest) <> None.
Proof.
  induction pre as [|c pre IH]; intros rest pos g s' g' HM.
  - simpl. assert (match_at icase r n0 pos rest <> None) as H.
    { unfold match_at. eapply m_complete; [exact HM | discriminate]. }
    destruct rest; simpl; destruct (match_at _ _ _ _ _); congruence.
  - simpl. destruct (match_at icase r n0 pos (c :: pre ++ rest)).
    + discriminate.
    + eapply IH. exact HM.
Qed.

Lemma search_sound (icase : bool) (r : regex) (s : str) (mo : match_obj) :
  search icase r s = Some mo ->
  exists pre w post,
    s = pre ++ w ++ post
    /\ M icase (length s) r (w ++ post) [] post (m_groups mo)
    /\ m_text mo = w.
Proof.
  unfold search. intros H.
  apply search_from_sound in H as (pre & w & post & E & HM & Ht & _).
  now exists pre, w, post.
Qed.

Lemma search_complete (icase : bool) (r : regex) (pre rest : str) g s' g' :
  M icase (length (pre ++ rest)) r rest g s' g' ->
  search icase r (pre ++ rest) <> None.
Proof. unfold search. apply search_from_complete. Qed.

End ReFacts.

(** ** Matches of literals and of runs of one character class *)

Module ReShapes.

Import Re.

Section Shapes.

Variable icase : bool.
Variable n0 : nat.

Lemma M_Lit_inv (p : str) :
  forall s g s' g',
    M icase n0 (Lit p) s g s' g' ->
    exists w, s = w ++ s' /\ g' = g /\ lit_match icase p w.
Proof.
  induction p as [|x p IH]; intros s g s' g' H; simpl in H.
  - inversion H; subst. exists []. repeat split. constructor.
  - inversion H; subst.
    match goal with H1 : M _ _ (Chr _) _ _ _ _ |- _ => inversion H1; subst end.
    match goal with H2 : M _ _ (Lit _) _ _ _ _ |- _ =>
      apply IH in H2 as (w & -> & -> & Hw) end.
    exists (c :: w). repeat split. now constructor.
Qed.

Lemma M_Lit_intro (p w : str) :
  lit_match icase p w -> forall s' g, M icase n0 (Lit p) (w ++ s') g s' g.
Proof.
  induction 1 as [|x c p w Hc Hw IH]; intros s' g; simpl.
  - constructor.
  - eapply M_Seq; [now constructor | apply IH].
Qed.

Lemma M_Star_Chr_inv (cs : cset) :
  forall s g s' g',
    M icase n0 (Star (Chr cs)) s g s' g' ->
    exists w, s = w ++ s' /\ g' = g /\ all_in icase cs w.
Proof.
  intros s g s' g' H. remember (Star (Chr cs)) as r eqn:Er.
  induction H; try discriminate.
  - exists []. repeat split. constructor.
  - injection Er as ->.
    match goal with H1 : M _ _ (Chr _) _ _ _ _ |- _ => inversion H1; subst end.
    destruct (IHM2 eq_refl) as (w & -> & -> & Hw).
    exists (c :: w). repeat split. now constructor.
Qed.

Lemma M_Star_Chr_intro (cs : cset) (w : str) :
  all_in icase cs w -> forall s' g, M icase n0 (Star (Chr cs)) (w ++ s') g s' g.
Proof.
  induction 1 as [|c w Hc Hw IH]; intros s' g; simpl.
  - constructor.
  - eapply M_StarCons; [now constructor | simpl; lia | apply IH].
Qed.

Lemma M_Plus_Chr_inv (cs : cset) :
  forall s g s' g',
    M icase n0 (Plus (Chr cs)) s g s' g' ->
    exists w, s = w ++ s' /\ g' = g /\ w <> [] /\ all_in icase cs w.
Proof.
  intros s g s' g' H. unfold Plus in H. inversion H; subst.
  match goal with H1 : M _ _ (Chr _) _ _ _ _ |- _ => inversion H1; subst end.
  match goal with H2 : M _ _ (Star _) _ _ _ _ |- _ =>
    apply M_Star_Chr_inv in H2 as (w & -> & -> & Hw) end.
  exists (c :: w). repeat split; [discriminate | now constructor].
Qed.

Lemma M_Plus_Chr_intro (cs : cset) (w : str) :
  w <> [] -> all_in icase cs w ->
  forall s' g, M icase n0 (Plus (Chr cs)) (w ++ s') g s' g.
Proof.
  intros Hne Hw s' g. destruct w as [|c w]; [congruence|].
  inversion Hw; subst. unfold Plus. simpl.
  eapply M_Seq; [now constructor | now apply M_Star_Chr_intro].
Qed.

Lemma M_Seq_inv (a b : regex) :
  forall s g s' g',
    M icase n0 (Seq a b) s g s' g' ->
    exists s1 g1, M icase n0 a s g s1 g1 /\ M icase n0 b s1 g1 s' g'.
Proof. intros s g s' g' H. inversion H; subst. eauto. Qed.


Lemma M_Opt_Chr_inv (cs : cset) :
  forall s g s' g',
    M icase n0 (Opt (Chr cs)) s g s' g' ->
    exists o, s = o ++ s' /\ g' = g /\ all_in icase cs o.
Proof.
  intros s g s' g' H. inversion H; subst.
  - match goal with H1 : M _ _ (Chr _) _ _ _ _ |- _ => inversion H1; subst end.
    exists [c]. repeat split. constructor; [assumption | constructor].
  - exists []. repeat split. constructor.
Qed.

Lemma M_Eol_inv :
  forall s g s' g',
    M icase n0 Eol s g s' g' -> s' = s /\ g' = g /\ (s = [] \/ s = [newline]).
Proof. intros s g s' g' H. inversion H; subst. auto. Qed.

Lemma M_Bol_inv :
  forall s g s' g',
    M icase n0 Bol s g s' g' -> s' = s /\ g' = g /\ length s = n0.
Proof. intros s g s' g' H. inversion H; subst. auto. Qed.

(** The capture of a group is the text its body consumed. *)
Lemma M_Group_inv (i : nat) (a : regex) :
  forall s g s' g',
    M icase n0 (Group i a) s g s' g' ->
    exists w g1, s = w ++ s' /\ g' = (i, w) :: g1
                 /\ M icase n0 a (w ++ s') g s' g1.
Proof.
  intros s g s' g' H. inversion H; subst.
  match goal with H1 : M _ _ a _ _ _ _ |- _ =>
    destruct (ReFacts.M_suffix _ _ _ _ _ _ _ H1) as [w Hw]; subst;
    exists w; eexists; repeat split; [|exact H1] end.
  now rewrite ReFacts.firstn_consumed.
Qed.


End Shapes.

(** Without [IGNORECASE] a literal matches itself only. *)
Lemma lit_match_exact (p w : str) : lit_match false p w <-> w = p.
Proof.
  unfold lit_match. split.
  - induction 1 as [|x c p w Hc Hw IH]; [reflexivity|].
    simpl in Hc. apply ascii_eqb_true in Hc. congruence.
  - intros ->. induction p as [|x p IH]; constructor; [|assumption].
    simpl. now apply ascii_eqb_true.
Qed.

(** With [IGNORECASE] it matches the strings equal to it up to case. *)
Lemma lit_match_icase (p w : str) : lit_match true p w <-> lower w = lower p.
Proof.
  unfold lit_match. split.
  - induction 1 as [|x c p w Hc Hw IH]; [reflexivity|].
    simpl in Hc. apply ascii_eqb_true in Hc. simpl. congruence.
  - revert w. induction p as [|x p IH]; intros [|c w] H; try discriminate.
    + constructor.
    + simpl in H. injection H as Hc Hw. constructor.
      * simpl. apply ascii_eqb_true. congruence.
      * now apply IH.
Qed.

End ReShapes.

(** ** Character classes and [int()] on digit strings *)

Section IntFacts.

Lemma digit_not_space (c : ascii) : is_digit c = true -> is_space c = false.
Proof.
  destruct c as [[] [] [] [] [] [] [] []]; vm_compute; congruence.
Qed.

Lemma digit_not_sign (c : ascii) :
  is_digit c = true ->
  ascii_eqb c "-"%char = false /\ ascii_eqb c "+"%char = false
  /\ ascii_eqb c "_"%char = false.
Proof.
  destruct c as [[] [] [] [] [] [] [] []]; vm_compute; intuition congruence.
Qed.

Lemma strip_by_fixed (p : ascii -> bool) (s : str) :
  Forall (fun c => p c = false) s -> strip_by p s = s.
Proof.
  intros H. unfold strip_by, rstrip_by.
  assert (forall t, Forall (fun c => p c = false) t -> lstrip_by p t = t) as L.
  { intros t Ht. destruct Ht as [|c t Hc Ht]; simpl; [reflexivity|].
    now rewrite Hc. }
  rewrite (L s H). rewrite L.
  - apply rev_involutive.
  - apply Forall_rev. exact H.
Qed.

Lemma int_digits_digits (d : str) :
  Forall (fun c => is_digit c = true) d ->
  forall b acc, d <> [] \/ b = true ->
    int_digits d b acc
    = Some (fold_left (fun a c => (10 * a + digit_val c)%Z) d acc).
Proof.
  induction 1 as [|c d Hc Hd IH]; intros b acc Hne; simpl.
  - destruct Hne as [Hne | ->]; [congruence | reflexivity].
  - rewrite Hc. apply IH. now right.
Qed.

(** [int()] of a non-empty string of digits is its decimal value. *)
Lemma py_int_digits (d : str) :
  Spec.digits d -> py_int d = Ok (digits_val d).
Proof.
  intros [Hne Hd]. unfold py_int.
  assert (strip d = d) as ->.
  { apply strip_by_fixed. eapply Forall_impl; [|exact Hd].
    intros a. apply digit_not_space. }
  destruct d as [|c d]; [congruence|].
  inversion Hd; subst.
  destruct (digit_not_sign c) as (E1 & E2 & _); [assumption|].
  rewrite E1, E2.
  rewrite (int_digits_digits (c :: d) Hd); [reflexivity | left; discriminate].
Qed.

End IntFacts.

(** ** The packet-count classifier *)

Module SnifferFacts.

Import Re ReFacts ReShapes JanOS.








End SnifferFacts.



(** ** The network-line classifier and the network list *)

Module NetworkFacts.

Import NetworkManager.

(** The [try] block never reaches its [except] clause. *)
Lemma parse_network_line_try_ok (line : str) :
  parse_network_line_try line
  = Ok (if length (Spec.fields line) <? 8 then None
        else Some (Spec.record_of (Spec.fields line))).
Proof.
  unfold parse_network_line_try. fold (Spec.fields line).
  destruct (Spec.fields line)
    as [|p0 [|p1 [|p2 [|p3 [|p4 [|p5 [|p6 [|p7 rest]]]]]]]];
    try reflexivity.
  simpl. unfold Spec.record_of. simpl. destruct (truthy p1); reflexivity.
Qed.

Lemma fields_length (line : str) :
  length (Spec.fields line) = length (split csv_sep line).
Proof. unfold Spec.fields. apply length_map. Qed.

Lemma parse_network_line_eq (line : str) :
  parse_network_line line
  = if startswith line [dquote] && (8 <=? length (split csv_sep line))
    then Some (Spec.record_of (Spec.fields line)) else None.
Proof.
  unfold parse_network_line, parse_network_line_exn.
  destruct (startswith line [dquote]); cbn [negb andb]; [|reflexivity].
  rewrite parse_network_line_try_ok, fields_length.
  unfold try_except.
  destruct (Nat.ltb_spec (length (split csv_sep line)) 8) as [L | L];
    destruct (Nat.leb_spec 8 (length (split csv_sep line))) as [L' | L'];
    try reflexivity; lia.
Qed.

End NetworkFacts.

(** C1 (as the code has it).  [parse_network_line] yields a record exactly
    when the line begins with a quote and splitting it on the quoted-CSV
    delimiter yields at least 8 fields; the record is then made of the
    first eight fields, in order, each stripped of quotes, with an empty
    ssid replaced by the hidden placeholder.  Every other line yields no
    record. *)
Theorem parse_network_line_at_least_8 (line : str) :
  (NetworkManager.parse_network_line line <> None
   <-> startswith line [dquote] = true
       /\ 8 <= length (split NetworkManager.csv_sep line))
  /\ (forall r, NetworkManager.parse_network_line line = Some r ->
        r = Spec.record_of (Spec.fields line)).
Proof.
  rewrite NetworkFacts.parse_network_line_eq.
  destruct (startswith line [dquote]); cbn [andb].
  - destruct (Nat.leb_spec 8 (length (split NetworkManager.csv_sep line))) as [L | L].
    + split; [split; [intros _; split; [reflexivity | exact L] | discriminate]|].
      intros r [= <-]. reflexivity.
    + split; [split; [congruence | intros [_ L']; lia] | discriminate].
  - split; [split; [congruence | intros [E _]; discriminate] | discriminate].
Qed.

(** C1, the claim as worded fails: a quoted line of nine fields is not of
    the exactly-8 shape, and a record is produced for it. *)
Lemma parse_network_line_nine_fields :
  let line := NetworkManager.quoted
                [lit "1"; lit "HomeNet"; lit "TP-Link"; lit "AA:BB:CC:DD:EE:01";
                 lit "6"; lit "WPA2"; lit "-45"; lit "2.4GHz"; lit "extra"] in
  ~ (NetworkManager.parse_network_line line <> None
     <-> startswith line [dquote] = true
         /\ length (split NetworkManager.csv_sep line) = 8).
Proof.
  intros line [H _].
  assert (NetworkManager.parse_network_line line <> None) as Hrec
    by (vm_compute; discriminate).
  apply H in Hrec as [_ Hlen]. vm_compute in Hlen. discriminate.
Qed.

Lemma parse_network_line_at_least_8_witness :
  let line := NetworkManager.quoted
                [lit "7"; lit ""; lit "Acme"; lit "AA:BB:CC:DD:EE:02";
                 lit "11"; lit "WPA3"; lit "-71"; lit "5GHz"] in
  exists r, NetworkManager.parse_network_line line = Some r
            /\ r = Spec.record_of (Spec.fields line)
            /\ NetworkManager.ssid r = NetworkManager.hidden.
Proof.
  intros line. eexists. split; [reflexivity|]. split; [|reflexivity].
  apply (proj2 (parse_network_line_at_least_8 line)). reflexivity.
Defined.

(** C10.  [network_count] equals the length of [networks]: initially, and
    after [add_network], [clear_networks] and [set_selected_networks],
    which respectively append one record and add one, empty the list and
    reset the count, and touch neither. *)
Theorem network_count_is_length :
  Z.of_nat (length (NetworkManager.networks NetworkManager.init))
  = NetworkManager.network_count NetworkManager.init
  /\ (forall nm,
        Z.of_nat (length (NetworkManager.networks nm))
        = NetworkManager.network_count nm ->
        (forall line,
            let nm' := NetworkManager.add_network line nm in
            Z.of_nat (length (NetworkManager.networks nm'))
            = NetworkManager.network_count nm'
            /\ (forall r, NetworkManager.parse_network_line line = Some r ->
                  NetworkManager.networks nm' = NetworkManager.networks nm ++ [r]
                  /\ NetworkManager.network_count nm'
                     = (NetworkManager.network_count nm + 1)%Z)
            /\ (NetworkManager.parse_network_line line = None -> nm' = nm))
        /\ (let nm' := NetworkManager.clear_networks nm in
            NetworkManager.networks nm' = []
            /\ NetworkManager.network_count nm' = 0%Z)
        /\ (forall selection,
            let nm' := NetworkManager.set_selected_networks selection nm in
            NetworkManager.networks nm' = NetworkManager.networks nm
            /\ NetworkManager.network_count nm' = NetworkManager.network_count nm)).
Proof.
  split; [reflexivity|]. intros nm Inv. split; [|split].
  - intros line nm'. subst nm'. unfold NetworkManager.add_network.
    destruct (NetworkManager.parse_network_line line) as [r|]; simpl.
    + split; [|split].
      * rewrite length_app. simpl. lia.
      * intros r' [= <-]. split; reflexivity.
      * discriminate.
    + split; [exact Inv | split; [discriminate | reflexivity]].
  - split; reflexivity.
  - intros selection. split; reflexivity.
Qed.

Lemma network_count_is_length_witness :
  let line := NetworkManager.quoted
                [lit "1"; lit "HomeNet"; lit "TP-Link"; lit "AA:BB:CC:DD:EE:01";
                 lit "6"; lit "WPA2"; lit "-45"; lit "2.4GHz"] in
  let nm := NetworkManager.add_network line NetworkManager.init in
  Z.of_nat (length (NetworkManager.networks (NetworkManager.add_network line nm)))
  = NetworkManager.network_count (NetworkManager.add_network line nm)
  /\ NetworkManager.network_count (NetworkManager.add_network line nm) = 2%Z.
Proof.
  intros line nm. split; [|reflexivity].
  apply (proj1 (proj2 network_count_is_length nm eq_refl) line).
Defined.

(** ** No classifier raises *)

Module TotalFacts.

Import Re ReFacts ReShapes JanOS.




(** The text captured by the password pattern: what follows the marker
    and optional blanks, to the end of the line. *)
Lemma password_group (data : str) (mo : match_obj) :
  search false password_pattern data = Some mo ->
  exists pre ws pw tail,
    group_str 1 mo = Ok pw /\ pw <> []
    /\ data = pre ++ lit "Password:" ++ ws ++ pw ++ tail
    /\ Spec.spaces ws /\ (tail = [] \/ tail = [newline]).
Proof.
  intros H. apply search_sound in H as (pre & w & post & E & HM & _).
  unfold password_pattern in HM.
  apply M_Seq_inv in HM as (s1 & g1 & H1 & HM).
  apply M_Lit_inv in H1 as (kw & E1 & -> & Hkw).
  apply lit_match_exact in Hkw. subst kw.
  apply M_Seq_inv in HM as (s2 & g2 & H2 & HM).
  apply M_Star_Chr_inv in H2 as (ws & -> & -> & Hws).
  apply M_Seq_inv in HM as (s3 & g3 & H3 & HM).
  apply M_Group_inv in H3 as (pw & g4 & -> & -> & H3).
  apply M_Plus_Chr_inv in H3 as (pw' & Epw & -> & Hne & _).
  apply app_inv_tail in Epw. subst pw'.
  apply M_Eol_inv in HM as (-> & Eg & Htail).
  exists pre, ws, pw, s3. unfold group_str, group_of. rewrite Eg. simpl.
  repeat split; try assumption. now rewrite E, E1.
Qed.

Lemma rssi_group (line : str) (mo : match_obj) :
  search true rssi_pattern line = Some mo ->
  exists g, group_str 1 mo = Ok g
            /\ contains (lit "db") (lower line) = true.
Proof.
  intros H. apply search_sound in H as (pre & w & post & E & HM & _).
  unfold rssi_pattern in HM.
  apply M_Seq_inv in HM as (s1 & g1 & H1 & HM).
  apply M_Group_inv in H1 as (v & g4 & E1 & -> & H1).
  apply M_Seq_inv in HM as (s2 & g2 & H2 & HM).
  apply M_Star_Chr_inv in H2 as (ws & -> & -> & Hws).
  apply M_Seq_inv in HM as (s3 & g3 & H3 & HM).
  apply M_Lit_inv in H3 as (kw & -> & -> & Hkw).
  apply lit_match_icase in Hkw.
  apply M_Opt_Chr_inv in HM as (o & -> & Eg & _).
  exists v. unfold group_str, group_of. rewrite Eg. simpl.
  split; [reflexivity|].
  apply contains_app. rewrite E, E1, !lower_app, Hkw.
  exists (lower pre ++ lower v ++ lower ws), (lower o ++ lower post).
  now rewrite <- !app_assoc.
Qed.






End TotalFacts.



(** ** The probe rows *)

Module ProbeFacts.

Import Re JanOS.

Lemma bind_ok {A B : Type} (x : result A) (f : A -> result B) (b : B) :
  bind x f = Ok b -> exists a, x = Ok a /\ f a = Ok b.
Proof. destruct x as [a|e]; simpl; [eauto | discriminate]. Qed.

(** An RSSI is reported only for a line that holds [dB], in any case. *)
Lemma probe_rssi_needs_dB (line : str) (p : ProbeRecord) :
  parse_probe_line line = Ok p ->
  probe_rssi p <> lit "N/A" ->
  contains (lit "db") (lower line) = true.
Proof.
  unfold parse_probe_line. intros H Hr.
  apply bind_ok in H as (v & _ & H).
  apply bind_ok in H as (r & Hrssi & H).
  apply bind_ok in H as (ts & _ & H).
  injection H as <-. simpl in Hr.
  destruct (search true rssi_pattern line) as [mo|] eqn:S1.
  - now apply TotalFacts.rssi_group in S1 as (g & _ & Hc).
  - injection Hrssi as <-. congruence.
Qed.

End ProbeFacts.

(** C3.  On the line of the claim the probe classifier extracts the MAC
    and the ssid, but reports the RSSI as the placeholder: the pattern
    asks for [dB] after the digits, so a bare [-60] is not an RSSI.  With
    the unit written the RSSI is extracted; and no line without [dB]
    gets one. *)
Theorem probe_line_bare_rssi_is_placeholder :
  JanOS.parse_probe_line (lit "Client: AA:BB:CC:DD:EE:FF, SSID: Home, RSSI: -60")
  = Ok {| JanOS.client_mac := lit "AA:BB:CC:DD:EE:FF";
          JanOS.probe_ssid := lit "Home";
          JanOS.probe_rssi := lit "N/A";
          JanOS.timestamp := [] |}
  /\ JanOS.parse_probe_line (lit "Client: AA:BB:CC:DD:EE:FF, SSID: Home, RSSI: -60dBm")
     = Ok {| JanOS.client_mac := lit "AA:BB:CC:DD:EE:FF";
             JanOS.probe_ssid := lit "Home";
             JanOS.probe_rssi := lit "-60dBm";
             JanOS.timestamp := [] |}
  /\ (forall line p,
        JanOS.parse_probe_line line = Ok p ->
        JanOS.probe_rssi p <> lit "N/A" ->
        contains (lit "db") (lower line) = true).
Proof.
  split; [reflexivity|]. split; [reflexivity|].
  apply ProbeFacts.probe_rssi_needs_dB.
Qed.

Lemma probe_line_bare_rssi_is_placeholder_witness :
  contains (lit "db") (lower (lit "AA:BB:CC:DD:EE:FF -> MyNetwork (-55dBm)")) = true.
Proof.
  eapply (proj2 (proj2 probe_line_bare_rssi_is_placeholder)).
  - reflexivity.
  - simpl. discriminate.
Defined.

(** ** The portal event classifier *)

Module PortalFacts.

Import Re ReFacts ReShapes JanOS.



End PortalFacts.



(** ** Network selection *)

Module SelectFacts.

Import Re ReFacts ReShapes JanOS.

Lemma newline_is_space : is_space newline = true.
Proof. reflexivity. Qed.

(** The selection pattern accepts only digits and blanks. *)
Lemma selection_match_chars (selection : str) (mo : match_obj) :
  match_ false selection_pattern selection = Some mo ->
  Forall (fun c => is_digit c || is_space c = true) selection.
Proof.
  unfold match_. intros H.
  apply match_at_sound in H as (w & post & E & HM & _).
  unfold selection_pattern in HM.
  apply M_Seq_inv in HM as (s1 & g1 & H1 & HM).
  apply M_Bol_inv in H1 as (-> & -> & _).
  apply M_Seq_inv in HM as (s2 & g2 & H2 & HM).
  apply M_Plus_Chr_inv in H2 as (v & Ev & -> & _ & Hv).
  apply M_Eol_inv in HM as (-> & _ & Htail).
  rewrite E, Ev. apply Forall_app. split; [exact Hv|].
  destruct Htail as [-> | ->]; repeat constructor.
Qed.

Lemma selection_rejected (selection : str) (c : ascii) :
  In c selection -> is_digit c = false -> is_space c = false ->
  match_ false selection_pattern selection = None.
Proof.
  intros Hin Hd Hs.
  destruct (match_ false selection_pattern selection) as [mo|] eqn:E;
    [|reflexivity].
  apply selection_match_chars in E.
  rewrite Forall_forall in E. specialize (E c Hin).
  rewrite Hd, Hs in E. discriminate.
Qed.

Lemma lower_all_truthy (s : str) : lower s = lit "all" -> truthy s = true.
Proof. destruct s; [discriminate | reflexivity]. Qed.

End SelectFacts.

(** C8.  With 5 known networks the selection text [all], in any letter
    case and with blanks around it, becomes the selection [1 2 3 4 5]: it
    is stored and sent in one [select_networks] command.  A selection text
    other than [all] that holds a character which is neither a digit nor
    a blank is rejected: the network manager, and with it the stored
    selection, is unchanged and nothing is written to the device. *)
Theorem selection_all_and_letters (typed : str) (j : JanOS.t) :
  (NetworkManager.network_count (JanOS.network_mgr j) = 5%Z ->
   lower (strip typed) = lit "all" ->
   let j' := JanOS.select_networks_menu (Some typed) j in
   NetworkManager.selected_networks (JanOS.network_mgr j') = lit "1 2 3 4 5"
   /\ SerialManager.written (JanOS.serial_mgr j')
      = SerialManager.written (JanOS.serial_mgr j)
        ++ [lit "select_networks 1 2 3 4 5" ++ [ascii_of_nat 13; newline]])
  /\ (forall c,
        In c (strip typed) -> is_digit c = false -> is_space c = false ->
        lower (strip typed) <> lit "all" ->
        let j' := JanOS.select_networks_menu (Some typed) j in
        JanOS.network_mgr j' = JanOS.network_mgr j
        /\ SerialManager.written (JanOS.serial_mgr j')
           = SerialManager.written (JanOS.serial_mgr j)).
Proof.
  split.
  - intros Hn Hall j'. subst j'. unfold JanOS.select_networks_menu.
    rewrite Hn. cbn [Z.eqb].
    rewrite (SelectFacts.lower_all_truthy _ Hall). cbn [negb].
    rewrite Hall.
    change (str_eqb (lit "all") (lit "all")) with true. cbn iota.
    change (JanOS.all_indices 5) with (lit "1 2 3 4 5").
    split; reflexivity.
  - intros c Hin Hd Hs Hall j'. subst j'. unfold JanOS.select_networks_menu.
    destruct (NetworkManager.network_count (JanOS.network_mgr j) =? 0)%Z;
      [now split|].
    destruct (truthy (strip typed)); cbn [negb]; [|now split].
    destruct (str_eqb (lower (strip typed)) (lit "all")) eqn:E.
    { apply str_eqb_true in E. contradiction. }
    rewrite (SelectFacts.selection_rejected (strip typed) c Hin Hd Hs).
    now split.
Qed.

Lemma selection_all_and_letters_witness :
  let five :=
    JanOS.set_network_mgr
      {| NetworkManager.networks := [];
         NetworkManager.network_count := 5;
         NetworkManager.selected_networks := lit "2";
         NetworkManager.scan_done := true |} Sample.session in
  NetworkManager.selected_networks
    (JanOS.network_mgr (JanOS.select_networks_menu (Some (lit " All ")) five))
  = lit "1 2 3 4 5"
  /\ JanOS.network_mgr (JanOS.select_networks_menu (Some (lit "1 3a")) five)
     = JanOS.network_mgr five.
Proof.
  intros five. split.
  - apply (proj1 (selection_all_and_letters (lit " All ") five)); reflexivity.
  - apply (proj2 (selection_all_and_letters (lit "1 3a") five) "a"%char).
    + simpl. auto.
    + reflexivity.
    + reflexivity.
    + discriminate.
Defined.

(** ** Stopping everything *)

Module StopFacts.

Import JanOS.

Lemma stop_all_attacks_idle (j : t) :
  Spec.running_count j = 0 -> stop_all_attacks j = j.
Proof.
  destruct j as [sm nm a b s o h p e pk st se pt pe et ee sf ld cc jn].
  destruct a, b, s, o, h, p, e; intros H;
    first [discriminate H | reflexivity].
Qed.

(** Appending one at a time is appending the lot. *)
Lemma snoc_all {A : Type} (xs init : list A) :
  fold_left (fun acc x => acc ++ [x]) xs init = init ++ xs.
Proof.
  revert init. induction xs as [|x xs IH]; intros init; simpl.
  - now rewrite app_nil_r.
  - rewrite IH, <- app_assoc. reflexivity.
Qed.

Lemma stop_all_attacks_effects (j : t) :
  let j' := stop_all_attacks j in
  Spec.running_count j' = 0
  /\ SerialManager.written (serial_mgr j')
     = fold_left (fun acc x => acc ++ [x])
         (repeat Spec.stop_line (Spec.running_count j))
         (SerialManager.written (serial_mgr j))
  /\ stop_sniffer_event j' = sniffer_running j || stop_sniffer_event j
  /\ stop_portal_event j' = portal_running j || stop_portal_event j
  /\ stop_evil_twin_event j' = evil_twin_running j || stop_evil_twin_event j
  /\ joined j'
     = fold_left (fun acc x => acc ++ [x]) (Spec.running_listeners j) (joined j).
Proof.
  destruct j as [sm nm a b s o h p e pk st se pt pe et ee sf ld cc jn].
  destruct sm as [conn w].
  destruct a, b, s, o, h, p, e, st, pt, et;
    exact (conj eq_refl (conj eq_refl (conj eq_refl
             (conj eq_refl (conj eq_refl eq_refl))))).
Qed.

End StopFacts.

(** C6.  [stop_all_attacks] with no feature flag set returns the session
    as it is, so nothing is sent.  In general it clears every flag, writes
    one stop command per flag that was set, sets the stop event of each
    listener feature that was running and joins its thread once; and a
    second call right after changes nothing more. *)
Theorem stop_all_attacks_idempotent (j : JanOS.t) :
  let j' := JanOS.stop_all_attacks j in
  (Spec.running_count j = 0 -> j' = j)
  /\ Spec.running_count j' = 0
  /\ SerialManager.written (JanOS.serial_mgr j')
     = SerialManager.written (JanOS.serial_mgr j)
       ++ repeat Spec.stop_line (Spec.running_count j)
  /\ JanOS.stop_sniffer_event j'
     = JanOS.sniffer_running j || JanOS.stop_sniffer_event j
  /\ JanOS.stop_portal_event j'
     = JanOS.portal_running j || JanOS.stop_portal_event j
  /\ JanOS.stop_evil_twin_event j'
     = JanOS.evil_twin_running j || JanOS.stop_evil_twin_event j
  /\ JanOS.joined j' = JanOS.joined j ++ Spec.running_listeners j
  /\ JanOS.stop_all_attacks j' = j'.
Proof.
  intros j'. subst j'.
  destruct (StopFacts.stop_all_attacks_effects j)
    as (Hc & Hw & Hs & Hp & He & Hj).
  rewrite StopFacts.snoc_all in Hw. rewrite StopFacts.snoc_all in Hj.
  repeat split; try assumption.
  - apply StopFacts.stop_all_attacks_idle.
  - now apply StopFacts.stop_all_attacks_idle.
Qed.

Lemma stop_all_attacks_idempotent_witness :
  JanOS.stop_all_attacks Sample.session = Sample.session.
Proof.
  apply (proj1 (stop_all_attacks_idempotent Sample.session)). reflexivity.
Defined.

(** ** The command channel: [read_response] *)

Module ReadFacts.

Import SerialManager.

Local Open Scope Z_scope.

Lemma readline_waiting (sm : t) :
  in_waiting sm = true ->
  exists at_ l rest,
    inbox (serial_conn sm) = (at_, l) :: rest
    /\ at_ <= now sm
    /\ readline sm
       = (l, {| serial_conn := {| clock := now sm; inbox := rest |};
                written := written sm |}).
Proof.
  unfold in_waiting, readline, now.
  destruct (inbox (serial_conn sm)) as [|[at_ l] rest]; [discriminate|].
  intros H. apply Z.leb_le in H.
  exists at_, l, rest. split; [reflexivity|]. split; [assumption|].
  unfold READ_TIMEOUT.
  destruct (Z.leb_spec at_ (clock (serial_conn sm) + 2000)) as [L | L]; [|lia].
  now rewrite Z.max_l.
Qed.

Lemma not_waiting (sm : t) :
  in_waiting sm = false ->
  match inbox (serial_conn sm) with
  | (at_, _) :: _ => now sm < at_
  | [] => True
  end.
Proof.
  unfold in_waiting, now.
  destruct (inbox (serial_conn sm)) as [|[at_ l] rest]; [trivial|].
  intros H. now apply Z.leb_gt in H.
Qed.

(** What the loop returns, whenever it returns. *)
Lemma read_response_loop_result (start_time timeout : Z) :
  forall fuel lines sm out sm',
    read_response_loop fuel start_time timeout lines sm = Some (out, sm') ->
    (now sm - start_time < timeout
     \/ match inbox (serial_conn sm) with
        | (at_, _) :: _ => now sm - 100 < at_
        | [] => True
        end) ->
    exists taken,
      inbox (serial_conn sm) = taken ++ inbox (serial_conn sm')
      /\ out = lines ++ Spec.collected taken
      /\ Forall (fun p => fst p - start_time < timeout) taken
      /\ timeout <= now sm' - start_time
      /\ now sm <= now sm'
      /\ written sm' = written sm
      /\ match inbox (serial_conn sm') with
         | (at_, _) :: _ => now sm' - 100 < at_
         | [] => True
         end.
Proof.
  induction fuel as [|fuel IH]; intros lines sm out sm'; simpl; [discriminate|].
  destruct (Z.ltb_spec (now sm - start_time) timeout) as [C | C].
  - destruct (in_waiting sm) eqn:W.
    + destruct (readline_waiting sm W) as (at_ & l & rest & Ei & Hat & ->).
      intros H _.
      assert (exists lines1,
                 read_response_loop fuel start_time timeout lines1
                   {| serial_conn := {| clock := now sm; inbox := rest |};
                      written := written sm |} = Some (out, sm')
                 /\ lines1 ++ Spec.collected [] = lines ++ Spec.collected [(at_, l)])
        as (lines1 & H1 & El).
      { unfold Spec.collected. simpl.
        destruct (truthy (strip l)); eexists; (split; [exact H|]);
          now rewrite ?app_nil_r. }
      apply IH in H1 as (taken & Et & Eo & Ht & Hd & Hn & Hw & Hp);
        [|left; exact C].
      simpl in Et, Hn, Hw. exists ((at_, l) :: taken).
      rewrite Ei, Et. repeat split; try assumption.
      * rewrite Eo. unfold Spec.collected in *. simpl in *.
        rewrite app_nil_r in El. rewrite El.
        destruct (truthy (strip l)); simpl; now rewrite <- ?app_assoc, ?app_nil_r.
      * constructor; [simpl; lia | assumption].
    + intros H _. apply IH in H as (taken & Et & Eo & Ht & Hd & Hn & Hw & Hp).
      * exists taken. simpl in Et, Hn, Hw. unfold now in *. simpl in Hn.
        repeat split; try assumption. lia.
      * right. apply not_waiting in W. unfold now in *. simpl.
        destruct (inbox (serial_conn sm)) as [|[at_ l] rest]; [trivial | lia].
  - intros [= <- <-] [Hc | Hp]; [lia|].
    exists []. unfold Spec.collected. simpl. rewrite app_nil_r.
    repeat split; try assumption; try constructor; lia.
Qed.

(** The loop returns once there is fuel for the pending lines and the
    sleeps that fit before the deadline. *)
Lemma read_response_loop_returns (start_time timeout : Z) :
  forall fuel (k : nat) lines sm,
    start_time + timeout - now sm <= 100 * Z.of_nat k ->
    (length (inbox (serial_conn sm)) + k < fuel)%nat ->
    exists out sm',
      read_response_loop fuel start_time timeout lines sm = Some (out, sm').
Proof.
  induction fuel as [|fuel IH]; intros k lines sm Hk Hf; [lia|]. simpl.
  destruct (Z.ltb_spec (now sm - start_time) timeout) as [C | C]; [|eauto].
  destruct (in_waiting sm) eqn:W.
  - destruct (readline_waiting sm W) as (at_ & l & rest & Ei & Hat & ->).
    rewrite Ei in Hf. simpl in Hf.
    destruct (truthy (strip l)); apply (IH k);
      unfold now in *; cbn [serial_conn clock inbox written]; lia.
  - destruct k as [|k]; [lia|].
    apply (IH k); unfold now, sleep in *;
      cbn [serial_conn clock inbox written]; lia.
Qed.

Lemma enough_fuel_enough (timeout : Z) (sm : t) :
  exists k : nat,
    timeout <= 100 * Z.of_nat k
    /\ (length (inbox (serial_conn sm)) + k < enough_fuel timeout sm)%nat.
Proof.
  exists (Z.to_nat (timeout / 100 + 1)). unfold enough_fuel. split; [|lia].
  pose proof (Z.mul_succ_div_gt timeout 100 ltac:(lia)) as H.
  unfold Z.succ in H. revert H.
  generalize (timeout / 100). intros q H. lia.
Qed.

Lemma read_response_returns (fuel : nat) (timeout : Z) (sm : t) :
  (enough_fuel timeout sm <= fuel)%nat ->
  exists out sm', read_response fuel timeout sm = Some (out, sm').
Proof.
  intros Hf. destruct (enough_fuel_enough timeout sm) as (k & Hk & Hl).
  unfold read_response.
  apply (read_response_loop_returns (now sm) timeout fuel k); lia.
Qed.

(** The result of [read_response], with fuel for its iterations. *)
Lemma read_response_spec
    (fuel : nat) (timeout : Z) (sm : t) :
  (enough_fuel timeout sm <= fuel)%nat ->
  exists lines sm' taken,
    read_response fuel timeout sm = Some (lines, sm')
    /\ inbox (serial_conn sm)
       = taken ++ inbox (serial_conn sm')
    /\ lines = Spec.collected taken
    /\ Forall (fun p => (fst p < now sm + timeout)%Z) taken
    /\ (0 < timeout ->
        match inbox (serial_conn sm') with
        | (at_, _) :: _ => now sm' - 100 < at_
        | [] => True
        end)%Z
    /\ written sm' = written sm
    /\ (timeout <= now sm' - now sm)%Z.
Proof.
  intros Hf.
  destruct (read_response_returns fuel timeout sm Hf) as (out & sm' & H).
  exists out, sm'.
  destruct (Z.lt_ge_cases 0 timeout) as [Hpos | Hneg].
  - unfold read_response in H.
    pose proof H as H'.
    apply read_response_loop_result in H'
      as (taken & Et & Eo & Ht & Hd & Hn & Hw & Hp); [|left; lia].
    exists taken.
    split; [exact H|]. split; [exact Et|]. split; [exact Eo|].
    split; [|split; [intros _; exact Hp | split; [exact Hw | exact Hd]]].
    eapply Forall_impl; [|exact Ht]. intros p Hp'. simpl in Hp'. lia.
  - exists []. unfold read_response in H.
    destruct fuel as [|fuel]; [discriminate|]. pose proof H as H0. simpl in H.
    destruct (Z.ltb_spec (now sm - now sm) timeout)
      as [C | C]; [lia|].
    injection H as <- <-.
    split; [exact H0|]. split; [reflexivity|]. split; [reflexivity|].
    split; [constructor|]. split; [lia|]. split; [reflexivity | lia].
Qed.

End ReadFacts.




(** ** The scan exchange: [do_scan] *)

Module ScanFacts.

Import JanOS.

Local Open Scope Z_scope.



End ScanFacts.



(** ** The listener loop *)

Module ListenFacts.

Import SerialManager Listeners.

Section Loop.

Variable St : Type.
Variable get_sm : St -> SerialManager.t.
Variable set_sm : SerialManager.t -> St -> St.
Variable event : St -> bool.
Variable on_line : str -> St -> St.

Hypothesis get_set : forall sm s, get_sm (set_sm sm s) = sm.
Hypothesis get_on_line : forall l s, get_sm (on_line l s) = get_sm s.
Hypothesis event_set : forall sm s, event (set_sm sm s) = event s.
Hypothesis event_on_line : forall l s, event (on_line l s) = event s.

Local Open Scope Z_scope.

Lemma round_now (s : St) :
  now (get_sm (round get_sm set_sm on_line s)) = now (get_sm s) + 100.
Proof.
  unfold round. destruct (in_waiting (get_sm s)) eqn:W.
  - destruct (ReadFacts.readline_waiting (get_sm s) W)
      as (at_ & l & rest & Ei & Hat & ->).
    destruct (truthy (strip l)); rewrite !get_set, ?get_on_line, ?get_set;
      reflexivity.
  - rewrite get_set. reflexivity.
Qed.

(** The run returns once there is fuel for the rounds up to [stop_at]. *)
Lemma listen_returns (stop_at : Z) :
  forall fuel (k : nat) s,
    stop_at - now (get_sm s) <= 100 * Z.of_nat k ->
    (k < fuel)%nat ->
    exists s', listen get_sm set_sm event on_line fuel stop_at s = Some s'.
Proof.
  induction fuel as [|fuel IH]; intros k s Hk Hf; [lia|].
  cbn [listen]. destruct (is_set get_sm event stop_at s) eqn:E; [eauto|].
  unfold is_set in E. apply orb_false_iff in E as [_ E].
  apply Z.leb_gt in E.
  destruct k as [|k]; [lia|].
  apply (IH k); [|lia]. rewrite round_now. lia.
Qed.

Lemma enough_rounds_enough (stop_at : Z) (s : St) :
  exists k : nat,
    stop_at - now (get_sm s) <= 100 * Z.of_nat k
    /\ (k < enough_rounds stop_at (get_sm s))%nat.
Proof.
  exists (Z.to_nat ((stop_at - now (get_sm s)) / 100 + 1)).
  unfold enough_rounds. split; [|lia].
  pose proof (Z.mul_succ_div_gt (stop_at - now (get_sm s)) 100 ltac:(lia)) as H.
  unfold Z.succ in H. revert H.
  generalize ((stop_at - now (get_sm s)) / 100). intros q H. lia.
Qed.

Section Invariant.

(** An invariant of the session indexed by the lines handled so far. *)
Variable R : list str -> St -> Prop.
Hypothesis R_set : forall ls sm s, R ls s -> R ls (set_sm sm s).
Hypothesis R_on_line : forall ls l s, R ls s -> R (ls ++ [l]) (on_line l s).

(** One round: 100 ms later, at most one line fewer, the same event. *)
Lemma round_spec (ls : list str) (s : St) :
  R ls s ->
  exists taken,
    (length taken <= 1)%nat
    /\ inbox (serial_conn (get_sm s))
       = taken ++ inbox (serial_conn (get_sm (round get_sm set_sm on_line s)))
    /\ now (get_sm (round get_sm set_sm on_line s)) = now (get_sm s) + 100
    /\ written (get_sm (round get_sm set_sm on_line s)) = written (get_sm s)
    /\ event (round get_sm set_sm on_line s) = event s
    /\ R (ls ++ Spec.collected taken) (round get_sm set_sm on_line s).
Proof.
  intros HR. unfold round.
  destruct (in_waiting (get_sm s)) eqn:W.
  - destruct (ReadFacts.readline_waiting (get_sm s) W)
      as (at_ & l & rest & Ei & Hat & ->).
    exists [(at_, l)]. unfold Spec.collected. cbn [map filter snd].
    destruct (truthy (strip l)).
    + rewrite !get_set, get_on_line, get_set, event_set, event_on_line, event_set.
      unfold now. cbn [sleep serial_conn clock inbox written].
      repeat split; try assumption; try reflexivity; try (simpl; lia).
      apply R_set, R_on_line, R_set, HR.
    + rewrite !get_set, !event_set.
      unfold now. cbn [sleep serial_conn clock inbox written].
      rewrite app_nil_r.
      repeat split; try assumption; try reflexivity; try (simpl; lia).
      apply R_set, R_set, HR.
  - exists []. unfold Spec.collected. cbn [map filter].
    rewrite !get_set, event_set, app_nil_r.
    unfold now. cbn [sleep serial_conn clock inbox written].
    repeat split; try reflexivity; try (simpl; lia).
    apply R_set, HR.
Qed.

(** What a run did, whenever it returns. *)
Lemma listen_result (stop_at : Z) :
  forall fuel ls s s',
    listen get_sm set_sm event on_line fuel stop_at s = Some s' ->
    R ls s ->
    exists taken rounds,
      inbox (serial_conn (get_sm s)) = taken ++ inbox (serial_conn (get_sm s'))
      /\ now (get_sm s') = now (get_sm s) + 100 * Z.of_nat rounds
      /\ (length taken <= rounds)%nat
      /\ written (get_sm s') = written (get_sm s)
      /\ event s' = event s
      /\ is_set get_sm event stop_at s' = true
      /\ (is_set get_sm event stop_at s = true -> rounds = 0%nat)
      /\ (is_set get_sm event stop_at s = false ->
          now (get_sm s') < stop_at + 100)
      /\ R (ls ++ Spec.collected taken) s'.
Proof.
  induction fuel as [|fuel IH]; intros ls s s'; [discriminate|].
  cbn [listen]. destruct (is_set get_sm event stop_at s) eqn:E.
  - intros [= <-] HR. exists [], 0%nat. unfold Spec.collected. simpl.
    rewrite app_nil_r.
    repeat split; try assumption; try reflexivity; try lia; try discriminate.
  - intros H HR.
    destruct (round_spec ls s HR) as (t1 & L1 & E1 & N1 & W1 & V1 & R1).
    destruct (IH _ _ _ H R1)
      as (taken & rounds & Et & En & Lt & Hw & Hv & Hs & Hz & Hl & HR').
    exists (t1 ++ taken), (S rounds).
    split; [rewrite E1, Et; now rewrite app_assoc|].
    split; [rewrite En, N1; lia|].
    split; [rewrite length_app; lia|].
    split; [now rewrite Hw, W1|].
    split; [now rewrite Hv, V1|].
    split; [assumption|].
    split; [discriminate|].
    split.
    + intros _.
      destruct (is_set get_sm event stop_at (round get_sm set_sm on_line s)) eqn:E2.
      * rewrite (Hz eq_refl) in En. rewrite En, N1.
        unfold is_set in E. apply orb_false_iff in E as [_ E].
        apply Z.leb_gt in E. lia.
      * now apply Hl.
    + unfold Spec.collected in *. rewrite map_app, filter_app, app_assoc.
      exact HR'.
Qed.


(** A run with fuel for its rounds, and what it leaves. *)
Lemma listen_run (stop_at : Z) (fuel : nat) (ls : list str) (s : St) :
  (enough_rounds stop_at (get_sm s) <= fuel)%nat ->
  R ls s ->
  exists s' taken rounds,
    listen get_sm set_sm event on_line fuel stop_at s = Some s'
    /\ run_of get_sm event stop_at s s' taken rounds
    /\ R (ls ++ Spec.collected taken) s'.
Proof.
  intros Hf HR.
  destruct (enough_rounds_enough stop_at s) as (k & Hk & Hl).
  destruct (listen_returns stop_at fuel k s Hk ltac:(lia)) as [s' H].
  destruct (listen_result stop_at fuel ls s s' H HR)
    as (taken & rounds & Et & En & Lt & Hw & Hv & Hs & Hz & Hlt & HR').
  exists s', taken, rounds. split; [exact H|]. split; [|exact HR'].
  unfold run_of. unfold is_set in *.
  split; [exact Et|]. split; [exact En|]. split; [exact Lt|].
  split; [exact Hw|]. split; [exact Hv|]. split.
  - intros E. apply Hz. now rewrite E.
  - intros E. rewrite Hv, E in Hs. rewrite E in Hz, Hlt. simpl in Hs, Hz, Hlt.
    apply Z.leb_le in Hs. split; [exact Hs|]. split.
    + intros Hn. apply Hlt. now apply Z.leb_gt.
    + intros Hn. apply Hz. now apply Z.leb_le.
Qed.

End Invariant.


End Loop.

End ListenFacts.

(** ** The three listeners *)

Module ListenerRuns.

Import Listeners.






Lemma portal_on_line_fields (line : str) (j : JanOS.t) :
  JanOS.serial_mgr (portal_on_line line j) = JanOS.serial_mgr j
  /\ JanOS.stop_portal_event (portal_on_line line j) = JanOS.stop_portal_event j
  /\ JanOS.submitted_forms (portal_on_line line j)
     = (JanOS.submitted_forms j + if Spec.is_submission line then 1 else 0)%Z.
Proof.
  unfold portal_on_line, JanOS.update_portal_display, Spec.is_submission,
    Spec.classify_portal, Spec.portal_predicates, Spec.first_match.
  destruct (contains (lit "Client connected") line).
  { cbn. repeat split. lia. }
  destruct (contains (lit "Client count") line).
  { destruct (Re.search false JanOS.client_count_pattern line) as [mo|];
      [|cbn; repeat split; lia].
    destruct (JanOS.group_str 1 mo) as [g|]; [|cbn; repeat split; lia].
    cbn [bind]. destruct (py_int g); cbn; repeat split; lia. }
  destruct (contains (lit "Password:") line).
  { destruct (Re.search false JanOS.password_pattern line) as [mo|] eqn:S1;
      [|cbn; repeat split].
    apply TotalFacts.password_group in S1 as (pre & ws & pw & tl & -> & _).
    cbn. repeat split. }
  destruct (contains (lit "Form data:") line
            || contains (lit "username:") (lower line)
            || contains (lit "email:") (lower line)).
  { cbn. repeat split. }
  cbn -[Z.add contains lower].
  repeat match goal with
         | |- context [if ?b then _ else _] => destruct b
         end; cbn; repeat split; lia.
Qed.

Lemma update_evil_twin_display_fields (line : str) (e : EvilTwin.t) :
  let e' := EvilTwin.update_evil_twin_display line e in
  EvilTwin.core e' = EvilTwin.core e
  /\ EvilTwin.evil_twin_ssid e' = EvilTwin.evil_twin_ssid e
  /\ EvilTwin.evil_twin_captured_data e'
     = EvilTwin.evil_twin_captured_data e
       ++ (if Spec.twin_captures line then [line] else [])
  /\ EvilTwin.evil_twin_client_count e'
     = (EvilTwin.evil_twin_client_count e
        + if Spec.twin_connects line then 1 else 0)%Z.
Proof.
  unfold EvilTwin.update_evil_twin_display, Spec.twin_captures,
    Spec.twin_connects.
  destruct (contains (lit "Client connected") line).
  { cbn -[app Z.add]. rewrite app_nil_r. repeat split. }
  destruct (contains (lit "trying to connect") (lower line)
            || contains (lit "association") (lower line)).
  { cbn -[app Z.add]. rewrite app_nil_r. repeat split. lia. }
  destruct (contains (lit "Password:") line
            || contains (lit "Handshake captured") line).
  { cbn -[app Z.add]. repeat split. lia. }
  cbn -[app Z.add contains lower].
  repeat match goal with
         | |- context [if ?b then _ else _] => destruct b
         end; cbn -[app Z.add]; rewrite app_nil_r; repeat split; lia.
Qed.



(** A run of the portal listener. *)
Lemma read_portal_data_run (fuel : nat) (stop_at : Z) (j : JanOS.t)
    (R : list str -> JanOS.t -> Prop) :
  (forall ls sm s, R ls s -> R ls (JanOS.set_serial_mgr sm s)) ->
  (forall ls l s, R ls s -> R (ls ++ [l]) (portal_on_line l s)) ->
  enough_rounds stop_at (JanOS.serial_mgr j) <= fuel ->
  R [] j ->
  exists j' taken rounds,
    read_portal_data fuel stop_at j = Some j'
    /\ run_of JanOS.serial_mgr JanOS.stop_portal_event stop_at j j' taken rounds
    /\ R (Spec.collected taken) j'.
Proof.
  intros R1 R2 Hf H0. unfold read_portal_data.
  apply (ListenFacts.listen_run JanOS.t JanOS.serial_mgr JanOS.set_serial_mgr
           JanOS.stop_portal_event portal_on_line
           (fun _ _ => eq_refl)
           (fun l s => proj1 (portal_on_line_fields l s))
           (fun _ _ => eq_refl)
           (fun l s => proj1 (proj2 (portal_on_line_fields l s)))
           R R1 R2 stop_at fuel [] j Hf H0).
Qed.

(** A run of the evil twin listener. *)
Lemma read_evil_twin_data_run (fuel : nat) (stop_at : Z) (e : EvilTwin.t)
    (R : list str -> EvilTwin.t -> Prop) :
  (forall ls sm s, R ls s ->
     R ls (EvilTwin.set_core (JanOS.set_serial_mgr sm (EvilTwin.core s)) s)) ->
  (forall ls l s, R ls s -> R (ls ++ [l]) (EvilTwin.update_evil_twin_display l s)) ->
  enough_rounds stop_at (JanOS.serial_mgr (EvilTwin.core e)) <= fuel ->
  R [] e ->
  exists e' taken rounds,
    EvilTwin.read_evil_twin_data fuel stop_at e = Some e'
    /\ run_of (fun e => JanOS.serial_mgr (EvilTwin.core e))
         (fun e => JanOS.stop_evil_twin_event (EvilTwin.core e))
         stop_at e e' taken rounds
    /\ R (Spec.collected taken) e'.
Proof.
  intros R1 R2 Hf H0. unfold EvilTwin.read_evil_twin_data.
  apply (ListenFacts.listen_run EvilTwin.t
           (fun e => JanOS.serial_mgr (EvilTwin.core e))
           (fun sm e => EvilTwin.set_core (JanOS.set_serial_mgr sm (EvilTwin.core e)) e)
           (fun e => JanOS.stop_evil_twin_event (EvilTwin.core e))
           EvilTwin.update_evil_twin_display
           (fun _ _ => eq_refl)
           (fun l s => f_equal JanOS.serial_mgr
                         (proj1 (update_evil_twin_display_fields l s)))
           (fun _ _ => eq_refl)
           (fun l s => f_equal JanOS.stop_evil_twin_event
                         (proj1 (update_evil_twin_display_fields l s)))
           R R1 R2 stop_at fuel [] e Hf H0).
Qed.

End ListenerRuns.







(** X4.  A run of the portal listener adds to [submitted_forms] the number
    of lines it read that are password or form submissions by the order of
    the classifier; the counter never goes down. *)
Theorem portal_listener_counts_forms (fuel : nat) (stop_at : Z) (j : JanOS.t) :
  Listeners.enough_rounds stop_at (JanOS.serial_mgr j) <= fuel ->
  exists j' taken rounds,
    Listeners.read_portal_data fuel stop_at j = Some j'
    /\ Listeners.run_of JanOS.serial_mgr JanOS.stop_portal_event
         stop_at j j' taken rounds
    /\ JanOS.submitted_forms j'
       = (JanOS.submitted_forms j
          + Z.of_nat (length (filter Spec.is_submission (Spec.collected taken))))%Z.
Proof.
  intros Hf.
  destruct (ListenerRuns.read_portal_data_run fuel stop_at j
              (fun ls s =>
                 JanOS.submitted_forms s
                 = (JanOS.submitted_forms j
                    + Z.of_nat (length (filter Spec.is_submission ls)))%Z))
    as (j' & taken & rounds & H & Hr & E).
  - intros ls sm s Hs. exact Hs.
  - intros ls l s Hs.
    destruct (ListenerRuns.portal_on_line_fields l s) as (_ & _ & ->).
    rewrite Hs, filter_app, length_app. cbn [filter].
    destruct (Spec.is_submission l); simpl length; lia.
  - exact Hf.
  - simpl. lia.
  - now exists j', taken, rounds.
Qed.

Lemma portal_listener_counts_forms_witness :
  exists j' taken rounds,
    Listeners.read_portal_data 20 1000 Sample.portal_session = Some j'
    /\ Listeners.run_of JanOS.serial_mgr JanOS.stop_portal_event 1000
         Sample.portal_session j' taken rounds
    /\ JanOS.submitted_forms j'
       = (JanOS.submitted_forms Sample.portal_session
          + Z.of_nat (length (filter Spec.is_submission (Spec.collected taken))))%Z.
Proof.
  apply (portal_listener_counts_forms 20 1000 Sample.portal_session).
  vm_compute. lia.
Defined.

(** X5.  A run of the evil twin listener appends to the captured data, in
    arrival order, exactly the lines it read that hold [Password:] or
    [Handshake captured] and neither [Client connected] nor, in any case,
    [trying to connect] or [association]; it adds to the client count the
    number of lines that hold [Client connected]; what was captured before
    is kept, and of the rest of the session only the serial manager
    changes. *)
Theorem evil_twin_listener_accumulates (fuel : nat) (stop_at : Z) (e : EvilTwin.t) :
  Listeners.enough_rounds stop_at (JanOS.serial_mgr (EvilTwin.core e)) <= fuel ->
  exists e' taken rounds,
    EvilTwin.read_evil_twin_data fuel stop_at e = Some e'
    /\ Listeners.run_of (fun e => JanOS.serial_mgr (EvilTwin.core e))
         (fun e => JanOS.stop_evil_twin_event (EvilTwin.core e))
         stop_at e e' taken rounds
    /\ EvilTwin.evil_twin_captured_data e'
       = EvilTwin.evil_twin_captured_data e
         ++ filter Spec.twin_captures (Spec.collected taken)
    /\ EvilTwin.evil_twin_client_count e'
       = (EvilTwin.evil_twin_client_count e
          + Z.of_nat (length (filter Spec.twin_connects (Spec.collected taken))))%Z
    /\ EvilTwin.evil_twin_ssid e' = EvilTwin.evil_twin_ssid e
    /\ EvilTwin.core e'
       = JanOS.set_serial_mgr (JanOS.serial_mgr (EvilTwin.core e')) (EvilTwin.core e).
Proof.
  intros Hf.
  destruct (ListenerRuns.read_evil_twin_data_run fuel stop_at e
              (fun ls s =>
                 EvilTwin.evil_twin_captured_data s
                 = EvilTwin.evil_twin_captured_data e
                   ++ filter Spec.twin_captures ls
                 /\ EvilTwin.evil_twin_client_count s
                    = (EvilTwin.evil_twin_client_count e
                       + Z.of_nat (length (filter Spec.twin_connects ls)))%Z
                 /\ EvilTwin.evil_twin_ssid s = EvilTwin.evil_twin_ssid e
                 /\ exists sm, EvilTwin.core s
                               = JanOS.set_serial_mgr sm (EvilTwin.core e)))
    as (e' & taken & rounds & H & Hr & (Hc & Hn & Hs & (sm & Hk))).
  - intros ls sm s (Hc & Hn & Hs & (sm0 & Hk)).
    repeat split; try assumption. exists sm. simpl. now rewrite Hk.
  - intros ls l s (Hc & Hn & Hs & (sm0 & Hk)).
    destruct (ListenerRuns.update_evil_twin_display_fields l s)
      as (E1 & E2 & E3 & E4).
    rewrite E1, E2, E3, E4, Hc, Hn, !filter_app, length_app. cbn [filter].
    split; [|split; [|split; [assumption | now exists sm0]]].
    + rewrite <- app_assoc. now destruct (Spec.twin_captures l).
    + destruct (Spec.twin_connects l); simpl length; lia.
  - exact Hf.
  - simpl. rewrite app_nil_r. repeat split; try lia.
    exists (JanOS.serial_mgr (EvilTwin.core e)). now destruct (EvilTwin.core e).
  - exists e', taken, rounds.
    split; [exact H|]. split; [exact Hr|]. split; [exact Hc|].
    split; [exact Hn|]. split; [exact Hs|].
    rewrite Hk. reflexivity.
Qed.

Lemma evil_twin_listener_accumulates_witness :
  exists e',
    EvilTwin.read_evil_twin_data 20 1000 Sample.twin_session = Some e'
    /\ EvilTwin.evil_twin_captured_data e'
       = [lit "Password: hunter2"; lit "Handshake captured"]
    /\ EvilTwin.evil_twin_client_count e' = 1%Z.
Proof.
  destruct (evil_twin_listener_accumulates 20 1000 Sample.twin_session)
    as (e' & taken & rounds & H & _ & _).
  - vm_compute. lia.
  - exists e'. split; [exact H|].
    vm_compute in H. injection H as <-. split; reflexivity.
Defined.

(** ** How long [read_response] lasts, and what [do_scan] keeps *)

Module ScanMore.

Import SerialManager.

Local Open Scope Z_scope.



End ScanMore.



Module ScanKeeps.

Import JanOS.

Lemma add_network_quoted (line : str) (nm : NetworkManager.t) :
  (if startswith line [dquote] then NetworkManager.add_network line nm else nm)
  = NetworkManager.add_network line nm.
Proof.
  destruct (startswith line [dquote]) eqn:E; [reflexivity|].
  unfold NetworkManager.add_network.
  rewrite NetworkFacts.parse_network_line_eq, E. reflexivity.
Qed.

Lemma add_network_fields (line : str) (nm : NetworkManager.t) :
  let nm' := NetworkManager.add_network line nm in
  NetworkManager.networks nm'
  = NetworkManager.networks nm ++ Spec.records_of [line]
  /\ NetworkManager.network_count nm'
     = (NetworkManager.network_count nm
        + Z.of_nat (length (Spec.records_of [line])))%Z
  /\ NetworkManager.selected_networks nm' = NetworkManager.selected_networks nm
  /\ NetworkManager.scan_done nm' = NetworkManager.scan_done nm.
Proof.
  unfold NetworkManager.add_network, Spec.records_of. cbn [flat_map].
  destruct (NetworkManager.parse_network_line line); cbn -[Z.add Z.of_nat];
    rewrite ?app_nil_r; repeat split; simpl; lia.
Qed.

Lemma records_of_app (a b : list str) :
  Spec.records_of (a ++ b) = Spec.records_of a ++ Spec.records_of b.
Proof. unfold Spec.records_of. apply flat_map_app. Qed.

(** One batch of lines. *)
Lemma scan_lines_fields (lines : list str) :
  forall nm,
    let r := scan_lines lines nm in
    NetworkManager.networks (fst r)
    = NetworkManager.networks nm ++ Spec.records_of (Spec.upto_sentinel lines)
    /\ NetworkManager.network_count (fst r)
       = (NetworkManager.network_count nm
          + Z.of_nat (length (Spec.records_of (Spec.upto_sentinel lines))))%Z
    /\ NetworkManager.selected_networks (fst r)
       = NetworkManager.selected_networks nm
    /\ snd r = existsb Spec.has_sentinel lines
    /\ NetworkManager.scan_done (fst r)
       = NetworkManager.scan_done nm || existsb Spec.has_sentinel lines.
Proof.
  induction lines as [|line rest IH]; intros nm r; subst r.
  - cbn -[Z.add]. rewrite app_nil_r, orb_false_r. repeat split. lia.
  - cbn [scan_lines Spec.upto_sentinel existsb].
    rewrite add_network_quoted.
    change (contains (lit "Scan results printed") line)
      with (Spec.has_sentinel line).
    destruct (add_network_fields line nm) as (E1 & E2 & E3 & E4).
    destruct (Spec.has_sentinel line).
    + cbn -[Z.add Z.of_nat Spec.records_of NetworkManager.add_network].
      rewrite orb_true_r. repeat split; assumption.
    + destruct (IH (NetworkManager.add_network line nm)) as (F1 & F2 & F3 & F4 & F5).
      cbn [orb]. rewrite F1, F2, F3, F4, F5, E1, E2, E3, E4.
      change (line :: Spec.upto_sentinel rest)
        with ([line] ++ Spec.upto_sentinel rest).
      rewrite records_of_app, length_app, <- app_assoc.
      repeat split. lia.
Qed.

Lemma upto_sentinel_app (a b : list str) :
  existsb Spec.has_sentinel a = false ->
  Spec.upto_sentinel (a ++ b) = a ++ Spec.upto_sentinel b.
Proof.
  induction a as [|x a IH]; [reflexivity|]. cbn [existsb app Spec.upto_sentinel].
  destruct (Spec.has_sentinel x); [discriminate|]. cbn [orb].
  intros H. now rewrite IH.
Qed.

Lemma upto_sentinel_found (a b : list str) :
  existsb Spec.has_sentinel a = true ->
  Spec.upto_sentinel (a ++ b) = Spec.upto_sentinel a.
Proof.
  induction a as [|x a IH]; [discriminate|]. cbn [existsb app Spec.upto_sentinel].
  destruct (Spec.has_sentinel x); [reflexivity|]. cbn [orb].
  intros H. now rewrite IH.
Qed.

Lemma collected_app (a b : list (Z * str)) :
  Spec.collected (a ++ b) = Spec.collected a ++ Spec.collected b.
Proof. unfold Spec.collected. now rewrite map_app, filter_app. Qed.

(** The loop of [do_scan], entered with [scan_done] clear. *)
Lemma scan_loop_keeps (start_time : Z) :
  forall fuel j j',
    scan_loop fuel start_time j = Some j' ->
    NetworkManager.scan_done (network_mgr j) = false ->
    exists taken,
      SerialManager.inbox (SerialManager.serial_conn (serial_mgr j))
      = taken ++ SerialManager.inbox (SerialManager.serial_conn (serial_mgr j'))
      /\ NetworkManager.networks (network_mgr j')
         = NetworkManager.networks (network_mgr j)
           ++ Spec.records_of (Spec.upto_sentinel (Spec.collected taken))
      /\ NetworkManager.network_count (network_mgr j')
         = (NetworkManager.network_count (network_mgr j)
            + Z.of_nat (length (Spec.records_of
                                  (Spec.upto_sentinel (Spec.collected taken)))))%Z
      /\ NetworkManager.selected_networks (network_mgr j')
         = NetworkManager.selected_networks (network_mgr j)
      /\ NetworkManager.scan_done (network_mgr j')
         = existsb Spec.has_sentinel (Spec.collected taken)
      /\ SerialManager.written (serial_mgr j') = SerialManager.written (serial_mgr j)
      /\ j' = set_network_mgr (network_mgr j') (set_serial_mgr (serial_mgr j') j).
Proof.
  induction fuel as [|fuel IH]; intros j j'; [discriminate|].
  cbn [scan_loop].
  destruct (SerialManager.now (serial_mgr j) - start_time
            <? SerialManager.SCAN_TIMEOUT)%Z.
  - destruct (ReadFacts.read_response_spec
                (SerialManager.enough_fuel 1000 (serial_mgr j)) 1000
                (serial_mgr j) (le_n _))
      as (lines & sm1 & taken1 & -> & Et & El & _ & _ & Hw & _).
    destruct (scan_lines_fields lines (network_mgr j)) as (F1 & F2 & F3 & F4 & F5).
    destruct (scan_lines lines (network_mgr j)) as [nm1 returned].
    cbn [fst snd] in F1, F2, F3, F4, F5. intros H Hd.
    rewrite Hd in F5. cbn [orb] in F5. rewrite <- F4 in F5.
    assert (set_network_mgr nm1 (set_serial_mgr sm1 j)
            = set_network_mgr nm1 (set_serial_mgr sm1 j)) as Ej by reflexivity.
    destruct returned.
    + injection H as <-. exists taken1. cbn. rewrite <- El, <- F4.
      repeat split; assumption.
    + rewrite F5 in H. symmetry in F4.
      apply IH in H as (taken2 & Gt & G1 & G2 & G3 & G4 & G5 & G6);
        [|cbn; exact F5].
      cbn in Gt, G1, G2, G3, G5.
      exists (taken1 ++ taken2).
      assert (Spec.upto_sentinel (Spec.collected (taken1 ++ taken2))
              = Spec.upto_sentinel lines
                ++ Spec.upto_sentinel (Spec.collected taken2)) as Eu.
      { rewrite collected_app, <- El, upto_sentinel_app by exact F4.
        rewrite <- (app_nil_r lines) at 2.
        rewrite upto_sentinel_app by exact F4. cbn. now rewrite app_nil_r. }
      rewrite Eu, records_of_app, length_app.
      split; [rewrite Et, Gt; now rewrite app_assoc|].
      split; [rewrite G1, F1; now rewrite app_assoc|].
      split; [rewrite G2, F2; lia|].
      split; [now rewrite G3, F3|].
      split; [rewrite G4, collected_app, existsb_app, <- El, F4; reflexivity|].
      split; [now rewrite G5, Hw|].
      rewrite G6 at 1. reflexivity.
  - intros [= <-] Hd. exists []. cbn -[Z.add]. rewrite app_nil_r.
    repeat split; try lia; try assumption. now destruct j.
Qed.

End ScanKeeps.

(** X7.  [do_scan] rebuilds the network list from this scan alone: when it
    returns, the networks are the records of the lines it read, up to and
    including the first line with the scan-complete marker, whatever the
    list held before; [network_count] is their number and [scan_done]
    tells whether the marker was read.  One [scan_networks] command is
    written.  The stored selection is kept as it was, and so is every
    attribute outside the serial and network managers. *)
Theorem do_scan_rebuilds_networks (fuel : nat) (j j' : JanOS.t) :
  JanOS.do_scan fuel j = Some j' ->
  exists taken,
    SerialManager.inbox (SerialManager.serial_conn (JanOS.serial_mgr j))
    = taken ++ SerialManager.inbox (SerialManager.serial_conn (JanOS.serial_mgr j'))
    /\ NetworkManager.networks (JanOS.network_mgr j')
       = Spec.records_of (Spec.upto_sentinel (Spec.collected taken))
    /\ NetworkManager.network_count (JanOS.network_mgr j')
       = Z.of_nat (length (NetworkManager.networks (JanOS.network_mgr j')))
    /\ NetworkManager.scan_done (JanOS.network_mgr j')
       = existsb Spec.has_sentinel (Spec.collected taken)
    /\ NetworkManager.selected_networks (JanOS.network_mgr j')
       = NetworkManager.selected_networks (JanOS.network_mgr j)
    /\ SerialManager.written (JanOS.serial_mgr j')
       = SerialManager.written (JanOS.serial_mgr j)
         ++ [lit "scan_networks" ++ [ascii_of_nat 13; newline]]
    /\ j' = JanOS.set_network_mgr (JanOS.network_mgr j')
              (JanOS.set_serial_mgr (JanOS.serial_mgr j') j).
Proof.
  unfold JanOS.do_scan. intros H.
  apply ScanKeeps.scan_loop_keeps in H
    as (taken & Et & E1 & E2 & E3 & E4 & E5 & E6); [|reflexivity].
  exists taken. cbn in Et, E1, E2, E3, E5.
  rewrite E1, E2, E3, E4, E5.
  split; [exact Et|]. split; [reflexivity|]. split; [lia|].
  split; [reflexivity|]. split; [reflexivity|]. split; [reflexivity|].
  rewrite E6 at 1. reflexivity.
Qed.

Lemma do_scan_rebuilds_networks_witness :
  exists j' taken,
    JanOS.do_scan 15 Sample.scan_session = Some j'
    /\ NetworkManager.networks (JanOS.network_mgr j')
       = Spec.records_of (Spec.upto_sentinel (Spec.collected taken))
    /\ NetworkManager.network_count (JanOS.network_mgr j') = 2%Z.
Proof.
  assert (exists j', JanOS.do_scan 15 Sample.scan_session = Some j'
                     /\ NetworkManager.network_count (JanOS.network_mgr j') = 2%Z)
    as (j' & H & Hc) by (eexists; split; vm_compute; reflexivity).
  destruct (do_scan_rebuilds_networks 15 Sample.scan_session j' H)
    as (taken & _ & E & _).
  now exists j', taken.
Defined.

(** ** Starting attacks, and leaving *)

Module AttackFacts.

Import JanOS.

Lemma confirmed_says_yes (raw : str) :
  Attacks.confirmed raw = true <-> Spec.says_yes raw.
Proof.
  unfold Attacks.confirmed, Spec.says_yes. cbn [existsb].
  rewrite orb_false_r, orb_true_iff, !str_eqb_true. reflexivity.
Qed.

(** One menu choice: the command and the flag if the answer is accepted,
    at most a pause if not. *)
Lemma start_of_step (a : Spec.one_shot) (typed : option str) (j : t) :
  let j1 := Spec.start_of a typed j in
  let yes := Spec.accepted j (a, typed) in
  SerialManager.written (serial_mgr j1)
  = SerialManager.written (serial_mgr j)
    ++ (if yes then [Spec.command_line (Spec.command_of a)] else [])
  /\ SerialManager.inbox (SerialManager.serial_conn (serial_mgr j1))
     = SerialManager.inbox (SerialManager.serial_conn (serial_mgr j))
  /\ network_mgr j1 = network_mgr j
  /\ (forall b, Spec.flag_of b j1
                = Spec.flag_of b j || (yes && Spec.one_shot_eqb b a))
  /\ sniffer_running j1 = sniffer_running j
  /\ portal_running j1 = portal_running j
  /\ evil_twin_running j1 = evil_twin_running j
  /\ Spec.threads j1 = Spec.threads j
  /\ Spec.stop_events j1 = Spec.stop_events j
  /\ joined j1 = joined j
  /\ Spec.counters j1 = Spec.counters j.
Proof.
  destruct j as [sm nm fa fb fs fo fh fp fe pk st se pt pe et ee sf ld cc jn].
  destruct sm as [conn w].
  destruct a;
    unfold Spec.accepted, Spec.start_of, Attacks.start_deauth_attack,
      Attacks.start_blackout_attack, Attacks.start_sae_overflow_attack,
      Attacks.start_handshake_attack, Attacks.confirm_and_start;
    cbn [fst snd network_mgr];
    try destruct (truthy (NetworkManager.selected_networks nm));
    (destruct typed as [raw|]; [destruct (Attacks.confirmed raw)|]);
    cbn -[app]; rewrite ?app_nil_r;
    (repeat split; try reflexivity;
     intros b; destruct b; cbn; rewrite ?orb_false_r, ?orb_true_r;
     reflexivity).
Qed.

Lemma accepted_same (j j1 : t) (p : Spec.one_shot * option str) :
  network_mgr j1 = network_mgr j -> Spec.accepted j1 p = Spec.accepted j p.
Proof. intros E. unfold Spec.accepted. now rewrite E. Qed.

(** Any number of menu choices. *)
Lemma starts_run (ps : list (Spec.one_shot * option str)) :
  forall j : t,
    let j1 := Spec.starts ps j in
    let started := map fst (filter (Spec.accepted j) ps) in
    SerialManager.written (serial_mgr j1)
    = SerialManager.written (serial_mgr j)
      ++ map (fun a => Spec.command_line (Spec.command_of a)) started
    /\ SerialManager.inbox (SerialManager.serial_conn (serial_mgr j1))
       = SerialManager.inbox (SerialManager.serial_conn (serial_mgr j))
    /\ network_mgr j1 = network_mgr j
    /\ (forall b, Spec.flag_of b j1
                  = Spec.flag_of b j || existsb (Spec.one_shot_eqb b) started)
    /\ sniffer_running j1 = sniffer_running j
    /\ portal_running j1 = portal_running j
    /\ evil_twin_running j1 = evil_twin_running j
    /\ Spec.threads j1 = Spec.threads j
    /\ Spec.stop_events j1 = Spec.stop_events j
    /\ joined j1 = joined j
    /\ Spec.counters j1 = Spec.counters j.
Proof.
  induction ps as [|[a typed] ps IH]; intros j.
  - cbn. rewrite app_nil_r.
    repeat split; try reflexivity. intros b. now rewrite orb_false_r.
  - cbn zeta.
    destruct (start_of_step a typed j)
      as (W1 & I1 & N1 & F1 & S1 & P1 & E1 & T1 & V1 & J1 & C1).
    destruct (IH (Spec.start_of a typed j))
      as (W2 & I2 & N2 & F2 & S2 & P2 & E2 & T2 & V2 & J2 & C2).
    assert (filter (Spec.accepted (Spec.start_of a typed j)) ps
            = filter (Spec.accepted j) ps) as Ef.
    { apply filter_ext. intros p. now apply accepted_same. }
    rewrite Ef in W2, F2.
    change (Spec.starts ((a, typed) :: ps) j)
      with (Spec.starts ps (Spec.start_of a typed j)).
    cbn [filter].
    repeat split; try congruence.
    + rewrite W2, W1, <- app_assoc.
      destruct (Spec.accepted j (a, typed)); reflexivity.
    + intros b. rewrite F2, F1, <- orb_assoc.
      destruct (Spec.accepted j (a, typed)); cbn [map fst existsb andb orb];
        reflexivity.
Qed.

(** What [stop_all_attacks] leaves alone. *)
Lemma stop_all_attacks_frame (j : t) :
  let j' := stop_all_attacks j in
  network_mgr j' = network_mgr j
  /\ SerialManager.inbox (SerialManager.serial_conn (serial_mgr j'))
     = SerialManager.inbox (SerialManager.serial_conn (serial_mgr j))
  /\ Spec.threads j' = Spec.threads j
  /\ Spec.counters j' = Spec.counters j.
Proof.
  destruct j as [sm nm fa fb fs fo fh fp fe pk st se pt pe et ee sf ld cc jn].
  destruct sm as [conn w].
  destruct fa, fb, fs, fo, fh, fp, fe, st, pt, et;
    exact (conj eq_refl (conj eq_refl (conj eq_refl eq_refl))).
Qed.

Lemma idle_flags (j : t) :
  Spec.running_count j = 0 -> Spec.feature_flags j = repeat false 7.
Proof.
  unfold Spec.running_count, Spec.feature_flags.
  destruct (attack_running j), (blackout_running j), (sniffer_running j),
    (sae_overflow_running j), (handshake_running j), (portal_running j),
    (evil_twin_running j); intros H; first [discriminate H | reflexivity].
Qed.





End AttackFacts.

(** X8.  Menu choices of one-shot attacks, each with the answer to its
    prompt, write one start command per accepted choice, in order, and
    nothing else: a choice is accepted when the answer, stripped and
    lowered, is [y] or [yes], and for the deauth attack when a selection is
    stored as well.  The flag of an attack is set once one of its choices
    is accepted; the stored networks, the pending input, the listeners and
    the counters are not touched.  No choice looks at the flag, so an
    attack that runs is started again; [stop_all_attacks] afterwards, on a
    session that was idle before, writes one stop command per attack that
    was started, however often, and leaves no flag set. *)
Theorem one_shot_starts_and_stop (ps : list (Spec.one_shot * option str))
    (j : JanOS.t) :
  let j1 := Spec.starts ps j in
  let started := map fst (filter (Spec.accepted j) ps) in
  let start_lines :=
    map (fun a => Spec.command_line (Spec.command_of a)) started in
  (forall a raw, Spec.accepted j (a, Some raw) = true -> Spec.says_yes raw)
  /\ (forall a raw, Spec.says_yes raw -> a <> Spec.Deauth ->
        Spec.accepted j (a, Some raw) = true)
  /\ SerialManager.written (JanOS.serial_mgr j1)
     = SerialManager.written (JanOS.serial_mgr j) ++ start_lines
  /\ SerialManager.inbox (SerialManager.serial_conn (JanOS.serial_mgr j1))
     = SerialManager.inbox (SerialManager.serial_conn (JanOS.serial_mgr j))
  /\ JanOS.network_mgr j1 = JanOS.network_mgr j
  /\ (forall a, Spec.flag_of a j1
                = Spec.flag_of a j || existsb (Spec.one_shot_eqb a) started)
  /\ JanOS.sniffer_running j1 = JanOS.sniffer_running j
  /\ JanOS.portal_running j1 = JanOS.portal_running j
  /\ JanOS.evil_twin_running j1 = JanOS.evil_twin_running j
  /\ Spec.threads j1 = Spec.threads j
  /\ Spec.stop_events j1 = Spec.stop_events j
  /\ JanOS.joined j1 = JanOS.joined j
  /\ Spec.counters j1 = Spec.counters j
  /\ (Spec.running_count j = 0 ->
      let j2 := JanOS.stop_all_attacks j1 in
      SerialManager.written (JanOS.serial_mgr j2)
      = SerialManager.written (JanOS.serial_mgr j) ++ start_lines
        ++ repeat Spec.stop_line
             (length (filter (fun a => existsb (Spec.one_shot_eqb a) started)
                        Spec.all_one_shot))
      /\ Spec.running_count j2 = 0
      /\ Spec.stop_events j2 = Spec.stop_events j
      /\ JanOS.joined j2 = JanOS.joined j
      /\ JanOS.network_mgr j2 = JanOS.network_mgr j
      /\ Spec.counters j2 = Spec.counters j).
Proof.
  intros j1 started start_lines.
  destruct (AttackFacts.starts_run ps j)
    as (W1 & I1 & N1 & F1 & S1 & P1 & E1 & T1 & V1 & J1 & C1).
  fold j1 in W1, I1, N1, F1, S1, P1, E1, T1, V1, J1, C1.
  fold started in W1, F1. fold start_lines in W1.
  split.
  { intros a raw H. unfold Spec.accepted in H. cbn [fst snd] in H.
    apply andb_prop in H as [H _]. now apply AttackFacts.confirmed_says_yes. }
  split.
  { intros a raw H Ha. unfold Spec.accepted. cbn [fst snd].
    apply AttackFacts.confirmed_says_yes in H. rewrite H.
    destruct a; [congruence | reflexivity ..]. }
  repeat (split; [assumption|]).
  intros Hidle j2.
  destruct (StopFacts.stop_all_attacks_effects j1)
    as (Hc & Hw & Hs & Hp & He & Hj).
  fold j2 in Hc, Hw, Hs, Hp, He, Hj.
  rewrite StopFacts.snoc_all in Hw. rewrite StopFacts.snoc_all in Hj.
  pose proof (AttackFacts.idle_flags j Hidle) as Hf.
  unfold Spec.feature_flags in Hf. cbn [repeat] in Hf.
  injection Hf as Ha Hb Hsn Ho Hh Hpo Hev.
  assert (Spec.running_count j1
          = length (filter (fun a => existsb (Spec.one_shot_eqb a) started)
                      Spec.all_one_shot)) as Hn.
  { unfold Spec.running_count.
    pose proof (F1 Spec.Deauth) as Fa. pose proof (F1 Spec.Blackout) as Fb.
    pose proof (F1 Spec.SaeOverflow) as Fo. pose proof (F1 Spec.Handshake) as Fh.
    cbn [Spec.flag_of] in Fa, Fb, Fo, Fh.
    rewrite Fa, Fb, Fo, Fh, S1, P1, E1, Ha, Hb, Hsn, Ho, Hh, Hpo, Hev.
    cbn [orb Spec.all_one_shot filter].
    destruct (existsb (Spec.one_shot_eqb Spec.Deauth) started),
      (existsb (Spec.one_shot_eqb Spec.Blackout) started),
      (existsb (Spec.one_shot_eqb Spec.SaeOverflow) started),
      (existsb (Spec.one_shot_eqb Spec.Handshake) started); reflexivity. }
  split; [now rewrite Hw, W1, Hn, <- app_assoc|].
  split; [assumption|].
  destruct (AttackFacts.stop_all_attacks_frame j1) as (N2 & _ & _ & C2).
  fold j2 in N2, C2.
  split.
  { unfold Spec.stop_events. rewrite Hs, Hp, He, S1, P1, E1, Hsn, Hpo, Hev.
    exact V1. }
  split.
  { rewrite Hj, J1. unfold Spec.running_listeners.
    rewrite S1, P1, E1, Hsn, Hpo, Hev. apply app_nil_r. }
  split; congruence.
Qed.

Lemma one_shot_starts_and_stop_witness :
  let j2 := JanOS.stop_all_attacks (Spec.starts Sample.choices Sample.selected_session) in
  SerialManager.written (JanOS.serial_mgr j2)
  = [Spec.command_line (lit "start_deauth");
     Spec.command_line (lit "start_deauth");
     Spec.command_line (lit "start_handshake");
     Spec.stop_line; Spec.stop_line]
  /\ Spec.running_count j2 = 0.
Proof.
  destruct (one_shot_starts_and_stop Sample.choices Sample.selected_session)
    as (_ & _ & _ & _ & _ & _ & _ & _ & _ & _ & _ & _ & _ & H).
  destruct (H eq_refl) as (Hw & Hc & _).
  split; [exact Hw | exact Hc].
Defined.



(** ** Menus: the target of the evil twin, the colours of signal levels *)

Module MenuFacts.

Import JanOS.

Lemma str_eqb_false (a b : str) : str_eqb a b = false <-> a <> b.
Proof.
  destruct (str_eqb a b) eqn:E.
  - apply str_eqb_true in E. split; [discriminate | congruence].
  - split; [|reflexivity]. intros _ H. apply str_eqb_true in H. congruence.
Qed.

(** [List.find] returns the first element that passes. *)
Lemma list_find_first {A : Type} (f : A -> bool) (l : list A) (x : A) :
  List.find f l = Some x <->
  exists before after,
    l = before ++ x :: after /\ f x = true
    /\ Forall (fun y => f y = false) before.
Proof.
  induction l as [|y l IH]; cbn [List.find].
  - split; [discriminate|]. intros (b & a & E & _). now destruct b.
  - destruct (f y) eqn:Fy.
    + split.
      * intros [= <-]. exists [], l. repeat split; [assumption | constructor].
      * intros (b & a & E & Fx & Hb). destruct b as [|z b].
        -- now injection E as -> _.
        -- injection E as -> _. inversion Hb; subst. congruence.
    + rewrite IH. split.
      * intros (b & a & -> & Fx & Hb). exists (y :: b), a.
        repeat split; [assumption | now constructor].
      * intros (b & a & E & Fx & Hb). destruct b as [|z b].
        -- injection E as -> _. congruence.
        -- injection E as -> ->. inversion Hb; subst. now exists b, a.
Qed.

Lemma strip_digits (d : str) : Spec.digits d -> strip d = d.
Proof.
  intros [_ Hd]. apply strip_by_fixed. eapply Forall_impl; [|exact Hd].
  intros a. apply digit_not_space.
Qed.

End MenuFacts.

(** X10.  [select_target_network_menu] returns a record only for an
    answer that, stripped, is an integer literal other than [0] and is,
    character for character, the index text of a stored record; the record
    returned is the first such, and the session is then as before.  The
    literal is parsed but the comparison is textual.  In every other case
    nothing is returned and the session is as before or one second later;
    nothing is ever written.  Conversely an answer made of digits, of at
    most 4300 characters and other than [0], that is the index text of a
    stored record returns the first record that carries it. *)
Theorem target_menu_matches_index_text (typed : option str) (j : JanOS.t) :
  let r := fst (Menus.select_target_network_menu typed j) in
  let j' := snd (Menus.select_target_network_menu typed j) in
  (j' = j \/ j' = JanOS.sleep 1000 j)
  /\ (forall network, r = Some network ->
        j' = j
        /\ NetworkManager.network_count (JanOS.network_mgr j) <> 0%Z
        /\ NetworkManager.index network <> lit "0"
        /\ (exists v, py_int (NetworkManager.index network) = Ok v)
        /\ exists raw before after,
             typed = Some raw
             /\ NetworkManager.index network = strip raw
             /\ NetworkManager.networks (JanOS.network_mgr j)
                = before ++ network :: after
             /\ Forall (fun n => NetworkManager.index n <> strip raw) before)
  /\ (forall raw network before after,
        typed = Some raw ->
        NetworkManager.network_count (JanOS.network_mgr j) <> 0%Z ->
        Spec.digits (strip raw) -> length (strip raw) <= 4300 ->
        strip raw <> lit "0" ->
        NetworkManager.networks (JanOS.network_mgr j)
        = before ++ network :: after ->
        NetworkManager.index network = strip raw ->
        Forall (fun n => NetworkManager.index n <> strip raw) before ->
        r = Some network /\ j' = j).
Proof.
  cbn zeta. unfold Menus.select_target_network_menu.
  destruct (NetworkManager.network_count (JanOS.network_mgr j) =? 0)%Z eqn:Ec.
  { cbn [fst snd]. split; [now left|]. split; [discriminate|].
    intros raw network before after _ Hc. apply Z.eqb_eq in Ec. congruence. }
  destruct typed as [raw|].
  2:{ cbn [fst snd]. split; [now left|]. split; discriminate. }
  destruct (truthy (strip raw)) eqn:Et.
  2:{ cbn [negb orb fst snd]. split; [now right|]. split; [discriminate|].
      intros raw0 network before after [= ->] _ [Hne _].
      destruct (strip raw0); [congruence | discriminate]. }
  destruct (str_eqb (strip raw) (lit "0")) eqn:E0.
  { cbn [negb orb fst snd]. split; [now right|]. split; [discriminate|].
    intros raw0 network before after [= ->] _ _ _ H0.
    apply str_eqb_true in E0. congruence. }
  cbn [negb orb].
  destruct (py_int (strip raw)) as [v|e] eqn:Ei.
  2:{ cbn [fst snd]. split; [now right|]. split; [discriminate|].
      intros raw0 network before after [= ->] _ Hd.
      rewrite <- (MenuFacts.strip_digits _ Hd) in Ei at 1.
      assert (strip (strip raw0) = strip raw0) as Es
        by now apply MenuFacts.strip_digits.
      rewrite Es in Ei. rewrite (py_int_digits _ Hd) in Ei. discriminate. }
  destruct (List.find
              (fun network => str_eqb (NetworkManager.index network) (strip raw))
              (NetworkManager.networks (JanOS.network_mgr j)))
    as [found|] eqn:Ef; cbn [fst snd].
  - split; [now left|].
    pose proof Ef as Ef'.
    apply MenuFacts.list_find_first in Ef' as (b & a & El & Hx & Hb).
    apply str_eqb_true in Hx.
    split.
    + intros network [= <-]. split; [reflexivity|].
      split; [intros H; rewrite H in Ec; discriminate|].
      split; [rewrite Hx; now apply MenuFacts.str_eqb_false|].
      split; [exists v; now rewrite Hx|].
      exists raw, b, a. repeat split; try assumption.
      eapply Forall_impl; [|exact Hb]. intros n Hn.
      now apply MenuFacts.str_eqb_false.
    + intros raw0 network before after [= ->] _ _ _ _ El' Hi Hbefore.
      split; [|reflexivity].
      rewrite <- Ef. apply MenuFacts.list_find_first.
      exists before, after. repeat split; [assumption | |].
      * now apply str_eqb_true.
      * eapply Forall_impl; [|exact Hbefore]. intros n Hn.
        now apply MenuFacts.str_eqb_false.
  - split; [now right|]. split; [discriminate|].
    intros raw0 network before after [= ->] _ _ _ _ El' Hi Hbefore.
    exfalso.
    assert (List.find
              (fun network => str_eqb (NetworkManager.index network) (strip raw0))
              (NetworkManager.networks (JanOS.network_mgr j)) = Some network) as C.
    { apply MenuFacts.list_find_first. exists before, after.
      repeat split; [assumption | now apply str_eqb_true |].
      eapply Forall_impl; [|exact Hbefore]. intros n Hn.
      now apply MenuFacts.str_eqb_false. }
    congruence.
Qed.

Lemma target_menu_matches_index_text_witness :
  exists network,
    fst (Menus.select_target_network_menu (Some (lit " 2 ")) Sample.scanned_session)
    = Some network
    /\ NetworkManager.bssid network = lit "AA:BB:CC:DD:EE:02".
Proof.
  destruct (target_menu_matches_index_text (Some (lit " 2 ")) Sample.scanned_session)
    as (_ & _ & H).
  eexists. split.
  - refine (proj1 (H (lit " 2 ") _ [_] [] eq_refl _ _ _ _ eq_refl eq_refl _)).
    + vm_compute. discriminate.
    + split; [discriminate | repeat constructor].
    + vm_compute. lia.
    + discriminate.
    + repeat constructor. vm_compute. discriminate.
  - reflexivity.
Defined.

Module ColourFacts.

Import Re ReFacts ReShapes JanOS.

Lemma not_d_sign_digit (c : ascii) :
  ascii_eqb c "-"%char = true \/ is_digit c = true ->
  ascii_eqb "d"%char c = false /\ is_space c = false.
Proof.
  destruct c as [[] [] [] [] [] [] [] []]; vm_compute; intuition congruence.
Qed.

Lemma signed_text_chars (neg : bool) (d : str) :
  Spec.digits d ->
  Forall (fun c => ascii_eqb "d"%char c = false /\ is_space c = false)
    (Spec.signed_text neg d).
Proof.
  intros [_ Hd]. unfold Spec.signed_text. apply Forall_app. split.
  - destruct neg; repeat constructor.
  - eapply Forall_impl; [|exact Hd]. intros c Hc.
    apply not_d_sign_digit. now right.
Qed.

Lemma find_unit (g : str) :
  Forall (fun c => ascii_eqb "d"%char c = false) g ->
  find (lit "dBm") (g ++ lit "dBm") = Some (length g).
Proof.
  change (lit "dBm") with ("d"%char :: lit "Bm").
  induction 1 as [|c g Hc Hg IH]; [reflexivity|].
  cbn [app find startswith]. rewrite Hc. cbn [andb].
  cbn [app] in IH. rewrite IH. reflexivity.
Qed.

(** Removing the unit from a number that carries it. *)
Lemma replace_unit (g : str) :
  Forall (fun c => ascii_eqb "d"%char c = false) g ->
  Menus.replace (lit "dBm") [] (g ++ lit "dBm") = g.
Proof.
  intros Hg. unfold Menus.replace, split.
  rewrite length_app. change (length (lit "dBm")) with 3.
  replace (length g + 3) with (S (length g + 2)) by lia.
  cbn [split_fuel]. rewrite (find_unit g Hg).
  rewrite firstn_prefix.
  replace (g ++ lit "dBm") with (g ++ lit "dBm" ++ []) by now rewrite app_nil_r.
  rewrite skipn_prefix.
  assert (split_fuel (length g + 2) (lit "dBm") [] = [[]]) as ->
    by now destruct (length g + 2).
  cbn [join app]. apply app_nil_r.
Qed.

(** Without the unit there is nothing to remove. *)
Lemma replace_absent (sep s : str) :
  contains sep s = false -> Menus.replace sep [] s = s.
Proof.
  unfold contains, Menus.replace, split. intros H.
  destruct (find sep s) as [i|] eqn:F; [discriminate|].
  destruct (length s); cbn [split_fuel]; [reflexivity|].
  now rewrite F.
Qed.

Lemma py_int_signed (neg : bool) (d : str) :
  Spec.digits d ->
  py_int (Spec.signed_text neg d) = Ok (Spec.signed_val neg d).
Proof.
  intros Hd. destruct neg; [|now apply py_int_digits].
  pose proof Hd as [Hne HF].
  unfold py_int.
  assert (strip (Spec.signed_text true d) = Spec.signed_text true d) as ->.
  { apply strip_by_fixed.
    eapply Forall_impl; [|exact (signed_text_chars true d Hd)].
    now intros c [_ Hc]. }
  cbn [Spec.signed_text lit list_ascii_of_string app].
  change (ascii_eqb "-" "-") with true. cbn iota.
  rewrite (int_digits_digits d HF); [reflexivity | now left].
Qed.

Lemma strip_signed (neg : bool) (d : str) :
  Spec.digits d -> strip (Spec.signed_text neg d) = Spec.signed_text neg d.
Proof.
  intros Hd. apply strip_by_fixed.
  eapply Forall_impl; [|exact (signed_text_chars neg d Hd)].
  now intros c [_ Hc].
Qed.

Lemma no_unit_in_signed (neg : bool) (d : str) :
  Spec.digits d -> contains (lit "dBm") (Spec.signed_text neg d) = false.
Proof.
  intros Hd. destruct (contains (lit "dBm") (Spec.signed_text neg d)) eqn:C;
    [|reflexivity].
  apply contains_app in C as (a & b & E).
  pose proof (signed_text_chars neg d Hd) as H. rewrite E in H.
  apply Forall_app in H as [_ H]. inversion H as [|c t [Hc _] _]. discriminate.
Qed.

(** The two orders of the thresholds. *)
Lemma thresholds (v : Z) :
  (if (-50 <=? v)%Z then Menus.GREEN
   else if (-70 <=? v)%Z then Menus.YELLOW else Menus.RED)
  = Spec.level_color v.
Proof.
  unfold Spec.level_color.
  destruct (Z.leb_spec (-50) v), (Z.leb_spec (-70) v),
    (Z.ltb_spec v (-70)), (Z.ltb_spec v (-50)); try reflexivity; lia.
Qed.

Lemma colours_agree (s : str) :
  contains (lit "dBm") s = true ->
  Menus.probe_rssi_color s = Menus.get_rssi_color s.
Proof.
  intros C. unfold Menus.probe_rssi_color, Menus.get_rssi_color. rewrite C.
  destruct (str_eqb s (lit "N/A")) eqn:E.
  { apply str_eqb_true in E. subst s. discriminate C. }
  destruct s as [|c s]; [discriminate C|].
  cbn [negb andb truthy].
  destruct (py_int (strip (Menus.replace (lit "dBm") [] (c :: s)))) as [v|];
    [apply thresholds | reflexivity].
Qed.

Lemma get_rssi_color_signed (neg : bool) (d unit : str) :
  Spec.digits d -> unit = [] \/ unit = lit "dBm" ->
  Menus.get_rssi_color (Spec.signed_text neg d ++ unit)
  = Spec.level_color (Spec.signed_val neg d).
Proof.
  intros Hd Hu. unfold Menus.get_rssi_color.
  assert (truthy (Spec.signed_text neg d ++ unit) = true) as ->.
  { destruct Hd as [Hne _]. unfold Spec.signed_text.
    destruct neg; [reflexivity|]. destruct d; [congruence | reflexivity]. }
  cbn [negb].
  assert (Menus.replace (lit "dBm") [] (Spec.signed_text neg d ++ unit)
          = Spec.signed_text neg d) as ->.
  { destruct Hu as [-> | ->].
    - rewrite app_nil_r. apply replace_absent. now apply no_unit_in_signed.
    - apply replace_unit.
      eapply Forall_impl; [|exact (signed_text_chars neg d Hd)].
      now intros c [Hc _]. }
  rewrite (strip_signed neg d Hd), (py_int_signed neg d Hd). reflexivity.
Qed.

Lemma minus_only (icase : bool) (c : ascii) :
  cset_mem icase (CChar "-") c = true -> c = "-"%char.
Proof.
  destruct icase, c as [[] [] [] [] [] [] [] []]; vm_compute;
    intros H; first [reflexivity | discriminate H].
Qed.

Lemma M_Opt_Chr_cases (icase : bool) (n0 : nat) (cs : cset) s g s' g' :
  M icase n0 (Opt (Chr cs)) s g s' g' ->
  g' = g /\ (s = s' \/ exists c, s = c :: s' /\ cset_mem icase cs c = true).
Proof.
  intros H. inversion H; subst.
  - match goal with H1 : M _ _ (Chr _) _ _ _ _ |- _ => inversion H1; subst end.
    split; [reflexivity|]. right. eauto.
  - split; [reflexivity | now left].
Qed.

(** What the first group of the RSSI pattern holds. *)
Lemma rssi_group_signed (line : str) (mo : match_obj) :
  search true rssi_pattern line = Some mo ->
  exists neg d,
    group_str 1 mo = Ok (Spec.signed_text neg d) /\ Spec.digits d
    /\ exists a b, line = a ++ Spec.signed_text neg d ++ b.
Proof.
  intros H. apply search_sound in H as (pre & w & post & E & HM & _).
  unfold rssi_pattern in HM.
  apply M_Seq_inv in HM as (s1 & g1 & H1 & HM).
  apply M_Group_inv in H1 as (v & g4 & E1 & -> & H1).
  apply M_Seq_inv in H1 as (s0 & g0 & Ho & Hd).
  apply M_Opt_Chr_cases in Ho as (-> & Ho).
  apply M_Plus_Chr_inv in Hd as (d & -> & -> & Hne & Hd).
  apply M_Seq_inv in HM as (s2 & g2 & H2 & HM).
  apply M_Star_Chr_inv in H2 as (ws & -> & -> & Hws).
  apply M_Seq_inv in HM as (s3 & g3 & H3 & HM).
  apply M_Lit_inv in H3 as (kw & -> & -> & Hkw).
  apply M_Opt_Chr_inv in HM as (o & -> & Eg & _).
  assert (exists neg, v = Spec.signed_text neg d) as [neg ->].
  { destruct Ho as [Ho | (c & Ho & Hc)].
    - exists false. apply app_inv_tail in Ho. exact Ho.
    - exists true. apply minus_only in Hc. subst c.
      change (v ++ ws ++ kw ++ o ++ post
              = (("-"%char :: d) ++ ws ++ kw ++ o ++ post)) in Ho.
      apply app_inv_tail in Ho. exact Ho. }
  exists neg, d. split.
  { unfold group_str, group_of. rewrite Eg. reflexivity. }
  split; [split; assumption|].
  exists pre, (ws ++ kw ++ o ++ post). now rewrite E, E1.
Qed.

(** A pattern of fixed width consumes that many characters. *)
Lemma M_width (icase : bool) (n0 : nat) (r : regex) s g s' g' :
  M icase n0 r s g s' g' ->
  forall n, Spec.width r = Some n -> length s = n + length s'.
Proof.
  induction 1; intros n Hn; cbn [Spec.width] in Hn;
    try discriminate; try (injection Hn as <-; reflexivity).
  - destruct (Spec.width a) as [na|]; [|discriminate].
    destruct (Spec.width b) as [nb|]; [|discriminate].
    injection Hn as <-. rewrite (IHM1 na eq_refl), (IHM2 nb eq_refl). lia.
  - now apply IHM.
Qed.

Lemma mac_text (line : str) (mo : match_obj) :
  search false mac_pattern line = Some mo ->
  length (m_text mo) = 17 /\ exists a b, line = a ++ m_text mo ++ b.
Proof.
  intros H. apply search_sound in H as (pre & w & post & E & HM & ->).
  split; [|now exists pre, post].
  apply M_width with (n := 17) in HM; [|reflexivity].
  rewrite length_app in HM. lia.
Qed.

End ColourFacts.

(** X11.  The two colourings of a signal level, [get_rssi_color] of the
    network tables and the one of the probe table, agree on every text
    that holds [dBm], whatever else it holds.  On a text without [dBm] the
    probe table gives the placeholder colour, so a bare number is coloured
    in the network tables only.  A signed run of at most 4300 digits, with
    the unit or without, is coloured by its value: below -70 red, below -50
    yellow, green otherwise. *)
Theorem rssi_colours_agree (s : str) (neg : bool) (d : str) :
  (contains (lit "dBm") s = true ->
   Menus.probe_rssi_color s = Menus.get_rssi_color s)
  /\ (contains (lit "dBm") s = false -> Menus.probe_rssi_color s = Menus.GRAY)
  /\ (Spec.digits d -> length d <= 4300 ->
      Menus.get_rssi_color (Spec.signed_text neg d)
      = Spec.level_color (Spec.signed_val neg d)
      /\ Menus.get_rssi_color (Spec.signed_text neg d ++ lit "dBm")
         = Spec.level_color (Spec.signed_val neg d)
      /\ Menus.probe_rssi_color (Spec.signed_text neg d ++ lit "dBm")
         = Spec.level_color (Spec.signed_val neg d)
      /\ Menus.probe_rssi_color (Spec.signed_text neg d) = Menus.GRAY).
Proof.
  split; [apply ColourFacts.colours_agree|].
  assert (forall t, contains (lit "dBm") t = false ->
                    Menus.probe_rssi_color t = Menus.GRAY) as Hgray.
  { intros t C. unfold Menus.probe_rssi_color. rewrite C.
    now rewrite andb_false_r. }
  split; [apply Hgray|].
  intros Hd _.
  split.
  { rewrite <- (app_nil_r (Spec.signed_text neg d)) at 1.
    apply ColourFacts.get_rssi_color_signed; auto. }
  split; [apply ColourFacts.get_rssi_color_signed; auto|].
  split.
  - rewrite ColourFacts.colours_agree.
    + apply ColourFacts.get_rssi_color_signed; auto.
    + apply contains_app. exists (Spec.signed_text neg d), [].
      now rewrite app_nil_r.
  - apply Hgray. now apply ColourFacts.no_unit_in_signed.
Qed.

Lemma rssi_colours_agree_witness :
  Menus.get_rssi_color (lit "-45") = Menus.GREEN
  /\ Menus.probe_rssi_color (lit "-45") = Menus.GRAY
  /\ Menus.probe_rssi_color (lit "-45dBm") = Menus.GREEN.
Proof.
  destruct (rssi_colours_agree [] true (lit "45")) as (_ & _ & H).
  destruct H as (H1 & _ & H3 & H4).
  - split; [discriminate | repeat constructor].
  - vm_compute. lia.
  - split; [exact H1 | split; [exact H4 | exact H3]].
Defined.

(** X12.  The columns of a probe row, for a line of at most 4300
    characters.  The ssid has at most 30 characters.  The MAC is the
    placeholder or 17 characters that stand in the line.  The RSSI is the
    placeholder, shown in the placeholder colour, or a signed run of
    digits that stands in the line followed by [dBm], and it is then shown
    in the colour of its value, never in the placeholder colour. *)
Theorem probe_row_columns (line : str) (r : JanOS.ProbeRecord) :
  length line <= 4300 ->
  JanOS.parse_probe_line line = Ok r ->
  length (JanOS.probe_ssid r) <= 30
  /\ (JanOS.client_mac r = lit "N/A"
      \/ (length (JanOS.client_mac r) = 17
          /\ exists a b, line = a ++ JanOS.client_mac r ++ b))
  /\ ((JanOS.probe_rssi r = lit "N/A"
       /\ Menus.probe_rssi_color (JanOS.probe_rssi r) = Menus.GRAY)
      \/ exists neg d,
           Spec.digits d
           /\ JanOS.probe_rssi r = Spec.signed_text neg d ++ lit "dBm"
           /\ (exists a b, line = a ++ Spec.signed_text neg d ++ b)
           /\ Menus.probe_rssi_color (JanOS.probe_rssi r)
              = Spec.level_color (Spec.signed_val neg d)
           /\ Menus.probe_rssi_color (JanOS.probe_rssi r) <> Menus.GRAY).
Proof.
  intros _ H. unfold JanOS.parse_probe_line in H.
  apply ProbeFacts.bind_ok in H as (v & _ & H).
  apply ProbeFacts.bind_ok in H as (rs & Hrssi & H).
  apply ProbeFacts.bind_ok in H as (ts & _ & H).
  set (shown := if 30 <? length v then firstn 27 v ++ lit "..." else v) in H.
  assert (length shown <= 30) as Hshown.
  { subst shown. destruct (30 <? length v) eqn:L.
    - rewrite length_app, length_firstn. cbn [length lit list_ascii_of_string].
      lia.
    - apply Nat.ltb_ge in L. exact L. }
  clearbody shown.
  injection H as <-. cbn [JanOS.probe_ssid JanOS.client_mac JanOS.probe_rssi].
  split; [exact Hshown|].
  split.
  { destruct (Re.search false JanOS.mac_pattern line) as [mo|] eqn:S1;
      [right | now left].
    now apply ColourFacts.mac_text. }
  destruct (Re.search true JanOS.rssi_pattern line) as [mo|] eqn:S2.
  - right.
    apply ColourFacts.rssi_group_signed in S2 as (neg & d & Eg & Hd & Hin).
    rewrite Eg in Hrssi. cbn [bind] in Hrssi.
    assert (rs = Spec.signed_text neg d ++ lit "dBm") as -> by congruence.
    exists neg, d.
    assert (Menus.probe_rssi_color (Spec.signed_text neg d ++ lit "dBm")
            = Spec.level_color (Spec.signed_val neg d)) as Ec.
    { rewrite ColourFacts.colours_agree.
      - apply ColourFacts.get_rssi_color_signed; auto.
      - apply contains_app. exists (Spec.signed_text neg d), [].
        now rewrite app_nil_r. }
    split; [assumption|]. split; [reflexivity|]. split; [assumption|].
    split; [assumption|].
    rewrite Ec. unfold Spec.level_color.
    destruct (Spec.signed_val neg d <? -70)%Z; [discriminate|].
    destruct (Spec.signed_val neg d <? -50)%Z; discriminate.
  - left. assert (rs = lit "N/A") as -> by congruence. split; reflexivity.
Qed.

Lemma probe_row_columns_witness :
  exists r,
    JanOS.parse_probe_line (lit "AA:BB:CC:DD:EE:FF -> MyNetwork (-55dBm)") = Ok r
    /\ length (JanOS.probe_ssid r) <= 30.
Proof.
  eexists. split; [vm_compute; reflexivity|].
  refine (proj1 (probe_row_columns
                   (lit "AA:BB:CC:DD:EE:FF -> MyNetwork (-55dBm)") _ _ _));
    [vm_compute; lia | vm_compute; reflexivity].
Defined.

(** ** The files on the card *)

Module ListingFacts.

Import Re ReFacts ReShapes Setup.

Lemma not_space_mem (c : ascii) :
  cset_mem false not_space c = negb (is_space c).
Proof. destruct c as [[] [] [] [] [] [] [] []]; reflexivity. Qed.

Lemma lstrip_by_spaces (p : ascii -> bool) (a m : str) :
  Forall (fun c => p c = true) a -> lstrip_by p (a ++ m) = lstrip_by p m.
Proof.
  induction 1 as [|c a Hc Ha IH]; [reflexivity|].
  cbn [app lstrip_by]. now rewrite Hc.
Qed.

(** Stripping a text whose ends are not stripped, with stripped
    characters around it. *)
Lemma strip_by_core (p : ascii -> bool) (a b mid : str) (x y : ascii) :
  Forall (fun c => p c = true) a -> Forall (fun c => p c = true) b ->
  p x = false -> p y = false ->
  strip_by p (a ++ (x :: mid ++ [y]) ++ b) = x :: mid ++ [y].
Proof.
  intros Ha Hb Hx Hy. unfold strip_by, rstrip_by.
  rewrite (lstrip_by_spaces p a _ Ha).
  cbn [app lstrip_by]. rewrite Hx.
  change (x :: (mid ++ [y]) ++ b) with ((x :: mid ++ [y]) ++ b).
  rewrite rev_app_distr.
  rewrite (lstrip_by_spaces p (rev b)); [|now apply Forall_rev].
  change (x :: mid ++ [y]) with ((x :: mid) ++ [y]).
  rewrite rev_app_distr. cbn [rev app lstrip_by]. rewrite Hy.
  change (y :: rev mid ++ [x]) with ([y] ++ rev (x :: mid)).
  rewrite rev_app_distr, rev_involutive. reflexivity.
Qed.

Lemma split_ws_from_run (w : str) :
  Forall (fun c => is_space c = false) w ->
  forall cur rest,
    split_ws_from cur (w ++ rest) = split_ws_from (cur ++ w) rest.
Proof.
  induction 1 as [|c w Hc Hw IH]; intros cur rest.
  - now rewrite app_nil_r.
  - cbn [app split_ws_from]. rewrite Hc, IH, <- app_assoc. reflexivity.
Qed.

Lemma split_ws_from_gap (ws : str) :
  Forall (fun c => is_space c = true) ws ->
  forall rest, split_ws_from [] (ws ++ rest) = split_ws_from [] rest.
Proof.
  induction 1 as [|c ws Hc Hw IH]; intros rest; [reflexivity|].
  cbn [app split_ws_from]. rewrite Hc. cbn [truthy]. apply IH.
Qed.

Lemma split_ws_two (a ws b : str) :
  a <> [] -> Forall (fun c => is_space c = false) a ->
  ws <> [] -> Forall (fun c => is_space c = true) ws ->
  b <> [] -> Forall (fun c => is_space c = false) b ->
  split_ws (a ++ ws ++ b) = [a; b].
Proof.
  intros Ha Fa Hws Fws Hb Fb. unfold split_ws.
  rewrite (split_ws_from_run a Fa). cbn [app].
  destruct ws as [|c ws]; [congruence|]. inversion Fws as [|? ? Hc Fws']; subst.
  cbn [app split_ws_from]. rewrite Hc.
  destruct a as [|x a]; [congruence|]. cbn [truthy].
  rewrite (split_ws_from_gap ws Fws').
  rewrite <- (app_nil_r b) at 1. rewrite (split_ws_from_run b Fb).
  cbn [app split_ws_from]. destruct b; [congruence | reflexivity].
Qed.

Lemma html_suffix_not_space :
  Forall (fun c => is_space c = false) (lit ".html").
Proof. repeat constructor. Qed.

(** What a line of the listing gives. *)
Lemma listing_line_entries (line : str) (f : HtmlFile) :
  Spec.listing_line line f ->
  strip line = display f /\ split_ws (strip line) = [number f; name f].
Proof.
  intros ((ws & stem & (Hne & Hd) & Hws & Fws & Hstem & Fstem & En & Ed)
          & ws0 & ws2 & F0 & F2 & ->).
  assert (Forall (fun c => is_space c = false) (number f)) as Fd.
  { eapply Forall_impl; [|exact Hd]. intros c. apply digit_not_space. }
  assert (Forall (fun c => is_space c = false) (name f)) as Fn.
  { rewrite En. apply Forall_app. split; [assumption|].
    apply html_suffix_not_space. }
  assert (strip (ws0 ++ display f ++ ws2) = display f) as Es.
  { rewrite Ed, En.
    destruct (number f) as [|x d]; [congruence|].
    inversion Fd as [|? ? Hx _]; subst.
    replace ((x :: d) ++ ws ++ stem ++ lit ".html")
      with (x :: (d ++ ws ++ stem ++ lit ".htm") ++ ["l"%char]).
    2:{ cbn [app]. f_equal. rewrite <- !app_assoc. reflexivity. }
    apply strip_by_core; auto. }
  split; [exact Es|].
  rewrite Es, Ed. apply split_ws_two; auto.
  rewrite En. destruct stem; [congruence | discriminate].
Qed.

Lemma listing_line_search (line : str) (f : HtmlFile) :
  Spec.listing_line line f -> search false html_pattern line <> None.
Proof.
  intros ((ws & stem & (Hne & Hd) & Hws & Fws & Hstem & Fstem & En & Ed)
          & ws0 & ws2 & F0 & F2 & ->).
  rewrite Ed, En.
  apply (search_complete false html_pattern []
           (ws0 ++ (number f ++ ws ++ stem ++ lit ".html") ++ ws2)
           [] [] []).
  unfold html_pattern. cbn [app].
  eapply M_Seq; [now apply M_Bol|].
  eapply M_Seq; [now apply M_Star_Chr_intro|].
  rewrite <- !app_assoc.
  eapply M_Seq; [now apply M_Plus_Chr_intro|].
  eapply M_Seq; [now apply M_Plus_Chr_intro|].
  eapply M_Seq.
  { apply M_Plus_Chr_intro; [assumption|].
    eapply Forall_impl; [|exact Fstem]. intros c Hc. cbn beta in Hc.
    now rewrite not_space_mem, Hc. }
  eapply M_Seq; [apply M_Lit_intro; now apply lit_match_exact|].
  match goal with |- M _ ?n _ _ _ _ _ =>
    pose proof (M_Star_Chr_intro false n CSpace ws2 F2 [] []) as HS
  end.
  rewrite app_nil_r in HS.
  eapply M_Seq; [exact HS|].
  apply M_Eol. now left.
Qed.

(** What the pattern admits is a line of the listing. *)
Lemma search_listing_line (line : str) (mo : match_obj) :
  search false html_pattern line = Some mo ->
  exists d ws stem,
    Spec.listing_line line
      {| number := d; name := stem ++ lit ".html";
         display := d ++ ws ++ stem ++ lit ".html" |}.
Proof.
  intros H. apply search_sound in H as (pre & w & post & E & HM & _).
  unfold html_pattern in HM.
  apply M_Seq_inv in HM as (s1 & g1 & H1 & HM).
  apply M_Bol_inv in H1 as (-> & -> & Hlen).
  apply M_Seq_inv in HM as (s2 & g2 & H2 & HM).
  apply M_Star_Chr_inv in H2 as (ws0 & E0 & -> & F0).
  apply M_Seq_inv in HM as (s3 & g3 & H3 & HM).
  apply M_Plus_Chr_inv in H3 as (d & -> & -> & Hd & Fd).
  apply M_Seq_inv in HM as (s4 & g4 & H4 & HM).
  apply M_Plus_Chr_inv in H4 as (ws & -> & -> & Hws & Fws).
  apply M_Seq_inv in HM as (s5 & g5 & H5 & HM).
  apply M_Plus_Chr_inv in H5 as (stem & -> & -> & Hstem & Fstem).
  apply M_Seq_inv in HM as (s6 & g6 & H6 & HM).
  apply M_Lit_inv in H6 as (kw & -> & -> & Hkw).
  apply lit_match_exact in Hkw. subst kw.
  apply M_Seq_inv in HM as (s7 & g7 & H7 & HM).
  apply M_Star_Chr_inv in H7 as (ws2 & -> & -> & F2).
  apply M_Eol_inv in HM as (E7 & _ & Hend).
  assert (pre = []) as ->.
  { rewrite E, !length_app in Hlen. destruct pre; [reflexivity|].
    cbn [length] in Hlen. lia. }
  cbn [app] in E. rewrite E0 in E.
  exists d, ws, stem. split.
  - exists ws, stem. cbn [number name display].
    repeat split; try assumption.
    eapply Forall_impl; [|exact Fstem]. intros c Hc. cbn beta in Hc.
    rewrite not_space_mem in Hc. now destruct (is_space c).
  - exists ws0, (ws2 ++ s7). cbn [display].
    split; [exact F0|]. split.
    + apply Forall_app. split; [exact F2|].
      destruct Hend as [-> | ->]; repeat constructor.
    + rewrite E, <- !app_assoc. reflexivity.
Qed.

(** Each line gives no entry or one, and one exactly when it is a line of
    the listing. *)
Lemma html_entries_spec (line : str) (f : HtmlFile) :
  In f (html_entries line) <-> Spec.listing_line line f.
Proof.
  unfold html_entries. split.
  - destruct (search false html_pattern line) as [mo|] eqn:S1; [|intros []].
    apply search_listing_line in S1 as (d & ws & stem & HL).
    destruct (listing_line_entries _ _ HL) as (Es & Ep).
    rewrite Ep, Es. cbn [number name display In].
    intros [<- | []]. exact HL.
  - intros HL. pose proof (listing_line_search _ _ HL) as S1.
    destruct (search false html_pattern line) as [mo|]; [|congruence].
    destruct (listing_line_entries _ _ HL) as (Es & Ep).
    rewrite Ep, Es. left. now destruct f.
Qed.

Lemma html_entries_count (line : str) :
  length (html_entries line)
  = match search false html_pattern line with Some _ => 1 | None => 0 end.
Proof.
  unfold html_entries.
  destruct (search false html_pattern line) as [mo|] eqn:S1; [|reflexivity].
  apply search_listing_line in S1 as (d & ws & stem & HL).
  destruct (listing_line_entries _ _ HL) as (_ & ->). reflexivity.
Qed.

(** [read_response] on the session. *)
Lemma read_response_session (timeout : Z) (s : t) :
  exists lines sm' taken,
    read_response timeout s = Some (lines, Spec.with_port sm' s)
    /\ SerialManager.inbox (SerialManager.serial_conn (Spec.port s))
       = taken ++ SerialManager.inbox (SerialManager.serial_conn sm')
    /\ lines = Spec.collected taken
    /\ SerialManager.written sm' = SerialManager.written (Spec.port s).
Proof.
  unfold read_response.
  destruct (ReadFacts.read_response_spec
              (SerialManager.enough_fuel timeout (JanOS.serial_mgr (core s)))
              timeout (JanOS.serial_mgr (core s)) (le_n _))
    as (lines & sm' & taken & -> & Ei & El & _ & _ & Ew & _).
  exists lines, sm', taken. repeat split; assumption.
Qed.

(** Setters of the port commute with the rest. *)
Lemma with_port_twice (sm sm' : SerialManager.t) (s : t) :
  Spec.with_port sm (Spec.with_port sm' s) = Spec.with_port sm s.
Proof. reflexivity. Qed.

Lemma send_with_port (command : str) (s : t) :
  send command s
  = Spec.with_port (SerialManager.send_command command (Spec.port s)) s.
Proof. reflexivity. Qed.

Lemma sleep_with_port (d : Z) (s : t) :
  sleep d s = Spec.with_port (SerialManager.sleep d (Spec.port s)) s.
Proof. reflexivity. Qed.

Lemma port_with_port (sm : SerialManager.t) (s : t) :
  Spec.port (Spec.with_port sm s) = sm.
Proof. reflexivity. Qed.

Lemma flat_map_count (lines : list str) :
  length (flat_map html_entries lines)
  = length (filter (fun line => match search false html_pattern line with
                                | Some _ => true
                                | None => false
                                end) lines).
Proof.
  induction lines as [|line lines IH]; [reflexivity|].
  cbn [flat_map filter]. rewrite length_app, html_entries_count, IH.
  destruct (search false html_pattern line); reflexivity.
Qed.

(** [get_html_files_from_sd] in one equation. *)
Lemma get_html_files_from_sd_run (s : t) :
  exists taken sm',
    let files := flat_map html_entries (Spec.collected taken) in
    get_html_files_from_sd s
    = Some (0 <? length files,
            set_portal_html_files files (Spec.with_port sm' s))
    /\ SerialManager.inbox (SerialManager.serial_conn (Spec.port s))
       = taken ++ SerialManager.inbox (SerialManager.serial_conn sm')
    /\ SerialManager.written sm'
       = SerialManager.written (Spec.port s)
         ++ [Spec.command_line (lit "list_sd")].
Proof.
  unfold get_html_files_from_sd.
  destruct (read_response_session 3000 (sleep 1000 (send (lit "list_sd") s)))
    as (lines & sm' & taken & -> & Ei & -> & Ew).
  exists taken, sm'. cbn zeta. split; [reflexivity|]. split; assumption.
Qed.

End ListingFacts.

(** X13.  [get_html_files_from_sd] writes the one command [list_sd] and,
    from the lines it then reads, stores one entry per line of the listing,
    in order: a line of the listing is a number made of digits, white space,
    and a name without white space that ends in [.html] after at least one
    character, with white space around.  The second test of the loop, on the
    number of parts, never fails.  The result says whether an entry was
    stored.  The session is otherwise the one before: the file chosen
    earlier stays chosen. *)
Theorem html_files_are_listing_lines (s : Setup.t) :
  exists taken sm' files,
    Setup.get_html_files_from_sd s
    = Some (0 <? length files,
            Setup.set_portal_html_files files (Spec.with_port sm' s))
    /\ SerialManager.inbox (SerialManager.serial_conn (Spec.port s))
       = taken ++ SerialManager.inbox (SerialManager.serial_conn sm')
    /\ SerialManager.written sm'
       = SerialManager.written (Spec.port s)
         ++ [Spec.command_line (lit "list_sd")]
    /\ files = flat_map Setup.html_entries (Spec.collected taken)
    /\ length files
       = length (filter (fun line =>
                           match Re.search false Setup.html_pattern line with
                           | Some _ => true
                           | None => false
                           end) (Spec.collected taken))
    /\ Forall Spec.listed_file files
    /\ (forall f, In f files <->
                  exists line, In line (Spec.collected taken)
                               /\ Spec.listing_line line f).
Proof.
  destruct (ListingFacts.get_html_files_from_sd_run s)
    as (taken & sm' & E & Ei & Ew).
  exists taken, sm', (flat_map Setup.html_entries (Spec.collected taken)).
  split; [exact E|]. split; [exact Ei|]. split; [exact Ew|].
  split; [reflexivity|]. split; [apply ListingFacts.flat_map_count|].
  assert (forall f, In f (flat_map Setup.html_entries (Spec.collected taken))
                    <-> exists line, In line (Spec.collected taken)
                                     /\ Spec.listing_line line f) as Hin.
  { intros f. rewrite in_flat_map. split; intros (line & Hl & Hf);
      exists line; (split; [exact Hl|]);
      now apply ListingFacts.html_entries_spec. }
  split; [|exact Hin].
  apply Forall_forall. intros f Hf. apply Hin in Hf as (line & _ & HL & _).
  exact HL.
Qed.

Module SelectionFacts.

Lemma select_html_file_menu_spec (typed : option str) (s : Setup.t) :
  exists chosen s',
    Setup.select_html_file_menu typed s = Some (chosen, s')
    /\ (chosen = false -> s' = s \/ s' = Setup.sleep 1000 s)
    /\ (chosen = true ->
        exists raw f before after v sm' taken,
          typed = Some raw
          /\ Setup.portal_html_files s = before ++ f :: after
          /\ Setup.number f = strip raw
          /\ Forall (fun g => Setup.number g <> strip raw) before
          /\ Setup.number f <> lit "0"
          /\ py_int (Setup.number f) = Ok v
          /\ (Spec.digits (Setup.number f) ->
              v = digits_val (Setup.number f))
          /\ s' = Spec.with_port sm'
                    (Setup.set_selected_html_name (Setup.name f)
                       (Setup.set_selected_html_index v s))
          /\ SerialManager.written sm'
             = SerialManager.written (Spec.port s)
               ++ [Spec.command_line (lit "select_html " ++ str_of_Z v)]
          /\ SerialManager.inbox (SerialManager.serial_conn (Spec.port s))
             = taken ++ SerialManager.inbox (SerialManager.serial_conn sm'))
    /\ (forall raw f before after,
          typed = Some raw ->
          Setup.portal_html_files s = before ++ f :: after ->
          Setup.number f = strip raw ->
          Forall (fun g => Setup.number g <> strip raw) before ->
          Spec.digits (Setup.number f) -> length (Setup.number f) <= 4300 ->
          Setup.number f <> lit "0" ->
          chosen = true).
Proof.
  unfold Setup.select_html_file_menu.
  destruct (Setup.portal_html_files s) as [|f0 files0] eqn:Efiles.
  { exists false, s. split; [reflexivity|]. split; [now left|].
    split; [discriminate|].
    intros raw f before after _ E. now destruct before. }
  rewrite <- Efiles.
  destruct typed as [raw|].
  2:{ exists false, s. split; [reflexivity|]. split; [now left|].
      split; discriminate. }
  destruct (truthy (strip raw)) eqn:Et.
  2:{ cbn [negb orb]. exists false, (Setup.sleep 1000 s).
      split; [reflexivity|]. split; [now right|]. split; [discriminate|].
      intros raw0 f before after [= ->] _ Hn _ [Hne _].
      rewrite Hn in Hne. destruct (strip raw0); [congruence | discriminate]. }
  destruct (str_eqb (strip raw) (lit "0")) eqn:E0.
  { cbn [negb orb]. exists false, (Setup.sleep 1000 s).
    split; [reflexivity|]. split; [now right|]. split; [discriminate|].
    intros raw0 f before after [= ->] _ Hn _ _ _ H0.
    apply str_eqb_true in E0. congruence. }
  cbn [negb orb].
  destruct (py_int (strip raw)) as [v|e] eqn:Ei.
  2:{ exists false, (Setup.sleep 1000 s).
      split; [reflexivity|]. split; [now right|]. split; [discriminate|].
      intros raw0 f before after [= ->] _ Hn _ Hd.
      rewrite <- Hn, (py_int_digits _ Hd) in Ei. discriminate. }
  destruct (List.find
              (fun file_info => str_eqb (Setup.number file_info) (strip raw))
              (Setup.portal_html_files s)) as [f|] eqn:Ef.
  - pose proof Ef as Ef'.
    apply MenuFacts.list_find_first in Ef' as (b & a & El & Hx & Hb).
    apply str_eqb_true in Hx.
    destruct (ListingFacts.read_response_session 2000
                (Setup.sleep 1000
                   (Setup.send (lit "select_html " ++ str_of_Z v)
                      (Setup.set_selected_html_name (Setup.name f)
                         (Setup.set_selected_html_index v s)))))
      as (lines & sm' & taken & -> & Ein & _ & Ew).
    eexists true, _. split; [reflexivity|]. split; [discriminate|].
    split; [|reflexivity].
    intros _. exists raw, f, b, a, v, sm', taken.
    split; [reflexivity|]. split; [exact El|]. split; [exact Hx|].
    split.
    { eapply Forall_impl; [|exact Hb]. intros g Hg.
      now apply MenuFacts.str_eqb_false. }
    split; [rewrite Hx; now apply MenuFacts.str_eqb_false|].
    split; [now rewrite Hx|].
    split.
    { intros Hd. rewrite <- Hx, (py_int_digits _ Hd) in Ei. congruence. }
    split; [reflexivity|]. split; [exact Ew | exact Ein].
  - exists false, (Setup.sleep 1000 s).
    split; [reflexivity|]. split; [now right|]. split; [discriminate|].
    intros raw0 f before after [= ->] El Hn Hbefore _ _ _. exfalso.
    assert (List.find
              (fun file_info => str_eqb (Setup.number file_info) (strip raw0))
              (Setup.portal_html_files s) = Some f) as C.
    { apply MenuFacts.list_find_first. exists before, after.
      repeat split; [assumption | now apply str_eqb_true |].
      eapply Forall_impl; [|exact Hbefore]. intros g Hg.
      now apply MenuFacts.str_eqb_false. }
    congruence.
Qed.

End SelectionFacts.

(** X14.  [select_html_file_menu] chooses a file only for an answer that,
    stripped, is an integer literal other than [0] and is, character for
    character, the number of a stored entry; the first such entry is chosen.
    It then stores the value of the literal and the name of the entry, and
    writes the one command [select_html] with that value in decimal; the
    command carries the value, not the text, so the leading zeros of a
    listed number are not sent.  Otherwise nothing is written or stored, and
    the session is as before or one second later.  An answer of at most 4300
    digits, other than [0], that is the number of a stored entry does
    choose. *)
Theorem html_selection_command (typed : option str) (s : Setup.t) :
  exists chosen s',
    Setup.select_html_file_menu typed s = Some (chosen, s')
    /\ (chosen = false -> s' = s \/ s' = Setup.sleep 1000 s)
    /\ (chosen = true ->
        exists raw f before after v sm' taken,
          typed = Some raw
          /\ Setup.portal_html_files s = before ++ f :: after
          /\ Setup.number f = strip raw
          /\ Forall (fun g => Setup.number g <> strip raw) before
          /\ Setup.number f <> lit "0"
          /\ py_int (Setup.number f) = Ok v
          /\ (Spec.digits (Setup.number f) ->
              v = digits_val (Setup.number f))
          /\ s' = Spec.with_port sm'
                    (Setup.set_selected_html_name (Setup.name f)
                       (Setup.set_selected_html_index v s))
          /\ SerialManager.written sm'
             = SerialManager.written (Spec.port s)
               ++ [Spec.command_line (lit "select_html " ++ str_of_Z v)]
          /\ SerialManager.inbox (SerialManager.serial_conn (Spec.port s))
             = taken ++ SerialManager.inbox (SerialManager.serial_conn sm'))
    /\ (forall raw f before after,
          typed = Some raw ->
          Setup.portal_html_files s = before ++ f :: after ->
          Setup.number f = strip raw ->
          Forall (fun g => Setup.number g <> strip raw) before ->
          Spec.digits (Setup.number f) -> length (Setup.number f) <= 4300 ->
          Setup.number f <> lit "0" ->
          chosen = true).
Proof. apply SelectionFacts.select_html_file_menu_spec. Qed.

Lemma html_selection_command_witness :
  exists s',
    Setup.select_html_file_menu (Some (lit " 01 ")) Sample.listed_session
    = Some (true, s').
Proof.
  destruct (html_selection_command (Some (lit " 01 ")) Sample.listed_session)
    as (chosen & s' & E & _ & _ & H).
  exists s'. rewrite E. f_equal. f_equal.
  refine (H (lit " 01 ") _ [] [_] eq_refl eq_refl eq_refl _ _ _ _).
  - constructor.
  - split; [discriminate | repeat constructor].
  - vm_compute. lia.
  - discriminate.
Defined.

(** ** The launch of the portal and of the evil twin *)

Module LaunchFacts.

Import Setup.





End LaunchFacts.

Module PortalLaunch.


End PortalLaunch.


Module TwinLaunch.


End TwinLaunch.


(** ** The set-up of the portal and of the evil twin, end to end *)

Module SetupFacts.

Import Setup.






End SetupFacts.




(** ** The stored selection and the command that carries it *)

Module SelectionSync.

Import Re ReFacts ReShapes JanOS.

Lemma uint_digits (d : Decimal.uint) :
  Forall (fun c => is_digit c = true) (lit (NilEmpty.string_of_uint d)).
Proof.
  induction d; cbn [NilEmpty.string_of_uint lit list_ascii_of_string];
    constructor; (reflexivity || assumption).
Qed.

(** The decimal text of a number that is not negative is a non-empty run
    of digits. *)
Lemma str_of_Z_digits (z : Z) : (0 <= z)%Z -> Spec.digits (str_of_Z z).
Proof.
  intros Hz. unfold str_of_Z.
  assert (exists d, Z.to_int z = Decimal.Pos d) as [d ->].
  { destruct z as [|p|p]; cbn [Z.to_int]; eauto. lia. }
  cbn [NilZero.string_of_int]. unfold NilZero.string_of_uint.
  destruct d; try (split; [discriminate | apply uint_digits]).
  split; [discriminate | repeat constructor].
Qed.

Lemma join_digits_blanks (parts : list str) :
  Forall Spec.digits parts ->
  Forall (fun c => is_digit c || is_space c = true) (join (lit " ") parts).
Proof.
  induction 1 as [|p parts [_ Hp] Hparts IH]; [constructor|].
  assert (Forall (fun c => is_digit c || is_space c = true) p) as Hp'.
  { eapply Forall_impl; [|exact Hp]. intros c Hc. cbn beta in Hc.
    now rewrite Hc. }
  destruct parts as [|q parts]; [exact Hp'|].
  change (join (lit " ") (p :: q :: parts))
    with (p ++ lit " " ++ join (lit " ") (q :: parts)).
  apply Forall_app. split; [exact Hp'|].
  apply Forall_app. split; [repeat constructor | exact IH].
Qed.

(** The text for [all] is made of digits and blanks, and is not empty when
    there is a network. *)
Lemma all_indices_chars (n : Z) :
  Forall (fun c => is_digit c || is_space c = true) (all_indices n).
Proof.
  unfold all_indices. apply join_digits_blanks.
  apply Forall_forall. intros p Hp. apply in_map_iff in Hp as (i & <- & _).
  apply str_of_Z_digits. lia.
Qed.

Lemma all_indices_truthy (n : Z) : (0 < n)%Z -> all_indices n <> [].
Proof.
  intros Hn. unfold all_indices.
  destruct (Z.to_nat n) as [|k] eqn:E; [lia|].
  rewrite <- cons_seq. cbn [map].
  destruct (str_of_Z_digits (Z.of_nat 0 + 1) ltac:(lia)) as [Hne _].
  destruct (map _ (seq 1 k)) as [|q rest].
  - exact Hne.
  - change (join (lit " ") (str_of_Z (Z.of_nat 0 + 1) :: q :: rest))
      with (str_of_Z (Z.of_nat 0 + 1) ++ lit " " ++ join (lit " ") (q :: rest)).
    destruct (str_of_Z (Z.of_nat 0 + 1)); [congruence | discriminate].
Qed.

(** The selection pattern accepts every non-empty text of digits and
    blanks. *)
Lemma selection_accepted (selection : str) :
  selection <> [] ->
  Forall (fun c => is_digit c || is_space c = true) selection ->
  match_ false selection_pattern selection <> None.
Proof.
  intros Hne Hc. unfold match_, match_at.
  eapply (m_complete _ false (length selection) selection_pattern
            selection [] [] []); [|discriminate].
  unfold selection_pattern.
  eapply M_Seq; [now apply M_Bol|].
  pose proof (M_Plus_Chr_intro false (length selection)
                (CUnion CDigit CSpace) selection Hne Hc [] []) as HP.
  rewrite app_nil_r in HP.
  eapply M_Seq; [exact HP|]. apply M_Eol. now left.
Qed.

(** [select_networks_menu] once the selection text is fixed. *)
Lemma select_networks_menu_accept (raw selection : str) (j : t) :
  NetworkManager.network_count (network_mgr j) <> 0%Z ->
  strip raw <> [] ->
  selection = (if str_eqb (lower (strip raw)) (lit "all")
               then all_indices (NetworkManager.network_count (network_mgr j))
               else strip raw) ->
  selection <> [] ->
  Forall (fun c => is_digit c || is_space c = true) selection ->
  select_networks_menu (Some raw) j
  = sleep 1000
      (sleep 1000
         (send (lit "select_networks " ++ selection)
            (set_network_mgr
               (NetworkManager.set_selected_networks selection (network_mgr j))
               j))).
Proof.
  intros Hn Hraw Es Hne Hc. unfold select_networks_menu.
  apply Z.eqb_neq in Hn. rewrite Hn.
  assert (truthy (strip raw) = true) as ->
    by (destruct (strip raw); [congruence | reflexivity]).
  cbn [negb]. rewrite <- Es.
  pose proof (selection_accepted selection Hne Hc) as Hm.
  destruct (match_ false selection_pattern selection); [reflexivity | congruence].
Qed.

(** What [select_networks_menu] can do to the session. *)
Lemma select_networks_menu_cases (typed : option str) (j : t) :
  let j' := select_networks_menu typed j in
  (network_mgr j' = network_mgr j
   /\ SerialManager.written (serial_mgr j') = SerialManager.written (serial_mgr j))
  \/ exists selection,
       j' = sleep 1000
              (sleep 1000
                 (send (lit "select_networks " ++ selection)
                    (set_network_mgr
                       (NetworkManager.set_selected_networks selection
                          (network_mgr j)) j)))
       /\ selection <> []
       /\ Forall (fun c => is_digit c || is_space c = true) selection.
Proof.
  cbn zeta. unfold select_networks_menu.
  destruct (NetworkManager.network_count (network_mgr j) =? 0)%Z;
    [left; now split|].
  destruct typed as [raw|]; [|left; now split].
  destruct (truthy (strip raw)); cbn [negb]; [|left; now split].
  match goal with |- context [match_ false selection_pattern ?sel] =>
    destruct (match_ false selection_pattern sel) as [mo|] eqn:Em;
      [right; exists sel | left; now split]
  end.
  split; [reflexivity|].
  pose proof (SelectFacts.selection_match_chars _ _ Em) as Hc.
  split; [|exact Hc].
  unfold match_ in Em. apply match_at_sound in Em as (w & post & E & HM & _).
  unfold selection_pattern in HM.
  apply M_Seq_inv in HM as (s1 & g1 & H1 & HM).
  apply M_Bol_inv in H1 as (-> & -> & _).
  apply M_Seq_inv in HM as (s2 & g2 & H2 & HM).
  apply M_Plus_Chr_inv in H2 as (v & Ev & -> & Hv & _).
  rewrite E, Ev. destruct v; [congruence | discriminate].
Qed.

End SelectionSync.

(** X19.  [select_networks_menu] changes the stored selection only
    together with one [select_networks] command that carries the same
    text, a non-empty text of digits and blanks; in every other case the
    network manager is as before and nothing is written.  The list of
    networks and its count are never touched.  With networks known, a
    non-empty answer of digits and blanks is stored and sent as it is,
    stripped, whatever the numbers: they are not compared with the count.
    The answer [all], in any letter case, stands for the indices from 1 to
    the count, whatever the count. *)
Theorem selection_is_stored_and_sent_together (typed : option str) (j : JanOS.t) :
  let j' := JanOS.select_networks_menu typed j in
  let nm := JanOS.network_mgr j in
  let nm' := JanOS.network_mgr j' in
  NetworkManager.networks nm' = NetworkManager.networks nm
  /\ NetworkManager.network_count nm' = NetworkManager.network_count nm
  /\ ((nm' = nm
       /\ SerialManager.written (JanOS.serial_mgr j')
          = SerialManager.written (JanOS.serial_mgr j))
      \/ (NetworkManager.selected_networks nm' <> []
          /\ Forall (fun c => is_digit c || is_space c = true)
               (NetworkManager.selected_networks nm')
          /\ SerialManager.written (JanOS.serial_mgr j')
             = SerialManager.written (JanOS.serial_mgr j)
               ++ [Spec.command_line
                     (lit "select_networks "
                      ++ NetworkManager.selected_networks nm')]))
  /\ (forall raw,
        typed = Some raw ->
        (0 < NetworkManager.network_count nm)%Z ->
        strip raw <> [] ->
        let selection :=
          if str_eqb (lower (strip raw)) (lit "all")
          then JanOS.all_indices (NetworkManager.network_count nm)
          else strip raw in
        (lower (strip raw) = lit "all"
         \/ Forall (fun c => is_digit c || is_space c = true) (strip raw)) ->
        NetworkManager.selected_networks nm' = selection
        /\ SerialManager.written (JanOS.serial_mgr j')
           = SerialManager.written (JanOS.serial_mgr j)
             ++ [Spec.command_line (lit "select_networks " ++ selection)]).
Proof.
  cbn zeta.
  assert (forall raw,
            typed = Some raw ->
            (0 < NetworkManager.network_count (JanOS.network_mgr j))%Z ->
            strip raw <> [] ->
            let selection :=
              if str_eqb (lower (strip raw)) (lit "all")
              then JanOS.all_indices
                     (NetworkManager.network_count (JanOS.network_mgr j))
              else strip raw in
            (lower (strip raw) = lit "all"
             \/ Forall (fun c => is_digit c || is_space c = true) (strip raw)) ->
            NetworkManager.selected_networks
              (JanOS.network_mgr (JanOS.select_networks_menu typed j))
            = selection
            /\ SerialManager.written
                 (JanOS.serial_mgr (JanOS.select_networks_menu typed j))
               = SerialManager.written (JanOS.serial_mgr j)
                 ++ [Spec.command_line (lit "select_networks " ++ selection)])
    as Hlast.
  { intros raw Ht Hn Hraw selection Hs. subst typed.
    assert (selection <> []
            /\ Forall (fun c => is_digit c || is_space c = true) selection)
      as [Hne Hc].
    { subst selection.
      destruct (str_eqb (lower (strip raw)) (lit "all")) eqn:Ea.
      - split; [now apply SelectionSync.all_indices_truthy
               | apply SelectionSync.all_indices_chars].
      - destruct Hs as [Hs | Hs];
          [apply str_eqb_true in Hs; congruence | now split]. }
    rewrite (SelectionSync.select_networks_menu_accept raw selection j);
      [split; reflexivity | lia | exact Hraw | reflexivity
       | exact Hne | exact Hc]. }
  destruct (SelectionSync.select_networks_menu_cases typed j)
    as [[En Ew] | (selection & E & Hne & Hc)]; cbn zeta in *.
  - split; [now rewrite En|]. split; [now rewrite En|].
    split; [left; now split | exact Hlast].
  - split; [now rewrite E|]. split; [now rewrite E|].
    split; [|exact Hlast].
    right. rewrite E. split; [exact Hne|]. split; [exact Hc | reflexivity].
Qed.

Lemma selection_is_stored_and_sent_together_witness :
  NetworkManager.selected_networks
    (JanOS.network_mgr
       (JanOS.select_networks_menu (Some (lit " 7 9 ")) Sample.scanned_session))
  = lit "7 9".
Proof.
  destruct (selection_is_stored_and_sent_together
              (Some (lit " 7 9 ")) Sample.scanned_session) as (_ & _ & _ & H).
  refine (proj1 (H (lit " 7 9 ") eq_refl _ _ _)).
  - vm_compute. reflexivity.
  - discriminate.
  - right. repeat constructor.
Defined.

(** ** Choosing the serial device *)

Module DeviceFacts.

Import Device.




Lemma isdigit_chars (s : str) :
  isdigit s = true -> s <> [] /\ Forall (fun c => isdigit_char c = true) s.
Proof.
  unfold isdigit. intros H. apply andb_prop in H as [Ht Hf].
  split; [destruct s; [discriminate | discriminate]|].
  apply Forall_forall. now apply forallb_forall.
Qed.

Lemma isdigit_char_plain (c : ascii) :
  isdigit_char c = true ->
  is_space c = false /\ ascii_eqb c "-"%char = false
  /\ ascii_eqb c "+"%char = false /\ ascii_eqb c "_"%char = false.
Proof.
  destruct c as [[] [] [] [] [] [] [] []]; vm_compute;
    intuition congruence.
Qed.

(** A character that is neither a digit nor an underscore spoils the
    literal. *)
Lemma int_digits_spoiled (s : str) (c : ascii) :
  In c s -> is_digit c = false -> ascii_eqb c "_"%char = false ->
  forall b acc, int_digits s b acc = None.
Proof.
  intros Hin Hd Hu. induction s as [|x s IH]; [destruct Hin|].
  intros b acc. cbn [int_digits]. destruct Hin as [-> | Hin].
  - now rewrite Hd, Hu.
  - destruct (is_digit x); [now apply IH|].
    destruct (ascii_eqb x "_"%char); [|reflexivity].
    destruct b; [now apply IH | reflexivity].
Qed.

(** [int()] of a text that [isdigit] accepts: its value if every
    character is a decimal digit, and an error if not. *)
Lemma py_int_isdigit (s : str) :
  isdigit s = true ->
  (Forall (fun c => is_digit c = true) s /\ py_int s = Ok (digits_val s))
  \/ ((exists c, In c s /\ is_digit c = false) /\ py_int s = Raise ValueError).
Proof.
  intros H. apply isdigit_chars in H as [Hne Hc].
  destruct (forallb is_digit s) eqn:Ed.
  - left. assert (Forall (fun c => is_digit c = true) s) as Hd.
    { apply Forall_forall. now apply forallb_forall. }
    split; [exact Hd|]. apply py_int_digits. now split.
  - right.
    assert (exists c, In c s /\ is_digit c = false) as (c & Hin & Hd).
    { clear Hne Hc. induction s as [|x s IH]; [discriminate|].
      cbn [forallb] in Ed. destruct (is_digit x) eqn:Ex.
      - destruct (IH Ed) as (c & Hin & Hd). exists c. split; [now right | exact Hd].
      - exists x. split; [now left | exact Ex]. }
    split; [now exists c|].
    unfold py_int.
    assert (strip s = s) as ->.
    { apply strip_by_fixed. eapply Forall_impl; [|exact Hc].
      intros a Ha. now apply isdigit_char_plain in Ha. }
    destruct s as [|x s]; [congruence|].
    inversion Hc as [|? ? Hx Hs]; subst.
    destruct (isdigit_char_plain x Hx) as (_ & E1 & E2 & _).
    rewrite E1, E2.
    rewrite (int_digits_spoiled (x :: s) c Hin Hd); [reflexivity|].
    rewrite Forall_forall in Hc. now apply isdigit_char_plain, Hc.
Qed.

Lemma letter_choice_not_isdigit (choice typed_manual : str) (e : round_end) :
  letter_choice choice typed_manual = Some e -> isdigit choice = false.
Proof.
  unfold letter_choice.
  destruct (str_eqb choice (lit "r")) eqn:Er;
    [apply str_eqb_true in Er; now subst|].
  destruct (str_eqb choice (lit "m")) eqn:Em;
    [apply str_eqb_true in Em; now subst|].
  destruct (str_eqb choice (lit "q")) eqn:Eq;
    [apply str_eqb_true in Eq; now subst | discriminate].
Qed.

End DeviceFacts.



(** X21.  One round of [select_device_interactive].  The choice is tested
    with [isdigit] and then parsed with [int], and the two do not agree: on
    a choice that is not [r], [m] or [q], with ports found, the round raises
    [ValueError] exactly when the choice, stripped and lowered, is made of
    characters that [isdigit] accepts and one of them is not a decimal
    digit, which is the case of the superscript digits; nothing in the
    function catches it.  A choice made of decimal digits never raises.
    This is for a choice of at most 4300 characters.  A device path is
    returned only as the manual path, stripped and not empty, or as the
    device of the port whose position is the number chosen, after a
    confirmation that is empty, [y] or [yes]. *)
Theorem device_round_raises_on_superscripts
    (ports : list Device.PortInfo) (typed_choice typed_manual typed_confirm : str) :
  let choice := lower (strip typed_choice) in
  let r := Device.select_device_round ports typed_choice typed_manual typed_confirm in
  length choice <= 4300 ->
  (forall e, r = Raise e ->
     e = ValueError /\ ports <> [] /\ Device.isdigit choice = true
     /\ exists c, In c choice /\ is_digit c = false)
  /\ (ports <> [] -> Device.isdigit choice = true ->
      (exists c, In c choice /\ is_digit c = false) ->
      r = Raise ValueError)
  /\ (Spec.digits choice -> exists e, r = Ok e)
  /\ (forall path, r = Ok (Device.Use path) ->
        (choice = lit "m" /\ path = strip typed_manual /\ path <> [])
        \/ (Spec.digits choice
            /\ (1 <= digits_val choice <= Z.of_nat (length ports))%Z
            /\ (exists port,
                  nth_error ports (Z.to_nat (digits_val choice - 1)) = Some port
                  /\ path = Device.device port)
            /\ In (lower (strip typed_confirm)) [[]; lit "y"; lit "yes"])).
Proof.
  intros choice r _. subst r. unfold Device.select_device_round. fold choice.
  destruct (Device.letter_choice choice typed_manual) as [e0|] eqn:El.
  { pose proof (DeviceFacts.letter_choice_not_isdigit _ _ _ El) as Hnd.
    split; [discriminate|].
    split; [intros _ Hd; congruence|].
    split; [eauto|].
    intros path [= ->]. left. unfold Device.letter_choice in El.
    destruct (str_eqb choice (lit "r")); [discriminate|].
    destruct (str_eqb choice (lit "m")) eqn:Em.
    - apply str_eqb_true in Em.
      destruct (strip typed_manual) as [|x t] eqn:Es; [discriminate|].
      injection El as <-. repeat split; [exact Em | discriminate].
    - destruct (str_eqb choice (lit "q")); discriminate. }
  destruct ports as [|p0 ports].
  { split; [discriminate|]. split; [congruence|]. split; [eauto|]. discriminate. }
  destruct (Device.isdigit choice) eqn:Ed; cbn [negb].
  2:{ split; [discriminate|]. split; [discriminate|]. split; [eauto|].
      discriminate. }
  destruct (DeviceFacts.py_int_isdigit choice Ed) as [[Hall Ei] | [Hbad Ei]];
    rewrite Ei; cbn [bind].
  - assert (Spec.digits choice) as Hdig.
    { split; [|exact Hall]. now apply DeviceFacts.isdigit_chars in Ed as [Hne _]. }
    set (index := (digits_val choice - 1)%Z).
    destruct ((index <? 0)%Z || (Z.of_nat (length (p0 :: ports)) <=? index)%Z)
      eqn:Er.
    { split; [discriminate|]. split.
      - intros _ _ (c & Hin & Hc). rewrite Forall_forall in Hall.
        rewrite (Hall c Hin) in Hc. discriminate.
      - split; [eauto | discriminate]. }
    apply orb_false_elim in Er as [E1 E2].
    apply Z.ltb_ge in E1. apply Z.leb_gt in E2.
    unfold getitem.
    destruct (nth_error (p0 :: ports) (Z.to_nat index)) as [port|] eqn:En.
    2:{ apply nth_error_None in En. lia. }
    cbn [bind].
    destruct (existsb (str_eqb (lower (strip typed_confirm)))
                [[]; lit "y"; lit "yes"]) eqn:Ec.
    + split; [discriminate|]. split.
      * intros _ _ (c & Hin & Hc). rewrite Forall_forall in Hall.
        rewrite (Hall c Hin) in Hc. discriminate.
      * split; [eauto|]. intros path [= <-]. right.
        split; [exact Hdig|]. split; [subst index; lia|].
        split; [now exists port|].
        apply existsb_exists in Ec as (x & Hx & Ex).
        apply str_eqb_true in Ex. now subst x.
    + split; [discriminate|]. split.
      * intros _ _ (c & Hin & Hc). rewrite Forall_forall in Hall.
        rewrite (Hall c Hin) in Hc. discriminate.
      * split; [eauto | discriminate].
  - split.
    { intros e [= <-]. split; [reflexivity|]. split; [discriminate|].
      split; [reflexivity | exact Hbad]. }
    split; [reflexivity|].
    split; [|discriminate].
    intros [_ Hall]. destruct Hbad as (c & Hin & Hc).
    rewrite Forall_forall in Hall. rewrite (Hall c Hin) in Hc. discriminate.
Qed.

Lemma device_round_raises_on_superscripts_witness :
  Device.select_device_round Sample.two_ports
    [ascii_of_nat 178] [] [] = Raise ValueError.
Proof.
  refine (proj1 (proj2 (device_round_raises_on_superscripts
                          Sample.two_ports [ascii_of_nat 178] [] [] _)) _ _ _).
  - vm_compute. lia.
  - discriminate.
  - reflexivity.
  - exists (ascii_of_nat 178). split; [now left | reflexivity].
Defined.
